(** * A movie catalogue: search, statistics, ranking and random pick

    Shallow embedding of [movies.py] and [movie_storage_sql.py].

    The operations of [movies.py] take no argument and return nothing: they
    read the catalogue through [storage.list_movies()], read the keyboard
    through [input] and write through [print].  They are embedded as
    computations in a state and exception monad over a [state] that holds the
    SQL table, the dictionary bound to the local name [movies], the
    keyboard, the screen and the random generator.

    Modelling decisions, each recorded where it is made:
    - ratings are Python floats: IEEE 754 binary64 values, embedded as the
      [spec_float] of the Standard Library with its operations at precision
      53 and exponent bound 1024, so that [+], [-], [/] and the comparisons
      round and order as the machine does, not-a-number and the infinities
      included;
    - a string stands for the Python [str] with the same UTF-8 bytes, so
      that [==] and [in] on strings are those of Python; [str.lower] depends
      on the Unicode tables and is a parameter of [search_movie]; it is
      written out on ASCII text, where it is the lower-casing of [A]..[Z],
      and on text of code points below 256;
    - a dictionary is an association list in insertion order with pairwise
      distinct keys;
    - [thefuzz] is not part of the repository: the score of a choice
      against a query, as [fuzz.token_set_ratio] computes it before it is
      rounded, is a parameter, and [process.extract] follows the library
      (the five best by that score, in input order among equals, each
      score then rounded to an integer);
    - [random.choice] follows CPython, [seq[self._randbelow(len(seq))]]; the
      values [_randbelow] returns are the stream [entropy];
    - [sum] over floats adds from left to right up to Python 3.11 and with
      Neumaier's compensation from Python 3.12 on; [stats] takes the
      release as an argument. *)

From Stdlib Require Import List String Ascii Bool Arith ZArith QArith Lia Lqa.
From Stdlib Require Import Sorted Permutation.
From Stdlib Require Import DecimalString.
From Stdlib Require Import SpecFloat.
Import ListNotations.

Local Open Scope string_scope.
Local Open Scope list_scope.

(** ** Exceptions and results *)

Inductive exn : Type :=
| ZeroDivisionError
| IndexError
| KeyError
| ValueError
| EOFError.

Inductive result (A : Type) : Type :=
| Ok (a : A)
| Raise (e : exn).

Arguments Ok {A} a.
Arguments Raise {A} e.

(** ** The Python built-ins the program uses *)

Module Py.

(** [str.lower] on ASCII text: [A]..[Z] go to [a]..[z], every other
    character stays. *)
Definition ascii_lower_char (c : ascii) : ascii :=
  let n := nat_of_ascii c in
  if (65 <=? n)%nat && (n <=? 90)%nat then ascii_of_nat (n + 32) else c.

Fixpoint ascii_lower (s : string) : string :=
  match s with
  | EmptyString => EmptyString
  | String c rest => String (ascii_lower_char c) (ascii_lower rest)
  end.

(** [str.lower] on text whose code points are all below 256, in UTF-8.
    Beyond ASCII its capital letters are U+00C0 to U+00DE without the sign
    U+00D7: the byte 195 followed by a byte from 128 to 158 other than
    151; their small letters are 32 higher.  [after_195] tells that the
    byte before was 195. *)
Fixpoint latin1_lower_from (after_195 : bool) (s : string) : string :=
  match s with
  | EmptyString => EmptyString
  | String c rest =>
      let n := nat_of_ascii c in
      String (if after_195 && (128 <=? n)%nat && (n <=? 158)%nat && negb (n =? 151)%nat
              then ascii_of_nat (n + 32)
              else ascii_lower_char c)
             (latin1_lower_from (n =? 195)%nat rest)
  end.

Definition latin1_lower (s : string) : string := latin1_lower_from false s.


(** [needle in hay] on strings: [needle] occurs in [hay] at some offset. *)
Fixpoint contains (needle hay : string) : bool :=
  if String.prefix needle hay then true
  else match hay with
       | EmptyString => false
       | String _ rest => contains needle rest
       end.

(** A Python [float]. *)
Definition float : Type := spec_float.

Definition nan : float := S754_nan.

(** [float(n)] for an integer [n], and the float a decimal literal such as
    [8.7] denotes, written [float_literal 87 10]: the quotient of two
    integers below 2^53, rounded once. *)
Definition float_of_int (n : Z) : float := binary_normalize 53 1024 n 0 false.

Definition fadd (a b : float) : float := SFadd 53 1024 a b.
Definition fsub (a b : float) : float := SFsub 53 1024 a b.
Definition fdiv (a b : float) : float := SFdiv 53 1024 a b.
Definition fabs (a : float) : float := SFabs a.

Definition float_literal (n : Z) (d : positive) : float :=
  fdiv (float_of_int n) (float_of_int (Zpos d)).

(** [a < b], [a <= b] and [a == b] on floats; each is false when one side
    is not-a-number. *)
Definition float_lt (a b : float) : bool := SFltb a b.
Definition float_le (a b : float) : bool := SFleb a b.
Definition float_eq (a b : float) : bool := SFeqb a b.

Definition isnan (a : float) : bool :=
  match a with S754_nan => true | _ => false end.

(** [len(l)] *)
Definition len {A : Type} (l : list A) : Z := Z.of_nat (List.length l).

(** The two summations of CPython's [sum]. *)
Inductive release : Type :=
| Before312                                 (* Python up to 3.11: left to right *)
| From312.                                  (* Python 3.12 and later: compensated *)

(** One round of the compensated summation: the running sum [f] and the
    compensation [c] after the item [x]. *)
Definition compensate (fc : float * float) (x : float) : float * float :=
  let '(f, c) := fc in
  let t := fadd f x in
  if float_le (fabs x) (fabs f)
  then (t, fadd c (fadd (fsub f t) x))
  else (t, fadd c (fadd (fsub x t) f)).

(** [sum(l)] over floats.  The start value is the integer [0], to which the
    first item is added as a float; the empty sum is that [0] (here the
    float zero: [stats] only divides it by [len(l) = 0]).  The compensation
    is added at the end when it is finite and not zero. *)
Definition sum (v : release) (l : list float) : float :=
  match l with
  | [] => float_of_int 0
  | x :: rest =>
      let start := fadd (float_of_int 0) x in
      match v with
      | Before312 => fold_left fadd rest start
      | From312 =>
          let '(f, c) := fold_left compensate rest (start, float_of_int 0) in
          match c with
          | S754_finite _ _ _ => fadd f c
          | _ => f
          end
      end
  end.

(** [x / n] with [n] an integer: [ZeroDivisionError] when [n] is [0]. *)
Definition truediv (x : float) (n : Z) : result float :=
  if (n =? 0)%Z then Raise ZeroDivisionError else Ok (fdiv x (float_of_int n)).

(** The integer nearest to [n / d] for [d > 0], the even one when two are
    equally near. *)
Definition round_half_even (n d : Z) : Z :=
  let q := (n / d)%Z in
  match (2 * (n mod d) ?= d)%Z with
  | Lt => q
  | Gt => (q + 1)%Z
  | Eq => if Z.even q then q else (q + 1)%Z
  end.

(** [round(x, 1)]: the float nearest to the decimal with one digit after
    the point that is nearest to [x] (the even one of two); infinities and
    not-a-number are returned as they are, and a result of zero keeps the
    sign of [x]. *)
Definition round1 (x : float) : float :=
  match x with
  | S754_finite s m e =>
      let tenths :=
        match e with
        | Zneg p => round_half_even (10 * Zpos m) (2 ^ Zpos p)
        | _ => (10 * Zpos m * 2 ^ e)%Z
        end in
      match tenths with
      | Zpos t => SFdiv 53 1024 (S754_finite s t 0) (S754_finite false 10 0)
      | _ => S754_zero s
      end
  | _ => x
  end.

(** [int(round(x))] for a finite float [x] given as the rational it
    denotes. *)
Definition round (x : Q) : Z := round_half_even (Qnum x) (Zpos (Qden x)).

(** [l[i]]: a negative index counts from the end, an index out of range
    raises [IndexError]. *)
Definition getitem {A : Type} (l : list A) (i : Z) : result A :=
  let j := if (i <? 0)%Z then (i + len l)%Z else i in
  if (j <? 0)%Z then Raise IndexError
  else match nth_error l (Z.to_nat j) with
       | Some a => Ok a
       | None => Raise IndexError
       end.

Section Ordering.
Context {A K : Type}.
(** [lt] is Python's [<] on the keys. *)
Variable lt : K -> K -> bool.
Variable key : A -> K.

(** One step of a stable insertion: [x] comes from the left of every
    element of [l] in the input, so it goes before the first element
    that is not smaller. *)
Fixpoint insert (x : A) (l : list A) : list A :=
  match l with
  | [] => [x]
  | y :: rest =>
      if lt (key y) (key x) then y :: insert x rest else x :: y :: rest
  end.

(** [sorted(l, key=key)]: ascending and stable, comparing with [<]
    only.  Every stable sort returns this list when [<] orders the keys,
    that is, when no key is not-a-number. *)
Definition sorted (l : list A) : list A := fold_right insert [] l.

(** [sorted(l, key=key, reverse=True)]: CPython reverses the list,
    sorts it, and reverses the result, which keeps equal keys in their
    input order. *)
Definition sorted_reverse (l : list A) : list A := rev (sorted (rev l)).
End Ordering.

(** [max(l)]: the first largest item ([item > maxitem] replaces). *)
Definition max {K : Type} (lt : K -> K -> bool) (l : list K) : result K :=
  match l with
  | [] => Raise ValueError
  | x :: rest =>
      Ok (fold_left (fun maxitem item => if lt maxitem item then item else maxitem) rest x)
  end.

(** [min(l)]: the first smallest item ([item < minitem] replaces). *)
Definition min {K : Type} (lt : K -> K -> bool) (l : list K) : result K :=
  match l with
  | [] => Raise ValueError
  | x :: rest =>
      Ok (fold_left (fun minitem item => if lt item minitem then item else minitem) rest x)
  end.

End Py.

(** ** thefuzz *)

Module thefuzz.

(** [process.extract(query, choices, scorer=fuzz.token_set_ratio)] with the
    default [limit=5].  Every choice is scored against the query; the
    [limit] choices with the highest scores are returned, the highest
    first and equal scores in the order of [choices]
    ([heapq.nlargest(limit, ..., key=score)], that is
    [sorted(..., key=score, reverse=True)[:limit]]); each is paired with
    [int(round(score))].  The score is the unrounded one of
    [rapidfuzz.fuzz.token_set_ratio], a float from 0 to 100, read as the
    rational it denotes; in the releases of [thefuzz] in which
    [fuzz.token_set_ratio] itself is ranked, the score is that integer.
    The default [score_cutoff=0] drops nothing. *)
Definition limit : nat := 5.

(** [a < b] on scores. *)
Definition score_lt (a b : Q) : bool :=
  match (a ?= b)%Q with Lt => true | _ => false end.

Definition score_all (scorer : string -> string -> Q) (query : string)
    (choices : list string) : list (string * Q) :=
  map (fun choice => (choice, scorer query choice)) choices.

Definition rounded (entry : string * Q) : string * Z :=
  (fst entry, Py.round (snd entry)).

Definition extract (scorer : string -> string -> Q) (query : string)
    (choices : list string) : list (string * Z) :=
  map rounded
      (firstn limit (Py.sorted_reverse score_lt snd (score_all scorer query choices))).

End thefuzz.

(** ** Data *)

(** The inner dictionary [{"year": .., "rating": .., "image": ..}]. *)
Record movie : Type := mkMovie {
  year : Z;
  rating : Py.float;
  image : string
}.

(** A row of the SQL table [movies]: title, year, rating, poster_image_url. *)
Definition row : Type := (string * Z * Py.float * string)%type.

(** A dictionary from titles to movies, in insertion order. *)
Definition dict : Type := list (string * movie).

Fixpoint dict_get (d : dict) (k : string) : option movie :=
  match d with
  | [] => None
  | (k', v) :: rest => if String.eqb k' k then Some v else dict_get rest k
  end.

(** [d[k] = v]: an existing key keeps its place. *)
Fixpoint dict_set (d : dict) (k : string) (v : movie) : dict :=
  match d with
  | [] => [(k, v)]
  | (k', v') :: rest =>
      if String.eqb k' k then (k', v) :: rest else (k', v') :: dict_set rest k v
  end.

Definition dict_keys (d : dict) : list string := map fst d.

(** What the program writes, one constructor per [print] or prompt of the
    source (colour codes and number formatting are left out). *)
Inductive line : Type :=
| Prompt                                    (* the prompt of [input] *)
| PleaseEnter                               (* "Please enter a movie name" *)
| MovieLine (title : string) (y : Z) (r : Py.float) (* "{movie} ({year}): {rating}" *)
| NotFoundLine (title : string)             (* "Movie {title} not found!" *)
| DidYouMean (title : string)               (* 'The movie "{title}" does not exist. Did you mean:' *)
| SuggestionLine (title : string) (y : Z) (r : Py.float) (* "{fuzzy_movie} ({year}), {rating}" *)
| AverageLine (rounded_average : Py.float)  (* "Average rating: {round(average, 1)}" *)
| MedianLine (median : Py.float)            (* "Median rating: {median}" *)
| BestLine (title : string) (y : Z) (r : Py.float)  (* "Best movie: ..." *)
| WorstLine (title : string) (y : Z) (r : Py.float) (* "Worst movie: ..." *)
| TonightLine (title : string) (r : Py.float).      (* "Your movie for tonight: ..." *)

(** ** The state the operations run in *)

Record state : Type := mkState {
  table : list row;          (* the rows of the SQL table, in SELECT order *)
  movies : dict;             (* the dictionary bound to the local [movies] *)
  stdin : list string;       (* the lines still to be typed *)
  stdout : list line;        (* everything written so far *)
  entropy : nat -> nat;      (* what the calls of [_randbelow] return, one after another *)
  draws : nat;               (* how often [_randbelow] has been called *)
  extract_calls : nat        (* how often [process.extract] has been called *)
}.

Definition set_movies (d : dict) (s : state) : state :=
  mkState (table s) d (stdin s) (stdout s) (entropy s) (draws s) (extract_calls s).

Definition set_stdin (i : list string) (s : state) : state :=
  mkState (table s) (movies s) i (stdout s) (entropy s) (draws s) (extract_calls s).

Definition emit (ls : list line) (s : state) : state :=
  mkState (table s) (movies s) (stdin s) (stdout s ++ ls) (entropy s) (draws s)
          (extract_calls s).

Definition count_draw (s : state) : state :=
  mkState (table s) (movies s) (stdin s) (stdout s) (entropy s) (S (draws s))
          (extract_calls s).

Definition count_extract (s : state) : state :=
  mkState (table s) (movies s) (stdin s) (stdout s) (entropy s) (draws s)
          (S (extract_calls s)).

(** ** The monad: state and exceptions *)

Definition M (A : Type) : Type := state -> result A * state.

Definition ret {A : Type} (a : A) : M A := fun s => (Ok a, s).

Definition bind {A B : Type} (m : M A) (k : A -> M B) : M B :=
  fun s =>
    match m s with
    | (Ok a, s') => k a s'
    | (Raise e, s') => (Raise e, s')
    end.

Definition raise {A : Type} (e : exn) : M A := fun s => (Raise e, s).

Definition lift {A : Type} (r : result A) : M A := fun s => (r, s).

Declare Scope py_scope.
Delimit Scope py_scope with py.
Notation "x <- m ;; k" := (bind m (fun x => k))
  (at level 61, m at next level, right associativity) : py_scope.
Notation "m ;; k" := (bind m (fun _ => k))
  (at level 61, right associativity) : py_scope.
Local Open Scope py_scope.

(** [for x in l: body(x)] *)
Fixpoint for_each {A : Type} (l : list A) (body : A -> M unit) : M unit :=
  match l with
  | [] => ret tt
  | x :: rest => body x ;; for_each rest body
  end.

(** [[f(x) for x in l]] *)
Fixpoint for_list {A B : Type} (l : list A) (f : A -> M B) : M (list B) :=
  match l with
  | [] => ret []
  | x :: rest => y <- f x ;; ys <- for_list rest f ;; ret (y :: ys)
  end.

(** A [for] loop that updates one local variable. *)
Fixpoint for_fold {A V : Type} (l : list A) (v : V) (body : V -> A -> M V) : M V :=
  match l with
  | [] => ret v
  | x :: rest => v' <- body v x ;; for_fold rest v' body
  end.

(** [print(..)] *)
Definition print (l : line) : M unit := fun s => (Ok tt, emit [l] s).

(** [input(prompt)]: writes the prompt, then reads a line; [EOFError] when
    nothing is left to read. *)
Definition input : M string :=
  fun s =>
    match stdin s with
    | [] => (Raise EOFError, emit [Prompt] s)
    | l :: rest => (Ok l, set_stdin rest (emit [Prompt] s))
    end.

(** [for movie in movies] iterates over the keys of the dictionary. *)
Definition keys : M (list string) := fun s => (Ok (dict_keys (movies s)), s).

(** [movies.items()] *)
Definition items : M (list (string * movie)) := fun s => (Ok (movies s), s).

(** [movies[k][field]]: [KeyError] when [k] is not a key. *)
Definition field {A : Type} (f : movie -> A) (k : string) : M A :=
  fun s =>
    match dict_get (movies s) k with
    | Some m => (Ok (f m), s)
    | None => (Raise KeyError, s)
    end.

(** [self._randbelow(n)]: the next value of the stream.  CPython returns
    a value from [0] to [n - 1], found by drawing random bits until they
    give one; the bits are not modelled, and a statement about a run
    assumes of the stream that the value is below [n]. *)
Definition randbelow (n : nat) : M nat :=
  fun s => (Ok (entropy s (draws s)), count_draw s).

(** [random.choice(seq)]: [IndexError] on an empty sequence, otherwise
    [seq[self._randbelow(len(seq))]]. *)
Definition random_choice {A : Type} (seq : list A) : M A :=
  if (List.length seq =? 0)%nat then raise IndexError
  else i <- randbelow (List.length seq) ;; lift (Py.getitem seq (Z.of_nat i)).

(** ** movie_storage_sql.py *)

Module storage.

(** [list_movies()]: the dictionary comprehension over the fetched rows,
    [{row[0]: {"year": row[1], "rating": row[2], "image": row[3]}}]. *)
Definition list_movies_of (rows : list row) : dict :=
  fold_left (fun d (r : row) =>
               let '(title, y, rt, img) := r in dict_set d title (mkMovie y rt img))
            rows [].

Definition list_movies : M dict := fun s => (Ok (list_movies_of (table s)), s).

End storage.

(** [movies = storage.list_movies()] *)
Definition assign_movies : M unit :=
  d <- storage.list_movies ;; (fun s => (Ok tt, set_movies d s)).

(** ** movies.py *)

(** The loop that asks for a title until it is not empty.  Each round reads
    one line, so one more round than there are lines left always suffices:
    [input] raises [EOFError] before the rounds run out. *)
Fixpoint ask_title_rounds (rounds : nat) : M string :=
  match rounds with
  | O => raise EOFError
  | S n =>
      title <- input ;;
      if String.eqb title EmptyString then print PleaseEnter ;; ask_title_rounds n
      else ret title
  end.

Definition ask_title : M string :=
  fun s => ask_title_rounds (S (List.length (stdin s))) s.

Definition stats (v : Py.release) : M unit :=
  assign_movies ;;
  ks <- keys ;;
  ratings <- for_list ks (fun movie => field rating movie) ;;
  (* Average *)
  average <- lift (Py.truediv (Py.sum v ratings) (Py.len ratings)) ;;
  print (AverageLine (Py.round1 average)) ;;
  (* Median *)
  let sorted_ratings := Py.sorted Py.float_lt (fun r => r) ratings in
  let mid := Z.quot (Py.len sorted_ratings) 2 in
  median <- (if negb (Py.len sorted_ratings mod 2 =? 0)%Z
             then lift (Py.getitem sorted_ratings mid)
             else a <- lift (Py.getitem sorted_ratings (mid - 1)) ;;
                  b <- lift (Py.getitem sorted_ratings mid) ;;
                  ret (Py.fdiv (Py.fadd a b) (Py.float_of_int 2))) ;;
  print (MedianLine median) ;;
  (* Best and worst movie *)
  maximum <- lift (Py.max Py.float_lt ratings) ;;
  minimum <- lift (Py.min Py.float_lt ratings) ;;
  ks <- keys ;;
  for_each ks (fun movie =>
    r <- field rating movie ;;
    (if Py.float_eq r maximum
     then y <- field year movie ;; r <- field rating movie ;;
          print (BestLine movie y r)
     else ret tt) ;;
    r <- field rating movie ;;
    (if Py.float_eq r minimum
     then y <- field year movie ;; r <- field rating movie ;;
          print (WorstLine movie y r)
     else ret tt)).

Definition random_movie : M unit :=
  assign_movies ;;
  its <- items ;;
  choice <- random_choice its ;;
  let '(movie, values) := choice in
  print (TonightLine movie (rating values)).

Section Search.

(** [str.lower]. *)
Variable str_lower : string -> string.

(** The score of [fuzz.token_set_ratio] before it is rounded. *)
Variable token_set_ratio : string -> string -> Q.

Definition process_extract (query : string) (choices : list string)
  : M (list (string * Z)) :=
  fun s => (Ok (thefuzz.extract token_set_ratio query choices), count_extract s).

Definition search_movie : M unit :=
  assign_movies ;;
  title <- ask_title ;;
  (* First search with keyword matching *)
  ks <- keys ;;
  movie_is_found <-
    for_fold ks false (fun found movie =>
      if Py.contains (str_lower title) (str_lower movie)
      then y <- field year movie ;; r <- field rating movie ;;
           print (MovieLine movie y r) ;; ret true
      else ret found) ;;
  (* Second search with fuzzy string matching *)
  if negb movie_is_found then
    choices <- keys ;;
    fuzzy_search <- process_extract title choices ;;
    first <- lift (Py.getitem fuzzy_search 0) ;;
    if (snd first <? 53)%Z then print (NotFoundLine title)
    else
      print (DidYouMean title) ;;
      for_each fuzzy_search (fun entry =>
        let '(fuzzy_movie, score) := entry in
        if (53 <=? score)%Z
        then y <- field year fuzzy_movie ;; r <- field rating fuzzy_movie ;;
             print (SuggestionLine fuzzy_movie y r)
        else ret tt)
  else ret tt.

End Search.

Definition movies_sorted_by_rating : M unit :=
  assign_movies ;;
  its <- items ;;
  let sorted_movies :=
    Py.sorted_reverse Py.float_lt (fun x : string * movie => rating (snd x)) its in
  for_each sorted_movies (fun movie =>
    print (MovieLine (fst movie) (year (snd movie)) (rating (snd movie)))).

(** * The storage and the operations that edit the catalogue

    [movie_storage_sql.py] and the operations of [movies.py] that list the
    catalogue, change it, or render it as HTML.  They write messages of
    their own, so they run over a [world]: the state of the core
    operations, the screen they write to, and the metadata provider they
    ask.  The provider ([requests.get] on the OMDb API) and the parsers
    [int] and [float] of a typed or received text are parameters. *)

(** The four prompts of [input]. *)
Inductive prompt : Type :=
| NewMovieName                              (* "Enter new movie name: " *)
| NameToDelete                              (* "Enter movie name to delete: " *)
| MovieName                                 (* "Enter movie name: " *)
| NewRating.                                (* "Enter new movie rating (0-10): " *)

(** What these operations write. *)
Inductive message : Type :=
| Asked (p : prompt)                        (* the prompt of [input] *)
| NeedName                                  (* "Please enter a movie name" *)
| NeedNumber                                (* "Please enter a valid number." *)
| Total (n : Z)                             (* "{len(movies)} in total" *)
| Listed (title : string) (y : Z) (r : Py.float) (* "{movie} ({year}): {rating}" *)
| AlreadyExist (title : string)             (* "Movie {title} already exist!" *)
| NoSuchMovie (title : string)              (* "Movie {title} not found" *)
| DoesNotExist (title : string)             (* "Movie {title} doesn't exist!" *)
| NoConnection                              (* "Could not connect to the API. ..." *)
| RequestTimedOut                           (* "The request timed out. ..." *)
| Stored (title : string)                   (* "Movie '{title}' added successfully." *)
| StorageError                              (* "Error: {e}" *)
| Deleted (title : string)                  (* "Movie '{title}' deleted successfully" *)
| Updated (title : string).                 (* "Movie '{title}' updated successfully" *)

(** What [requests.get(url, timeout=10)] and [res.json()] give: the decoded
    object, or one of the two exceptions the caller handles. *)
Inductive reply : Type :=
| Json (data : list (string * string))
| ConnectionError
| Timeout.

Record world : Type := mkWorld {
  core : state;                (* table, [movies] and keyboard *)
  screen : list message;       (* what these operations have written *)
  omdb : string -> reply;      (* the provider's answer to a title *)
  requested : list string      (* the titles asked of the provider so far *)
}.

Definition with_core (s : state) (w : world) : world :=
  mkWorld s (screen w) (omdb w) (requested w).

Definition show (ms : list message) (w : world) : world :=
  mkWorld (core w) (screen w ++ ms) (omdb w) (requested w).

Definition log_request (title : string) (w : world) : world :=
  mkWorld (core w) (screen w) (omdb w) (requested w ++ [title]).

Definition set_table (rows : list row) (s : state) : state :=
  mkState rows (movies s) (stdin s) (stdout s) (entropy s) (draws s) (extract_calls s).

Definition W (A : Type) : Type := world -> result A * world.

Definition w_ret {A : Type} (a : A) : W A := fun w => (Ok a, w).

Definition w_bind {A B : Type} (m : W A) (k : A -> W B) : W B :=
  fun w =>
    match m w with
    | (Ok a, w') => k a w'
    | (Raise e, w') => (Raise e, w')
    end.

Definition w_raise {A : Type} (e : exn) : W A := fun w => (Raise e, w).

Definition exn_eqb (a b : exn) : bool :=
  match a, b with
  | ZeroDivisionError, ZeroDivisionError
  | IndexError, IndexError
  | KeyError, KeyError
  | ValueError, ValueError
  | EOFError, EOFError => true
  | _, _ => false
  end.

(** [try: body  except e: handler] *)
Definition try_except {A : Type} (body : W A) (e : exn) (handler : W A) : W A :=
  fun w =>
    match body w with
    | (Ok a, w') => (Ok a, w')
    | (Raise e', w') => if exn_eqb e' e then handler w' else (Raise e', w')
    end.

Declare Scope app_scope.
Notation "x <- m ;; k" := (w_bind m (fun x => k))
  (at level 61, m at next level, right associativity) : app_scope.
Notation "m ;; k" := (w_bind m (fun _ => k))
  (at level 61, right associativity) : app_scope.
Local Open Scope app_scope.

Fixpoint w_for_each {A : Type} (l : list A) (body : A -> W unit) : W unit :=
  match l with
  | [] => w_ret tt
  | x :: rest => body x ;; w_for_each rest body
  end.

(** [print(..)] *)
Definition say (m : message) : W unit := fun w => (Ok tt, show [m] w).

(** [input(prompt)] *)
Definition ask (p : prompt) : W string :=
  fun w =>
    match stdin (core w) with
    | [] => (Raise EOFError, show [Asked p] w)
    | l :: rest => (Ok l, with_core (set_stdin rest (core w)) (show [Asked p] w))
    end.

(** The rows of the SQL table. *)
Definition get_rows : W (list row) := fun w => (Ok (table (core w)), w).

Definition put_rows (rows : list row) : W unit :=
  fun w => (Ok tt, with_core (set_table rows (core w)) w).

(** The dictionary bound to [movies]. *)
Definition get_movies : W dict := fun w => (Ok (movies (core w)), w).

Definition put_movies (d : dict) : W unit :=
  fun w => (Ok tt, with_core (set_movies d (core w)) w).

(** [title in movies] *)
Definition dict_has (d : dict) (title : string) : bool :=
  existsb (String.eqb title) (dict_keys d).

Definition has_title (title : string) : W bool :=
  d <- get_movies ;; w_ret (dict_has d title).

(** [movies[k][field]] *)
Definition item_field {A : Type} (f : movie -> A) (k : string) : W A :=
  d <- get_movies ;;
  match dict_get d k with
  | Some m => w_ret (f m)
  | None => w_raise KeyError
  end.

(** [movies[k]['rating'] = rating] *)
Definition set_item_rating (k : string) (r : Py.float) : W unit :=
  d <- get_movies ;;
  match dict_get d k with
  | Some m => put_movies (dict_set d k (mkMovie (year m) r (image m)))
  | None => w_raise KeyError
  end.

(** [data[key]] on the decoded reply *)
Definition data_item (data : list (string * string)) (key : string) : W string :=
  match find (fun entry => String.eqb (fst entry) key) data with
  | Some entry => w_ret (snd entry)
  | None => w_raise KeyError
  end.

(** [int(text)] and [float(text)]: [ValueError] on a text the parser rejects. *)
Definition parse {A : Type} (parser : string -> option A) (text : string) : W A :=
  match parser text with
  | Some a => w_ret a
  | None => w_raise ValueError
  end.

(** [requests.get(url, timeout=10)] followed by [res.json()] *)
Definition requests_get (title : string) : W reply :=
  fun w => (Ok (omdb w title), log_request title w).

(** ** movie_storage_sql.py: the statements that change the table *)

Module movie_storage_sql.

Definition title_of (r : row) : string := let '(title, _, _, _) := r in title.

(** [list_movies()] *)
Definition list_movies : W dict :=
  rows <- get_rows ;; w_ret (storage.list_movies_of rows).

(** An integer SQLite can hold: 64 bits with sign.  Binding any other
    raises [OverflowError]. *)
Definition int64 (n : Z) : bool := (- 2 ^ 63 <=? n)%Z && (n <? 2 ^ 63)%Z.

(** The float a REAL column gives back for the float stored in it: the
    same, but for the negative zero, which is kept as the integer 0 and
    read as the positive zero. *)
Definition real (r : Py.float) : Py.float :=
  match r with
  | S754_zero _ => S754_zero false
  | _ => r
  end.

(** [add_movie(title, year, rating, image)]: the INSERT fails on a year
    that does not fit 64 bits, on a rating that is not-a-number (which
    SQLite takes for NULL, against [rating REAL NOT NULL]) and on a title
    that is in the table already ([title TEXT UNIQUE]); the exception is
    caught and printed.  Otherwise the row is added after the others
    (AUTOINCREMENT gives it the largest id) and the success is printed. *)
Definition add_movie (title : string) (y : Z) (r : Py.float) (img : string) : W unit :=
  rows <- get_rows ;;
  if negb (int64 y) || Py.isnan r || existsb (String.eqb title) (map title_of rows)
  then say StorageError
  else put_rows (rows ++ [(title, y, real r, img)]) ;; say (Stored title).

(** [delete_movie(title)]: DELETE ... WHERE title = :title, then the
    success message, whether or not a row was deleted. *)
Definition delete_movie (title : string) : W unit :=
  rows <- get_rows ;;
  put_rows (filter (fun r => negb (String.eqb (title_of r) title)) rows) ;;
  say (Deleted title).

(** [update_movie(title, rating)]: UPDATE ... SET rating = :rating WHERE
    title = :title, then the success message, whether or not a row
    changed.  The UPDATE fails, and the exception is caught and printed,
    when the rating is not-a-number and there is a row to put it in. *)
Definition update_movie (title : string) (rating : Py.float) : W unit :=
  rows <- get_rows ;;
  if Py.isnan rating && existsb (fun r => String.eqb (title_of r) title) rows
  then say StorageError
  else
    put_rows (map (fun r : row =>
                     let '(t, y, _, img) := r in
                     if String.eqb t title then (t, y, real rating, img) else r)
                  rows) ;;
    say (Updated title).

End movie_storage_sql.

(** ** movies.py: listing and editing *)

(** [movies = storage.list_movies()] *)
Definition assign : W unit :=
  d <- movie_storage_sql.list_movies ;; put_movies d.

(** The loop that asks for a name until it is not empty; as in
    [ask_title_rounds], one more round than there are lines left always
    suffices. *)
Fixpoint ask_name_rounds (p : prompt) (rounds : nat) : W string :=
  match rounds with
  | O => w_raise EOFError
  | S n =>
      title <- ask p ;;
      if String.eqb title EmptyString then say NeedName ;; ask_name_rounds p n
      else w_ret title
  end.

Definition ask_name (p : prompt) : W string :=
  fun w => ask_name_rounds p (S (List.length (stdin (core w)))) w.

Definition list_movies : W unit :=
  assign ;;
  d <- get_movies ;;
  say (Total (Py.len d)) ;;
  w_for_each (dict_keys d) (fun movie =>
    y <- item_field year movie ;; r <- item_field rating movie ;;
    say (Listed movie y r)).

Definition delete_movie : W unit :=
  assign ;;
  title <- ask_name NameToDelete ;;
  listed <- has_title title ;;
  if listed then movie_storage_sql.delete_movie title
  else say (DoesNotExist title).

Section Parsers.

(** [int(text)] and [float(text)]: [None] where Python raises
    [ValueError]. *)
Variable py_int : string -> option Z.
Variable py_float : string -> option Py.float.

Definition add_movie : W unit :=
  assign ;;
  title <- ask_name NewMovieName ;;
  listed <- has_title title ;;
  if negb listed then
    res <- requests_get title ;;
    match res with
    | Json data =>
        try_except
          (found <- data_item data "Title" ;;
           listed <- has_title found ;;
           if negb listed then
             t <- data_item data "Title" ;;
             y_text <- data_item data "Year" ;;
             y <- parse py_int y_text ;;
             r_text <- data_item data "imdbRating" ;;
             r <- parse py_float r_text ;;
             poster <- data_item data "Poster" ;;
             movie_storage_sql.add_movie t y r poster
           else say (AlreadyExist title))
          KeyError
          (say (NoSuchMovie title))
    | ConnectionError => say NoConnection
    | Timeout => say RequestTimedOut
    end
  else say (AlreadyExist title).

(** The loop that asks for a rating until it is a number from 0 to 10. *)
Fixpoint ask_rating_rounds (title : string) (rounds : nat) : W Py.float :=
  match rounds with
  | O => w_raise EOFError
  | S n =>
      text <- ask NewRating ;;
      match py_float text with
      | Some rating =>
          if Py.float_le (Py.float_of_int 0) rating && Py.float_le rating (Py.float_of_int 10)
          then set_item_rating title rating ;; w_ret rating
          else say NeedNumber ;; ask_rating_rounds title n
      | None => say NeedNumber ;; ask_rating_rounds title n
      end
  end.

Definition ask_rating (title : string) : W Py.float :=
  fun w => ask_rating_rounds title (S (List.length (stdin (core w)))) w.

Definition update_movie : W unit :=
  assign ;;
  title <- ask_name MovieName ;;
  listed <- has_title title ;;
  if listed then
    rating <- ask_rating title ;;
    movie_storage_sql.update_movie title rating
  else say (NoSuchMovie title).

End Parsers.

Local Close Scope app_scope.

(** ** movies.py: the HTML of the catalogue *)

(** The double quote, and [str(n)] for an integer. *)
Definition dq : string := String (ascii_of_nat 34) EmptyString.

Definition str_of_int (n : Z) : string := NilEmpty.string_of_int (Z.to_int n).

Definition serialize_movie (title : string) (infos : movie) : string :=
  ("<li>"
   ++ "<div class=" ++ dq ++ "movie" ++ dq ++ ">"
   ++ "<img class=" ++ dq ++ "movie-poster" ++ dq
   ++ "src=" ++ dq ++ image infos ++ dq ++ ">"
   ++ "<div class=" ++ dq ++ "movie-title" ++ dq ++ ">" ++ title ++ "</div>"
   ++ "<div class=" ++ dq ++ "movie-year" ++ dq ++ ">" ++ str_of_int (year infos) ++ "</div>"
   ++ "</div>"
   ++ "</li>")%string.

Definition create_movies_html (movies_data : dict) : string :=
  match movies_data with
  | [] => "<h2>There is no movie at the moment</h2>"
  | _ :: _ =>
      fold_left (fun output entry =>
                   (output ++ serialize_movie (fst entry) (snd entry))%string)
                movies_data EmptyString
  end.


(** * Vocabulary of the statements *)

(** [ascending lt key x y]: [y] is not smaller than [x], so [x] may stand
    before [y] in an ascending list. *)
Definition ascending {A K : Type} (lt : K -> K -> bool) (key : A -> K) (x y : A) : Prop :=
  lt (key y) (key x) = false.

(** [descending lt key x y]: [x] is not smaller than [y]. *)
Definition descending {A K : Type} (lt : K -> K -> bool) (key : A -> K) (x y : A) : Prop :=
  lt (key x) (key y) = false.

(** The catalogue an operation receives: what [storage.list_movies()]
    returns in state [s]. *)
Definition snapshot (s : state) : dict := storage.list_movies_of (table s).

(** The ratings of a catalogue, in iteration order. *)
Definition ratings_of (d : dict) : list Py.float := map (fun entry => rating (snd entry)) d.

(** The order of the floats as IEEE 754 has it, read off the comparison of
    the Standard Library. *)
Definition fle (a b : Py.float) : Prop := SFleb a b = true.

(** Every rating of the table is a number.  The column [rating REAL NOT
    NULL] holds no not-a-number: SQLite stores it as NULL. *)
Definition rating_of (r : row) : Py.float := let '(_, _, rt, _) := r in rt.

Definition numeric (rows : list row) : Prop :=
  Forall (fun r => rating_of r <> Py.nan) rows.

(** The title contains the query once both are lower-cased. *)
Definition title_matches (lower : string -> string) (query title : string) : bool :=
  Py.contains (lower query) (lower title).



(** The line of one catalogue entry in a listing. *)
Definition movie_line (entry : string * movie) : line :=
  MovieLine (fst entry) (year (snd entry)) (rating (snd entry)).

(** What one round of the last loop of [stats] writes. *)
Definition best_worst_lines (maximum minimum : Py.float) (entry : string * movie)
  : list line :=
  (if Py.float_eq (rating (snd entry)) maximum
   then [BestLine (fst entry) (year (snd entry)) (rating (snd entry))] else [])
  ++ (if Py.float_eq (rating (snd entry)) minimum
      then [WorstLine (fst entry) (year (snd entry)) (rating (snd entry))] else []).

(** The line that suggests a title of the catalogue. *)
Definition suggestion_of (d : dict) (title : string) : list line :=
  match dict_get d title with
  | Some m => [SuggestionLine title (year m) (rating m)]
  | None => []
  end.

(** What one round of the suggestion loop of [search_movie] writes. *)
Definition suggestion_lines (d : dict) (entry : string * Z) : list line :=
  if (53 <=? snd entry)%Z then suggestion_of d (fst entry) else [].

(** The lines of an output that report a best movie, and a worst one. *)
Definition best_of (out : list line) : list line :=
  filter (fun l => match l with BestLine _ _ _ => true | _ => false end) out.

Definition worst_of (out : list line) : list line :=
  filter (fun l => match l with WorstLine _ _ _ => true | _ => false end) out.

Definition best_line (entry : string * movie) : line :=
  BestLine (fst entry) (year (snd entry)) (rating (snd entry)).

Definition worst_line (entry : string * movie) : line :=
  WorstLine (fst entry) (year (snd entry)) (rating (snd entry)).

(** Every title of the catalogue with its score against the query, in
    catalogue order. *)
Definition scored (scorer : string -> string -> Q) (query : string) (d : dict)
  : list (string * Q) :=
  map (fun title => (title, scorer query title)) (dict_keys d).

(** [ranked] is the ranking of the catalogue against the query: every
    title with its score, the highest score first, equal scores in
    catalogue order.  There is one such list. *)
Definition ranks (scorer : string -> string -> Q) (query : string) (d : dict)
    (ranked : list (string * Q)) : Prop :=
  Permutation ranked (scored scorer query d)
  /\ StronglySorted (fun a b => (snd b <= snd a)%Q) ranked
  /\ forall v : Q,
      filter (fun e => Qeq_bool (snd e) v) ranked
      = filter (fun e => Qeq_bool (snd e) v) (scored scorer query d).

(** A score that is printed as 53 or more: one above 52.5 (52.5 itself
    is rounded to the even 52). *)
Definition printed_53_or_more (entry : string * Q) : bool :=
  match (105 # 2 ?= snd entry)%Q with Lt => true | _ => false end.

(** The ranking as the model computes it. *)
Definition ranking (scorer : string -> string -> Q) (query : string) (d : dict)
  : list (string * Q) :=
  Py.sorted_reverse thefuzz.score_lt snd (thefuzz.score_all scorer query (dict_keys d)).

(** The rounded score of an entry reaches the threshold of [search_movie]. *)
Definition reaches_threshold (entry : string * Z) : bool := (53 <=? snd entry)%Z.

(** The titles an output suggests, in the order it suggests them. *)
Definition suggested_titles (out : list line) : list string :=
  flat_map (fun l => match l with SuggestionLine t _ _ => [t] | _ => [] end) out.

(** A computation keeps the catalogue: whatever it returns or raises, it
    leaves the SQL table and the dictionary [movies] as they were. *)
Definition keeps {A : Type} (m : M A) : Prop :=
  forall s : state, table (snd (m s)) = table s /\ movies (snd (m s)) = movies s.

(** The median as the specification words it, on the ratings sorted
    ascending: the element at index [n/2] for an odd count [n], the mean of
    the elements at indices [n/2 - 1] and [n/2] for an even one: their
    float sum divided by the float 2, which is 2^52 * 2^-51. *)
Definition spec_median (sorted_ratings : list Py.float) (median : Py.float) : Prop :=
  let n := List.length sorted_ratings in
  if Nat.odd n then nth_error sorted_ratings (n / 2) = Some median
  else exists a b,
      nth_error sorted_ratings (n / 2 - 1) = Some a /\
      nth_error sorted_ratings (n / 2) = Some b /\
      median = SFdiv 53 1024 (SFadd 53 1024 a b) (S754_finite false 4503599627370496 (-51)).


(** * Sample catalogues *)

(** A fresh run: nothing written yet, [typed] still to be read, and a
    generator that returns 0 every time. *)
Definition start (rows : list row) (typed : list string) : state :=
  mkState rows [] typed [] (fun _ => 0%nat) 0 0.

(** The scores of some titles against one query, as
    [rapidfuzz.fuzz.token_set_ratio] gives them; a title that is not
    listed, and every title against another query, is given 0. *)
Definition scores_against (query : string) (scores : list (string * Q))
  : string -> string -> Q :=
  fun q choice =>
    if String.eqb q query then
      match find (fun entry => String.eqb (fst entry) choice) scores with
      | Some entry => snd entry
      | None => 0%Q
      end
    else 0%Q.

(** The scores against the query [matrix the].  A title with both words of
    the query among its own scores 100; for the others the score is the
    best of three similarity ratios on the words the two texts share and
    the words they do not share.  Each score is given as the exact
    quotient; the float the scorer returns differs from it in the last
    places only and is rounded to the same integer. *)
Definition matrix_scores : string -> string -> Q :=
  scores_against "matrix the"
    [("The Matrix", 100%Q); ("The Matrix Reloaded", 100%Q);
     ("The Matrix Revolutions", 100%Q); ("The Matrix Resurrections", 100%Q);
     ("The Matrix Revisited", 100%Q); ("Making The Matrix", 100%Q);
     ("The Mask", (200 # 3)%Q); ("Mates", (160 # 3)%Q);
     ("The Mummy", (1000 # 19)%Q); ("Ma Rainey", (1000 # 19)%Q);
     ("The Apartment", (1200 # 23)%Q); ("Into the Wild", (1200 # 23)%Q)].

(** Six titles, each with the words of the query [matrix the] among its
    own, none with the query as a substring. *)
Definition matrix_rows : list row :=
  [("The Matrix", 1999%Z, Py.float_literal 87 10, "m1.jpg");
   ("The Matrix Reloaded", 2003%Z, Py.float_literal 72 10, "m2.jpg");
   ("The Matrix Revolutions", 2003%Z, Py.float_literal 67 10, "m3.jpg");
   ("The Matrix Resurrections", 2021%Z, Py.float_literal 57 10, "m4.jpg");
   ("The Matrix Revisited", 2001%Z, Py.float_literal 73 10, "m5.jpg");
   ("Making The Matrix", 1999%Z, Py.float_literal 71 10, "m6.jpg")].

(** Five of them, and then a title that scores 1000/19, printed as 53. *)
Definition crowded_rows : list row :=
  [("The Matrix", 1999%Z, Py.float_literal 87 10, "m1.jpg");
   ("The Matrix Reloaded", 2003%Z, Py.float_literal 72 10, "m2.jpg");
   ("The Matrix Revolutions", 2003%Z, Py.float_literal 67 10, "m3.jpg");
   ("The Matrix Resurrections", 2021%Z, Py.float_literal 57 10, "m4.jpg");
   ("The Matrix Revisited", 2001%Z, Py.float_literal 73 10, "m5.jpg");
   ("The Mummy", 1999%Z, Py.float_literal 71 10, "mu.jpg")].

(** Three titles that score 1000/19, 1200/23 and 200/3 against [matrix
    the], printed as 53, 52 and 67. *)
Definition boundary_rows : list row :=
  [("The Mummy", 1999%Z, Py.float_literal 71 10, "mu.jpg");
   ("The Apartment", 1960%Z, Py.float_literal 83 10, "ap.jpg");
   ("The Mask", 1994%Z, Py.float_literal 7 1, "ma.jpg")].

(** Two titles that both score 1200/23, printed as 52. *)
Definition faint_rows : list row :=
  [("The Apartment", 1960%Z, Py.float_literal 83 10, "ap.jpg");
   ("Into the Wild", 2007%Z, Py.float_literal 81 10, "iw.jpg")].

(** Two titles that are both printed as 53, the second with the higher
    score: 1000/19 and 160/3. *)
Definition close_rows : list row :=
  [("Ma Rainey", 2020%Z, Py.float_literal 69 10, "mr.jpg");
   ("Mates", 2023%Z, Py.float_literal 6 1, "mt.jpg")].

(** The letter e with an acute accent, small (U+00E9) and capital
    (U+00C9), in UTF-8, and a catalogue of two titles that end in it. *)
Definition e_acute : string := String (ascii_of_nat 195) (String (ascii_of_nat 169) EmptyString).

Definition capital_e_acute : string :=
  String (ascii_of_nat 195) (String (ascii_of_nat 137) EmptyString).

Definition cafe_rows : list row :=
  [(("CAF" ++ capital_e_acute)%string, 2001%Z, Py.float_of_int 7, "c1.jpg");
   (("caf" ++ e_acute)%string, 2002%Z, Py.float_of_int 6, "c2.jpg")].

(** Catalogues with the ratings [5.0, 7.0, 9.0] and [5.0, 6.0, 7.0, 9.0],
    stored in another order. *)
Definition three_rows : list row :=
  [("Up", 2009%Z, Py.float_of_int 9, "up.jpg"); ("Cars", 2006%Z, Py.float_of_int 5, "cars.jpg");
   ("Brave", 2012%Z, Py.float_of_int 7, "brave.jpg")].

Definition four_rows : list row :=
  [("Up", 2009%Z, Py.float_of_int 9, "up.jpg"); ("Cars", 2006%Z, Py.float_of_int 5, "cars.jpg");
   ("Brave", 2012%Z, Py.float_of_int 7, "brave.jpg");
   ("Soul", 2020%Z, Py.float_of_int 6, "soul.jpg")].

(** [{A: 8.0, B: 8.0, C: 5.0}] *)
Definition tie_rows : list row :=
  [("A", 2001%Z, Py.float_of_int 8, "a.jpg"); ("B", 2002%Z, Py.float_of_int 8, "b.jpg");
   ("C", 2003%Z, Py.float_of_int 5, "c.jpg")].

(** [{A: 7.0, B: 9.0, C: 7.0}], inserted in the order A, B, C. *)
Definition abc_rows : list row :=
  [("A", 2001%Z, Py.float_of_int 7, "a.jpg"); ("B", 2002%Z, Py.float_of_int 9, "b.jpg");
   ("C", 2003%Z, Py.float_of_int 7, "c.jpg")].

(** One movie rated 6.75, and two rated 1.0 and 1.1. *)
Definition single_row : list row :=
  [("A", 2001%Z, Py.float_literal 675 100, "a.jpg")].

Definition near_rows : list row :=
  [("A", 2001%Z, Py.float_of_int 1, "a.jpg"); ("B", 2002%Z, Py.float_literal 11 10, "b.jpg")].

(** ** Vocabulary and samples for the listing and editing operations *)

(** What [k] empty answers to the prompt of [search_movie] write. *)
Definition empty_rounds (k : nat) : list line :=
  List.concat (repeat [Prompt; PleaseEnter] k).

(** What [k] empty answers to the prompt [p] write. *)
Definition empty_name_rounds (p : prompt) (k : nat) : list message :=
  List.concat (repeat [Asked p; NeedName] k).

(** The catalogue entry of a row. *)
Definition row_entry (r : row) : string * movie :=
  let '(title, y, rt, img) := r in (title, mkMovie y rt img).

Definition titles_of (rows : list row) : list string :=
  map movie_storage_sql.title_of rows.

(** The newest row with a title: the one [list_movies] reports for it. *)
Definition find_row (rows : list row) (title : string) : option row :=
  find (fun r => String.eqb (movie_storage_sql.title_of r) title) (rev rows).

Definition listed_line (entry : string * movie) : message :=
  Listed (fst entry) (year (snd entry)) (rating (snd entry)).

Definition with_rating (r : Py.float) (m : movie) : movie := mkMovie (year m) r (image m).

(** The entry of a catalogue after the rating of [title] became [r]. *)
Definition update_entry (title : string) (r : Py.float) (entry : string * movie)
  : string * movie :=
  if String.eqb (fst entry) title then (fst entry, with_rating r (snd entry)) else entry.

(** The row of the table after UPDATE ... SET rating = [r] WHERE title =
    [title]. *)
Definition update_row (title : string) (r : Py.float) (row0 : row) : row :=
  let '(t, y, _, img) := row0 in
  if String.eqb t title then (t, y, r, img) else row0.

(** What [k] ratings that are turned down write. *)
Definition rating_rounds (k : nat) : list message :=
  List.concat (repeat [Asked NewRating; NeedNumber] k).

(** The value the decoded reply has under a key, if any. *)
Definition data_get (data : list (string * string)) (key : string) : option string :=
  match find (fun entry => String.eqb (fst entry) key) data with
  | Some entry => Some (snd entry)
  | None => None
  end.

(** A rating that [update_movie] turns down: a text [float] does not
    read, or a float that is not from 0 to 10 (the float 10 is
    5 * 2^50 * 2^-49); not-a-number is turned down, the negative zero is
    not. *)
Definition rejected (py_float : string -> option Py.float) (text : string) : bool :=
  match py_float text with
  | Some r => negb (SFleb (S754_zero false) r
                    && SFleb r (S754_finite false 5629499534213120 (-49)))
  | None => true
  end.

(** A parser given by a table of the texts it accepts. *)
Definition text_table {A : Type} (entries : list (string * A)) : string -> option A :=
  fun text =>
    match find (fun entry => String.eqb (fst entry) text) entries with
    | Some entry => Some (snd entry)
    | None => None
    end.

Definition sample_int : string -> option Z :=
  text_table [("1999", 1999%Z); ("2003", 2003%Z);
              ("9223372036854775808", 9223372036854775808%Z)].

Definition sample_float : string -> option Py.float :=
  text_table [("8.7", Py.float_literal 87 10); ("7.2", Py.float_literal 72 10);
              ("9.5", Py.float_literal 95 10); ("11", Py.float_of_int 11);
              ("nan", Py.nan); ("-0.0", S754_zero true)].

(** A provider that knows one film, answers one title with a rating that
    is no number, one with a year beyond 64 bits, one with the rating
    [nan], cannot be reached for one title, and finds nothing otherwise. *)
Definition sample_omdb : string -> reply :=
  fun title =>
    if String.eqb title "matrix"
    then Json [("Title", "The Matrix"); ("Year", "1999");
               ("imdbRating", "8.7"); ("Poster", "m1.jpg")]
    else if String.eqb title "unrated"
    then Json [("Title", "Unrated"); ("Year", "2003");
               ("imdbRating", "N/A"); ("Poster", "u.jpg")]
    else if String.eqb title "late"
    then Json [("Title", "Late"); ("Year", "9223372036854775808");
               ("imdbRating", "7.2"); ("Poster", "l.jpg")]
    else if String.eqb title "blank"
    then Json [("Title", "Blank"); ("Year", "2003");
               ("imdbRating", "nan"); ("Poster", "b.jpg")]
    else if String.eqb title "offline" then ConnectionError
    else Json [("Response", "False"); ("Error", "Movie not found!")].

(** A fresh session on [rows] with [typed] still to be read. *)
Definition session (rows : list row) (typed : list string) : world :=
  mkWorld (start rows typed) [] sample_omdb [].

(** * Proof tools *)

(** Case analysis on floats and on the comparisons of their exponents and
    mantissas. *)
Ltac float_cases :=
  unfold Py.float_lt, Py.float_le, Py.float_eq, fle, SFltb, SFleb, SFeqb, SFcompare,
    Py.nan in *;
  repeat match goal with
         | x : Py.float |- _ => destruct x as [[|]|[|]| |[|] ? ?]
         end;
  cbn in *; try discriminate; try reflexivity; try tauto; try congruence;
  repeat match goal with
         | |- context [Z.compare ?a ?b] => destruct (Z.compare_spec a b); subst
         | H : context [Z.compare ?a ?b] |- _ => destruct (Z.compare_spec a b); subst
         end;
  cbn in *; try discriminate; try reflexivity; try lia; try tauto;
  repeat match goal with
         | |- context [Pos.compare_cont Eq ?a ?b] =>
             change (Pos.compare_cont Eq a b) with (Pos.compare a b);
             destruct (Pos.compare_spec a b); subst
         | H : context [Pos.compare_cont Eq ?a ?b] |- _ =>
             change (Pos.compare_cont Eq a b) with (Pos.compare a b) in H;
             destruct (Pos.compare_spec a b); subst
         end;
  cbn in *; try discriminate; try reflexivity; try lia; try tauto.

(** * Facts about the built-ins *)

(** ** Strings *)

Lemma prefix_iff (n h : string) :
  String.prefix n h = true <-> exists post, h = (n ++ post)%string.
Proof.
  revert h; induction n as [|a n IH]; intros h; simpl.
  - split; [intros _; exists h; reflexivity | intros _; now destruct h].
  - destruct h as [|b h].
    + split; [discriminate | intros [post H]; discriminate].
    + simpl. destruct (ascii_dec a b) as [->|Hab].
      * rewrite IH. split; intros [post H]; exists post.
        -- now rewrite H.
        -- now inversion H.
      * split; [discriminate | intros [post H]; inversion H; subst; now destruct Hab].
Qed.

(** [needle in hay] holds exactly when [hay] is some text, then [needle],
    then some text. *)
Lemma contains_iff (n h : string) :
  Py.contains n h = true <-> exists pre post, h = (pre ++ n ++ post)%string.
Proof.
  induction h as [|c h IH]; cbn [Py.contains].
  - destruct (String.prefix n EmptyString) eqn:Hp.
    + split; [intros _ | reflexivity].
      apply prefix_iff in Hp as [post Hp]. now exists EmptyString, post.
    + split; [discriminate | intros (pre & post & H)].
      destruct pre; [|discriminate]. simpl in H.
      assert (String.prefix n EmptyString = true) by (apply prefix_iff; now exists post).
      congruence.
  - destruct (String.prefix n (String c h)) eqn:Hp.
    + split; [intros _ | reflexivity].
      apply prefix_iff in Hp as [post Hp]. now exists EmptyString, post.
    + rewrite IH. split.
      * intros (pre & post & H). exists (String c pre), post. simpl. now rewrite H.
      * intros (pre & post & H). destruct pre as [|c' pre].
        -- simpl in H.
           assert (String.prefix n (String c h) = true) by (apply prefix_iff; now exists post).
           congruence.
        -- inversion H. now exists pre, post.
Qed.


(** ** Lower case on ASCII text *)








(** ** Comparisons of floats *)

Lemma isnan_false (a : Py.float) : Py.isnan a = false <-> a <> Py.nan.
Proof.
  destruct a; cbn; split; intros H; try reflexivity; try discriminate;
    try (intros H'; discriminate); now destruct H.
Qed.

Lemma float_lt_asym (a b : Py.float) : Py.float_lt a b = true -> Py.float_lt b a = false.
Proof.
  float_cases.
Qed.

(** Unless [b] is not-a-number. *)
Lemma float_lt_cotrans (a b c : Py.float) :
  b <> Py.nan ->
  Py.float_lt a b = false -> Py.float_lt b c = false -> Py.float_lt a c = false.
Proof.
  float_cases.
Qed.

Lemma float_lt_false (a b : Py.float) :
  a <> Py.nan -> b <> Py.nan -> Py.float_lt a b = false -> fle b a.
Proof.
  float_cases.
Qed.

(** Two floats that are equal to a third are not smaller than one another. *)
Lemma float_eq_not_lt (r a b : Py.float) :
  SFeqb a r = true -> SFeqb b r = true -> Py.float_lt a b = false.
Proof.
  float_cases.
Qed.

(** ** Comparisons and rounding of scores *)

Lemma score_lt_iff (a b : Q) : thefuzz.score_lt a b = true <-> (a < b)%Q.
Proof.
  unfold thefuzz.score_lt. rewrite Qlt_alt.
  destruct (a ?= b)%Q; split; congruence.
Qed.

Lemma score_lt_false (a b : Q) : thefuzz.score_lt a b = false <-> (b <= a)%Q.
Proof.
  rewrite <- not_true_iff_false, score_lt_iff. split.
  - apply Qnot_lt_le.
  - apply Qle_not_lt.
Qed.

Lemma score_lt_asym (a b : Q) :
  thefuzz.score_lt a b = true -> thefuzz.score_lt b a = false.
Proof.
  rewrite score_lt_iff, score_lt_false. apply Qlt_le_weak.
Qed.

Lemma score_lt_cotrans (a b c : Q) :
  True ->
  thefuzz.score_lt a b = false -> thefuzz.score_lt b c = false ->
  thefuzz.score_lt a c = false.
Proof.
  rewrite !score_lt_false. intros _ H1 H2. now apply Qle_trans with b.
Qed.

Lemma printed_53_or_more_iff (entry : string * Q) :
  printed_53_or_more entry = true <-> (105 # 2 < snd entry)%Q.
Proof.
  unfold printed_53_or_more. rewrite Qlt_alt.
  destruct (105 # 2 ?= snd entry)%Q; split; congruence.
Qed.

Lemma round_half_even_53 (n d : Z) :
  (0 < d)%Z -> (53 <= Py.round_half_even n d)%Z <-> (105 * d < 2 * n)%Z.
Proof.
  intros Hd. unfold Py.round_half_even.
  pose proof (Z.div_mod n d ltac:(lia)) as Hn.
  pose proof (Z.mod_pos_bound n d Hd) as Hr.
  set (q := (n / d)%Z) in *. set (r := (n mod d)%Z) in *. clearbody q r.
  destruct (Z.compare_spec (2 * r) d) as [He|Hl|Hg].
  - assert (Hq : Z.even q = false -> q <> 52%Z)
      by (intros Hodd Hq; rewrite Hq in Hodd; discriminate).
    destruct (Z.even q) eqn:Hev.
    + split; intros H; nia.
    + specialize (Hq eq_refl). split; intros H; nia.
  - split; intros H; nia.
  - split; intros H; nia.
Qed.

(** A score is rounded to 53 or more exactly when it is above 52.5. *)
Lemma round_53 (q : Q) : (53 <= Py.round q)%Z <-> (105 # 2 < q)%Q.
Proof.
  unfold Py.round. rewrite round_half_even_53 by reflexivity.
  unfold Qlt. cbn [Qnum Qden]. lia.
Qed.

Lemma reaches_rounded (entry : string * Q) :
  reaches_threshold (thefuzz.rounded entry) = printed_53_or_more entry.
Proof.
  apply eq_true_iff_eq. rewrite printed_53_or_more_iff.
  unfold reaches_threshold, thefuzz.rounded. cbn [snd].
  rewrite Z.leb_le. apply round_53.
Qed.

(** ** [sorted], [max] and [min] *)

Section OrderingFacts.
Context {A K : Type}.
Variable lt : K -> K -> bool.
Variable key : A -> K.

Lemma insert_perm (x : A) (l : list A) :
  Permutation (Py.insert lt key x l) (x :: l).
Proof.
  induction l as [|y l IH]; simpl; [reflexivity|].
  destruct (lt (key y) (key x)); [|reflexivity].
  rewrite IH. apply perm_swap.
Qed.

Lemma sorted_perm (l : list A) : Permutation (Py.sorted lt key l) l.
Proof.
  induction l as [|x l IH]; simpl; [reflexivity|].
  rewrite insert_perm. now constructor.
Qed.

Lemma sorted_reverse_perm (l : list A) :
  Permutation (Py.sorted_reverse lt key l) l.
Proof.
  unfold Py.sorted_reverse.
  rewrite <- Permutation_rev, sorted_perm. symmetry. apply Permutation_rev.
Qed.

(** Stability: a class of items none of which is smaller than another
    keeps its input order. *)
Lemma insert_filter (p : A -> bool) (x : A) (l : list A) :
  (forall a b, p a = true -> p b = true -> lt (key a) (key b) = false) ->
  filter p (Py.insert lt key x l) = filter p (x :: l).
Proof.
  intros Hp. induction l as [|y l IH]; [reflexivity|].
  cbn [Py.insert]. destruct (lt (key y) (key x)) eqn:Hyx; [|reflexivity].
  cbn [filter] in *. rewrite IH.
  destruct (p y) eqn:Hy, (p x) eqn:Hx; try reflexivity.
  rewrite (Hp y x Hy Hx) in Hyx. discriminate.
Qed.

Lemma sorted_filter (p : A -> bool) (l : list A) :
  (forall a b, p a = true -> p b = true -> lt (key a) (key b) = false) ->
  filter p (Py.sorted lt key l) = filter p l.
Proof.
  intros Hp. induction l as [|x l IH]; [reflexivity|].
  cbn [Py.sorted fold_right]. rewrite insert_filter by assumption.
  cbn [filter]. fold (Py.sorted lt key l). now rewrite IH.
Qed.

Lemma sorted_reverse_filter (p : A -> bool) (l : list A) :
  (forall a b, p a = true -> p b = true -> lt (key a) (key b) = false) ->
  filter p (Py.sorted_reverse lt key l) = filter p l.
Proof.
  intros Hp. unfold Py.sorted_reverse.
  rewrite filter_rev, sorted_filter, filter_rev by assumption.
  apply rev_involutive.
Qed.

(** [lt] orders the keys that are [proper]: for floats, the numbers. *)
Variable proper : K -> Prop.
Hypothesis lt_asym : forall a b, lt a b = true -> lt b a = false.
Hypothesis lt_cotrans :
  forall a b c, proper b -> lt a b = false -> lt b c = false -> lt a c = false.

Lemma insert_ascending (x : A) (l : list A) :
  Forall (fun y => proper (key y)) l ->
  StronglySorted (ascending lt key) l -> StronglySorted (ascending lt key) (Py.insert lt key x l).
Proof.
  intros Hproper. induction 1 as [|y l Hs IH Hall]; simpl.
  - repeat constructor.
  - inversion Hproper as [|? ? Hy Hl]; subst.
    destruct (lt (key y) (key x)) eqn:Hyx.
    + constructor; [now apply IH|].
      apply Permutation_Forall with (x :: l).
      * symmetry. apply insert_perm.
      * constructor; [|assumption]. unfold ascending. now apply lt_asym.
    + constructor; [now constructor|].
      constructor; [exact Hyx|].
      rewrite Forall_forall in *. intros z Hz. unfold ascending in *.
      apply lt_cotrans with (key y); auto.
Qed.

Lemma sorted_ascending (l : list A) :
  Forall (fun y => proper (key y)) l ->
  StronglySorted (ascending lt key) (Py.sorted lt key l).
Proof.
  induction l as [|x l IH]; intros Hproper; simpl; [constructor|].
  inversion Hproper; subst. apply insert_ascending; [|now apply IH].
  apply Permutation_Forall with l; [symmetry; apply sorted_perm|assumption].
Qed.

Lemma StronglySorted_snoc (R : A -> A -> Prop) (l : list A) (x : A) :
  StronglySorted R l -> Forall (fun y => R y x) l -> StronglySorted R (l ++ [x]).
Proof.
  induction 1 as [|y l Hs IH Hall]; intros Hx; simpl.
  - repeat constructor.
  - inversion Hx; subst. constructor; [now apply IH|].
    apply Forall_app; split; [assumption|]. now constructor.
Qed.

Lemma sorted_reverse_descending (l : list A) :
  Forall (fun y => proper (key y)) l ->
  StronglySorted (descending lt key) (Py.sorted_reverse lt key l).
Proof.
  intros Hproper. unfold Py.sorted_reverse.
  assert (Hrev : Forall (fun y => proper (key y)) (rev l)) by now apply Forall_rev.
  generalize (sorted_ascending (rev l) Hrev). generalize (Py.sorted lt key (rev l)).
  induction 1 as [|y m Hs IH Hall]; simpl; [constructor|].
  apply StronglySorted_snoc; [assumption|].
  apply Forall_rev. exact Hall.
Qed.

End OrderingFacts.

Section Extrema.
Context {K : Type}.
Variable lt : K -> K -> bool.
Variable proper : K -> Prop.
Hypothesis lt_asym : forall a b, lt a b = true -> lt b a = false.
Hypothesis lt_cotrans :
  forall a b c, proper b -> lt a b = false -> lt b c = false -> lt a c = false.

Lemma lt_irrefl (a : K) : lt a a = false.
Proof.
  destruct (lt a a) eqn:H; [|reflexivity]. now rewrite (lt_asym _ _ H) in H.
Qed.

(** [max] returns an item of the list that no item exceeds. *)
Lemma max_spec (l : list K) (m : K) :
  Forall proper l ->
  Py.max lt l = Ok m -> In m l /\ forall x, In x l -> lt m x = false.
Proof.
  destruct l as [|x0 l]; [discriminate|]. cbn [Py.max]. intros Hproper [= <-].
  revert x0 Hproper. induction l as [|y l IH]; intros x0 Hproper; cbn [fold_left].
  - split; [now left|]. intros x [<-|[]]. apply lt_irrefl.
  - inversion Hproper as [|? ? Hx0 Hrest]; subst.
    inversion Hrest as [|? ? Hy Hl]; subst.
    destruct (lt x0 y) eqn:Hxy.
    + destruct (IH y Hrest) as [Hin Hub]. split.
      * destruct Hin as [<-|Hin]; [right; now left|right; now right].
      * intros x [<-|Hx]; [|now apply Hub].
        apply lt_cotrans with y; [assumption|apply Hub; now left|now apply lt_asym].
    + destruct (IH x0 (Forall_cons _ Hx0 Hl)) as [Hin Hub]. split.
      * destruct Hin as [<-|Hin]; [now left|right; now right].
      * intros x [<-|[<-|Hx]].
        -- apply Hub; now left.
        -- apply lt_cotrans with x0; [assumption|apply Hub; now left|assumption].
        -- apply Hub; now right.
Qed.

(** [min] returns an item of the list that exceeds no item. *)
Lemma min_spec (l : list K) (m : K) :
  Forall proper l ->
  Py.min lt l = Ok m -> In m l /\ forall x, In x l -> lt x m = false.
Proof.
  destruct l as [|x0 l]; [discriminate|]. cbn [Py.min]. intros Hproper [= <-].
  revert x0 Hproper. induction l as [|y l IH]; intros x0 Hproper; cbn [fold_left].
  - split; [now left|]. intros x [<-|[]]. apply lt_irrefl.
  - inversion Hproper as [|? ? Hx0 Hrest]; subst.
    inversion Hrest as [|? ? Hy Hl]; subst.
    destruct (lt y x0) eqn:Hyx.
    + destruct (IH y Hrest) as [Hin Hlb]. split.
      * destruct Hin as [<-|Hin]; [right; now left|right; now right].
      * intros x [<-|Hx]; [|now apply Hlb].
        apply lt_cotrans with y; [assumption|now apply lt_asym|apply Hlb; now left].
    + destruct (IH x0 (Forall_cons _ Hx0 Hl)) as [Hin Hlb]. split.
      * destruct Hin as [<-|Hin]; [now left|right; now right].
      * intros x [<-|[<-|Hx]].
        -- apply Hlb; now left.
        -- apply lt_cotrans with x0; [assumption|assumption|apply Hlb; now left].
        -- apply Hlb; now right.
Qed.

End Extrema.
(** * Facts about dictionaries and the storage *)

Lemma dict_set_keys_in (d : dict) (k : string) (v : movie) (x : string) :
  In x (dict_keys (dict_set d k v)) <-> In x (dict_keys d) \/ x = k.
Proof.
  induction d as [|[k' v'] d IH]; simpl.
  - intuition congruence.
  - destruct (String.eqb_spec k' k) as [->|Hne]; simpl.
    + intuition congruence.
    + rewrite IH. tauto.
Qed.

Lemma dict_set_nodup (d : dict) (k : string) (v : movie) :
  NoDup (dict_keys d) -> NoDup (dict_keys (dict_set d k v)).
Proof.
  induction d as [|[k' v'] d IH]; simpl; intros Hd.
  - constructor; [intros []|constructor].
  - inversion Hd as [|? ? Hnotin Hd']; subst.
    destruct (String.eqb_spec k' k) as [->|Hne]; simpl.
    + now constructor.
    + constructor; [|now apply IH].
      fold (dict_keys (dict_set d k v)). rewrite dict_set_keys_in.
      intros [H|H]; [now apply Hnotin|congruence].
Qed.

Lemma dict_set_not_nil (d : dict) (k : string) (v : movie) : dict_set d k v <> [].
Proof.
  destruct d as [|[k' v'] d]; simpl; [discriminate|].
  destruct (String.eqb k' k); discriminate.
Qed.

Lemma fold_dict_set_nodup (rows : list row) (d : dict) :
  NoDup (dict_keys d) ->
  NoDup (dict_keys
    (fold_left (fun d (r : row) =>
                  let '(title, y, rt, img) := r in dict_set d title (mkMovie y rt img))
               rows d)).
Proof.
  revert d. induction rows as [|[[[t y] rt] img] rows IH]; intros d Hd; simpl.
  - assumption.
  - apply IH. now apply dict_set_nodup.
Qed.

Lemma fold_dict_set_not_nil (rows : list row) (d : dict) :
  d <> [] ->
  fold_left (fun d (r : row) =>
               let '(title, y, rt, img) := r in dict_set d title (mkMovie y rt img))
            rows d <> [].
Proof.
  revert d. induction rows as [|[[[t y] rt] img] rows IH]; intros d Hd; simpl.
  - assumption.
  - apply IH. apply dict_set_not_nil.
Qed.

(** The titles of a catalogue are pairwise distinct. *)
Lemma snapshot_nodup (s : state) : NoDup (dict_keys (snapshot s)).
Proof.
  apply fold_dict_set_nodup. constructor.
Qed.

(** The catalogue is empty exactly when the table is. *)
Lemma snapshot_nil (s : state) : snapshot s = [] <-> table s = [].
Proof.
  unfold snapshot, storage.list_movies_of.
  destruct (table s) as [|[[[t y] rt] img] rows]; simpl.
  - tauto.
  - split; [|discriminate]. intros H.
    exfalso. revert H. apply fold_dict_set_not_nil. discriminate.
Qed.

Lemma dict_get_in (d : dict) (k : string) (v : movie) :
  NoDup (dict_keys d) -> In (k, v) d -> dict_get d k = Some v.
Proof.
  induction d as [|[k' v'] d IH]; simpl; intros Hd Hin; [contradiction|].
  inversion Hd as [|? ? Hnotin Hd']; subst.
  destruct Hin as [[= -> ->]|Hin].
  - now rewrite String.eqb_refl.
  - destruct (String.eqb_spec k' k) as [->|Hne]; [|now apply IH].
    exfalso. apply Hnotin. change k with (fst (k, v)). now apply in_map.
Qed.

(** * Running the operations *)

Lemma emit_nil (s : state) : emit [] s = s.
Proof.
  destruct s. unfold emit. simpl. now rewrite app_nil_r.
Qed.

Lemma emit_emit (a b : list line) (s : state) : emit b (emit a s) = emit (a ++ b) s.
Proof.
  unfold emit. simpl. now rewrite app_assoc.
Qed.

Lemma bind_ok {A B : Type} (m : M A) (k : A -> M B) (s s' : state) (a : A) :
  m s = (Ok a, s') -> bind m k s = k a s'.
Proof.
  unfold bind. now intros ->.
Qed.

Lemma bind_raise {A B : Type} (m : M A) (k : A -> M B) (s s' : state) (e : exn) :
  m s = (Raise e, s') -> bind m k s = (Raise e, s').
Proof.
  unfold bind. now intros ->.
Qed.

Lemma field_run {A : Type} (f : movie -> A) (k : string) (m : movie) (s : state) :
  dict_get (movies s) k = Some m -> field f k s = (Ok (f m), s).
Proof.
  unfold field. now intros ->.
Qed.

(** A loop whose rounds only write: it writes the rounds' lines in order. *)
Lemma for_each_emit {A : Type} (d : dict) (body : A -> M unit) (f : A -> list line)
    (l : list A) :
  (forall a s, In a l -> movies s = d -> body a s = (Ok tt, emit (f a) s)) ->
  forall s, movies s = d -> for_each l body s = (Ok tt, emit (flat_map f l) s).
Proof.
  induction l as [|a l IH]; intros Hbody s Hs; cbn [for_each flat_map].
  - unfold ret. now rewrite emit_nil.
  - rewrite (bind_ok _ _ _ _ _ (Hbody a s (or_introl eq_refl) Hs)).
    rewrite IH; [now rewrite emit_emit| |exact Hs].
    intros b s' Hb. apply Hbody. now right.
Qed.

(** The list comprehension [[movies[movie][field] for movie in movies]]. *)
Lemma for_list_field {A : Type} (f : movie -> A) (l : dict) (s : state) :
  (forall k m, In (k, m) l -> dict_get (movies s) k = Some m) ->
  for_list (dict_keys l) (fun movie => field f movie) s
  = (Ok (map (fun entry => f (snd entry)) l), s).
Proof.
  induction l as [|[k m] l IH]; intros Hl; cbn [for_list dict_keys map].
  - reflexivity.
  - rewrite (bind_ok _ _ _ _ _ (field_run f k m s (Hl k m (or_introl eq_refl)))).
    fold (dict_keys l).
    rewrite (bind_ok _ _ _ _ _ (IH (fun k' m' H => Hl k' m' (or_intror H)))).
    reflexivity.
Qed.

Lemma assign_movies_run (s : state) :
  assign_movies s = (Ok tt, set_movies (snapshot s) s).
Proof.
  reflexivity.
Qed.

(** The loop asking for a title stops at the first line that is not empty. *)
Lemma ask_title_run (title : string) (rest : list string) (s : state) :
  stdin s = title :: rest -> title <> EmptyString ->
  ask_title s = (Ok title, set_stdin rest (emit [Prompt] s)).
Proof.
  intros Hin Hne. unfold ask_title. rewrite Hin.
  cbn [List.length ask_title_rounds].
  assert (Hinput : input s = (Ok title, set_stdin rest (emit [Prompt] s)))
    by (unfold input; now rewrite Hin).
  rewrite (bind_ok _ _ _ _ _ Hinput).
  destruct (String.eqb_spec title EmptyString); [contradiction|reflexivity].
Qed.

(** The ratings of a table without not-a-number are numbers in the
    catalogue too. *)
Lemma dict_set_values (P : movie -> Prop) (d : dict) (k : string) (v : movie) :
  Forall (fun e => P (snd e)) d -> P v -> Forall (fun e => P (snd e)) (dict_set d k v).
Proof.
  intros Hd Hv. induction d as [|[k' v'] d IH]; cbn [dict_set].
  - now repeat constructor.
  - inversion Hd; subst. destruct (String.eqb k' k); constructor; auto.
Qed.

Lemma snapshot_numeric (s : state) :
  numeric (table s) -> Forall (fun r => r <> Py.nan) (ratings_of (snapshot s)).
Proof.
  unfold numeric, snapshot, storage.list_movies_of, ratings_of. intros Hrows.
  apply Forall_map.
  assert (Hacc : Forall (fun e : string * movie => rating (snd e) <> Py.nan) [])
    by constructor.
  revert Hacc. generalize (@nil (string * movie)).
  induction Hrows as [|[[[t y] rt] img] rows Hr _ IH]; intros d Hd; cbn [fold_left].
  - exact Hd.
  - apply IH. now apply (dict_set_values (fun m => rating m <> Py.nan)).
Qed.

(** * The Rating Ranker: [movies_sorted_by_rating] *)

Lemma flat_map_singleton {A B : Type} (f : A -> B) (l : list A) :
  flat_map (fun a => [f a]) l = map f l.
Proof.
  induction l as [|a l IH]; simpl; [reflexivity|now rewrite IH].
Qed.

Lemma StronglySorted_weaken {A : Type} (R R' : A -> A -> Prop) (l : list A) :
  (forall a b, In a l -> In b l -> R a b -> R' a b) ->
  StronglySorted R l -> StronglySorted R' l.
Proof.
  intros HR Hs. induction Hs as [|a l Hs IH Hall]; constructor.
  - apply IH. intros x y Hx Hy. apply HR; now right.
  - rewrite Forall_forall in *. intros b Hb.
    apply HR; [now left|now right|now apply Hall].
Qed.

Lemma movies_sorted_by_rating_run (s : state) :
  movies_sorted_by_rating s
  = (Ok tt,
     emit (map movie_line
             (Py.sorted_reverse Py.float_lt (fun x : string * movie => rating (snd x))
                (snapshot s)))
          (set_movies (snapshot s) s)).
Proof.
  unfold movies_sorted_by_rating.
  rewrite (bind_ok _ _ _ _ _ (assign_movies_run s)).
  unfold items at 1. cbn [bind movies set_movies].
  rewrite (for_each_emit (snapshot s) _ (fun e => [movie_line e])).
  - now rewrite flat_map_singleton.
  - reflexivity.
  - reflexivity.
Qed.

(** C7. For every catalogue read from a table whose ratings are numbers,
    the Rating Ranker writes all its records, each once, in descending
    order of rating, and the records of one rating stand in the order the
    catalogue iterates them (the sort is stable).  On an empty catalogue it
    writes nothing and raises nothing.  On the catalogue [{A: 7.0, B: 9.0,
    C: 7.0}] it writes B, A, C. *)
Theorem ranker_descending_stable :
  (forall s : state,
      numeric (table s) ->
      exists ranked : list (string * movie),
        movies_sorted_by_rating s
        = (Ok tt, emit (map movie_line ranked) (set_movies (snapshot s) s))
        /\ Permutation ranked (snapshot s)
        /\ StronglySorted (fun a b => fle (rating (snd b)) (rating (snd a))) ranked
        /\ forall r : Py.float,
            filter (fun e => SFeqb (rating (snd e)) r) ranked
            = filter (fun e => SFeqb (rating (snd e)) r) (snapshot s))
  /\ (forall (m : dict) (i : list string) (o : list line) (e : nat -> nat) (k n : nat),
         fst (movies_sorted_by_rating (mkState [] m i o e k n)) = Ok tt
         /\ stdout (snd (movies_sorted_by_rating (mkState [] m i o e k n))) = o)
  /\ stdout (snd (movies_sorted_by_rating (start abc_rows [])))
     = [MovieLine "B" 2002 (S754_finite false 5066549580791808 (-49));
        MovieLine "A" 2001 (S754_finite false 7881299347898368 (-50));
        MovieLine "C" 2003 (S754_finite false 7881299347898368 (-50))].
Proof.
  split; [|split].
  - intros s Hnum.
    pose proof (snapshot_numeric s Hnum) as Hratings.
    unfold ratings_of in Hratings. rewrite Forall_map in Hratings.
    exists (Py.sorted_reverse Py.float_lt (fun x : string * movie => rating (snd x))
              (snapshot s)).
    split; [apply movies_sorted_by_rating_run|].
    split; [apply sorted_reverse_perm|].
    split.
    + apply StronglySorted_weaken
        with (R := descending Py.float_lt (fun x : string * movie => rating (snd x))).
      * intros a b Ha Hb. unfold descending.
        rewrite Forall_forall in Hratings.
        apply (Permutation_in _ (sorted_reverse_perm _ _ _)) in Ha, Hb.
        apply float_lt_false; now apply Hratings.
      * apply sorted_reverse_descending with (proper := fun r => r <> Py.nan).
        -- apply float_lt_asym.
        -- apply float_lt_cotrans.
        -- exact Hratings.
    + intros r. apply sorted_reverse_filter.
      intros a b. apply float_eq_not_lt.
  - intros m i o e k n. rewrite movies_sorted_by_rating_run.
    cbn. now rewrite app_nil_r.
  - vm_compute. reflexivity.
Qed.
(** * The Statistics Calculator: [stats] *)

Lemma getitem_nat {A : Type} (l : list A) (i : nat) (a : A) :
  nth_error l i = Some a -> Py.getitem l (Z.of_nat i) = Ok a.
Proof.
  intros H. unfold Py.getitem.
  destruct (Z.ltb_spec (Z.of_nat i) 0) as [Hneg|_]; [lia|].
  destruct (Z.ltb_spec (Z.of_nat i) 0) as [Hneg|_]; [lia|].
  now rewrite Nat2Z.id, H.
Qed.

Lemma getitem_empty {A : Type} (i : Z) : Py.getitem (@nil A) i = Raise IndexError.
Proof.
  unfold Py.getitem, Py.len. cbn [List.length Z.of_nat]. rewrite Z.add_0_r.
  destruct (i <? 0)%Z eqn:Hi; [now rewrite Hi|].
  rewrite Hi. now destruct (Z.to_nat i).
Qed.

Lemma nth_error_below {A : Type} (l : list A) (i : nat) :
  (i < List.length l)%nat -> exists a, nth_error l i = Some a.
Proof.
  intros H. destruct (nth_error l i) as [a|] eqn:Hn; [now exists a|].
  apply nth_error_None in Hn. lia.
Qed.

Lemma len_mod2 {A : Type} (l : list A) :
  negb (Py.len l mod 2 =? 0)%Z = Nat.odd (List.length l).
Proof.
  unfold Py.len. set (n := List.length l).
  assert (Hm : (n mod 2 = Nat.b2n (Nat.odd n))%nat)
    by (rewrite <- Nat.bit0_odd; symmetry; apply Nat.bit0_mod).
  change 2%Z with (Z.of_nat 2). rewrite <- Nat2Z.inj_mod, Hm.
  now destruct (Nat.odd n).
Qed.

Lemma len_quot2 {A : Type} (l : list A) :
  Z.quot (Py.len l) 2 = Z.of_nat (List.length l / 2).
Proof.
  unfold Py.len. rewrite Z.quot_div_nonneg by lia.
  change 2%Z with (Z.of_nat 2). now rewrite <- Nat2Z.inj_div.
Qed.

(** The median of [stats] on a non-empty sorted list is the median of the
    specification, and neither index is out of range. *)
Lemma median_run (l : list Py.float) (s : state) :
  l <> [] ->
  exists median,
    (if negb (Py.len l mod 2 =? 0)%Z
     then lift (Py.getitem l (Z.quot (Py.len l) 2))
     else a <- lift (Py.getitem l (Z.quot (Py.len l) 2 - 1)) ;;
          b <- lift (Py.getitem l (Z.quot (Py.len l) 2)) ;;
          ret (Py.fdiv (Py.fadd a b) (Py.float_of_int 2))) s = (Ok median, s)
    /\ spec_median l median.
Proof.
  intros Hl. unfold spec_median. rewrite len_mod2, len_quot2.
  assert (Hn : (0 < List.length l)%nat) by (destruct l; [contradiction|simpl; lia]).
  set (n := List.length l) in *.
  assert (Hmid : (n / 2 < n)%nat) by (apply Nat.div_lt; lia).
  destruct (nth_error_below l (n / 2) Hmid) as [b Hb].
  cbv zeta. destruct (Nat.odd n) eqn:Hodd.
  - exists b. split; [|assumption]. unfold lift. now rewrite (getitem_nat _ _ _ Hb).
  - assert (Hhalf : (1 <= n / 2)%nat).
    { destruct n as [|[|n']]; [lia|discriminate|].
      change (S (S n')) with (2 + n')%nat.
      replace (2 + n')%nat with (n' + 1 * 2)%nat by lia.
      rewrite Nat.div_add by lia. lia. }
    assert (Hpred : (n / 2 - 1 < n)%nat) by lia.
    destruct (nth_error_below l (n / 2 - 1) Hpred) as [a Ha].
    exists (Py.fdiv (Py.fadd a b) (Py.float_of_int 2)).
    split; [|exists a, b; now repeat split].
    replace (Z.of_nat (n / 2) - 1)%Z with (Z.of_nat (n / 2 - 1)) by lia.
    unfold lift, bind, ret.
    now rewrite (getitem_nat _ _ _ Ha), (getitem_nat _ _ _ Hb).
Qed.

Lemma flat_map_keys {B : Type} (d l : dict) (g : string * movie -> list B) :
  (forall k m, In (k, m) l -> dict_get d k = Some m) ->
  flat_map (fun k => match dict_get d k with Some m => g (k, m) | None => [] end)
           (dict_keys l)
  = flat_map g l.
Proof.
  induction l as [|[k m] l IH]; intros Hl; simpl; [reflexivity|].
  rewrite (Hl k m (or_introl eq_refl)). f_equal.
  apply IH. intros k' m' H. apply Hl. now right.
Qed.

(** One round of the loop over the best and the worst movies. *)
Lemma best_worst_round (maximum minimum : Py.float) (k : string) (m : movie) (s : state) :
  dict_get (movies s) k = Some m ->
  (r <- field rating k ;;
   (if Py.float_eq r maximum
    then y <- field year k ;; r <- field rating k ;; print (BestLine k y r)
    else ret tt) ;;
   r <- field rating k ;;
   (if Py.float_eq r minimum
    then y <- field year k ;; r <- field rating k ;; print (WorstLine k y r)
    else ret tt)) s
  = (Ok tt, emit (best_worst_lines maximum minimum (k, m)) s).
Proof.
  intros H. unfold best_worst_lines. cbn [fst snd].
  rewrite (bind_ok _ _ _ _ _ (field_run rating k m s H)).
  destruct (Py.float_eq (rating m) maximum) eqn:Hmax,
           (Py.float_eq (rating m) minimum) eqn:Hmin;
    cbn [app]; rewrite ?emit_nil;
    unfold bind, field, print, ret, emit;
    repeat (cbn [movies stdout table stdin entropy draws extract_calls];
            rewrite ?H, ?Hmin);
    rewrite <- ?app_assoc; reflexivity.
Qed.

Lemma stats_run (v : Py.release) (s : state) :
  snapshot s <> [] ->
  exists average median maximum minimum,
    Py.truediv (Py.sum v (ratings_of (snapshot s))) (Py.len (ratings_of (snapshot s)))
    = Ok average
    /\ spec_median (Py.sorted Py.float_lt (fun r => r) (ratings_of (snapshot s))) median
    /\ Py.max Py.float_lt (ratings_of (snapshot s)) = Ok maximum
    /\ Py.min Py.float_lt (ratings_of (snapshot s)) = Ok minimum
    /\ stats v s
       = (Ok tt,
          emit (AverageLine (Py.round1 average) :: MedianLine median
                  :: flat_map (best_worst_lines maximum minimum) (snapshot s))
               (set_movies (snapshot s) s)).
Proof.
  intros Hne. set (d := snapshot s) in *. set (s1 := set_movies d s).
  assert (Hget : forall k m, In (k, m) d -> dict_get d k = Some m).
  { intros k m Hin. apply dict_get_in; [apply snapshot_nodup|assumption]. }
  assert (Hlen : ratings_of d <> []) by (destruct d; [contradiction|discriminate]).
  destruct (Py.truediv (Py.sum v (ratings_of d)) (Py.len (ratings_of d)))
    as [average|e] eqn:Havg.
  2:{ unfold Py.truediv, Py.len in Havg.
      destruct (Z.eqb_spec (Z.of_nat (List.length (ratings_of d))) 0) as [H0|_];
        [|discriminate].
      destruct (ratings_of d); [contradiction|simpl in H0; lia]. }
  assert (Hsorted : Py.sorted Py.float_lt (fun r : Py.float => r) (ratings_of d) <> []).
  { intros Hnil. apply Hlen. apply Permutation_nil.
    rewrite <- Hnil. apply sorted_perm. }
  destruct (ratings_of d) as [|r0 rs] eqn:Hr; [contradiction|].
  rewrite <- Hr in *.
  assert (Hmax : exists maximum, Py.max Py.float_lt (ratings_of d) = Ok maximum)
    by (rewrite Hr; eexists; reflexivity).
  assert (Hmin : exists minimum, Py.min Py.float_lt (ratings_of d) = Ok minimum)
    by (rewrite Hr; eexists; reflexivity).
  destruct Hmax as [maximum Hmax]. destruct Hmin as [minimum Hmin].
  destruct (median_run _ (emit [AverageLine (Py.round1 average)] s1) Hsorted)
    as (median & Hmed & Hspec).
  exists average, median, maximum, minimum.
  repeat (split; [assumption|]).
  unfold stats.
  rewrite (bind_ok _ _ _ _ _ (assign_movies_run s)). fold d. fold s1.
  unfold keys at 1. cbn [bind]. change (movies s1) with d.
  rewrite (bind_ok _ _ _ _ _ (for_list_field rating d s1 Hget)).
  fold (ratings_of d).
  unfold lift at 1. cbn [bind]. rewrite Havg.
  unfold print at 1. cbn [bind]. cbv zeta.
  rewrite (bind_ok _ _ _ _ _ Hmed).
  unfold print at 1. cbn [bind].
  unfold lift at 1. cbn [bind]. rewrite Hmax.
  unfold lift at 1. cbn [bind]. rewrite Hmin.
  unfold keys at 1. cbn [bind movies emit]. change (movies s1) with d.
  rewrite (for_each_emit d _
             (fun k => match dict_get d k with
                       | Some m => best_worst_lines maximum minimum (k, m)
                       | None => []
                       end)).
  - rewrite flat_map_keys by exact Hget. now rewrite !emit_emit.
  - intros k s' Hk Hs'. apply in_map_iff in Hk as [[k' m] [Hk Hin]].
    cbn [fst] in Hk. subst k'.
    rewrite (Hget k m Hin). apply best_worst_round. rewrite Hs'. now apply Hget.
  - reflexivity.
Qed.

Lemma best_of_rounds (maximum minimum : Py.float) (d : dict) :
  best_of (flat_map (best_worst_lines maximum minimum) d)
  = map best_line (filter (fun e => Py.float_eq (rating (snd e)) maximum) d).
Proof.
  unfold best_of. induction d as [|e d IH]; [reflexivity|].
  cbn [flat_map filter]. rewrite filter_app, IH. unfold best_worst_lines.
  destruct (Py.float_eq (rating (snd e)) maximum),
           (Py.float_eq (rating (snd e)) minimum); reflexivity.
Qed.

Lemma worst_of_rounds (maximum minimum : Py.float) (d : dict) :
  worst_of (flat_map (best_worst_lines maximum minimum) d)
  = map worst_line (filter (fun e => Py.float_eq (rating (snd e)) minimum) d).
Proof.
  unfold worst_of. induction d as [|e d IH]; [reflexivity|].
  cbn [flat_map filter]. rewrite filter_app, IH. unfold best_worst_lines.
  destruct (Py.float_eq (rating (snd e)) maximum),
           (Py.float_eq (rating (snd e)) minimum); reflexivity.
Qed.

(** The largest and the smallest rating of a catalogue of numbers. *)
Lemma extrema_run (d : dict) (maximum minimum : Py.float) :
  Forall (fun r => r <> Py.nan) (ratings_of d) ->
  Py.max Py.float_lt (ratings_of d) = Ok maximum ->
  Py.min Py.float_lt (ratings_of d) = Ok minimum ->
  (In maximum (ratings_of d) /\ forall r, In r (ratings_of d) -> fle r maximum)
  /\ (In minimum (ratings_of d) /\ forall r, In r (ratings_of d) -> fle minimum r).
Proof.
  intros Hnum Hmax Hmin. rewrite Forall_forall in Hnum.
  apply (max_spec _ (fun r => r <> Py.nan) float_lt_asym float_lt_cotrans) in Hmax
    as [Hmax_in Hmax_ub]; [|now apply Forall_forall].
  apply (min_spec _ (fun r => r <> Py.nan) float_lt_asym float_lt_cotrans) in Hmin
    as [Hmin_in Hmin_lb]; [|now apply Forall_forall].
  split; (split; [assumption|]); intros r Hr; apply float_lt_false; auto.
Qed.

(** C5. For every non-empty catalogue read from a table whose ratings are
    numbers, the median that [stats] writes is the one of the specification
    on the ratings sorted ascending: the element at index [n/2] for an odd
    count [n], the mean of the elements at indices [n/2 - 1] and [n/2] for an
    even count.  The ratings 5.0, 7.0, 9.0 have the median 7.0, which is
    7881299347898368 * 2^-50, and 5.0, 6.0, 7.0, 9.0 have the median 6.5,
    which is 7318349394477056 * 2^-50. *)
Theorem stats_median :
  (forall (v : Py.release) (s : state),
      numeric (table s) ->
      snapshot s <> [] ->
      exists (sorted_ratings : list Py.float) (average median : Py.float)
             (rest : list line),
        Permutation sorted_ratings (ratings_of (snapshot s))
        /\ StronglySorted fle sorted_ratings
        /\ spec_median sorted_ratings median
        /\ stats v s
           = (Ok tt,
              emit (AverageLine average :: MedianLine median :: rest)
                   (set_movies (snapshot s) s))
        /\ (forall l, In l rest -> forall x, l <> MedianLine x))
  /\ (forall v : Py.release,
         nth_error (stdout (snd (stats v (start three_rows [])))) 1
         = Some (MedianLine (S754_finite false 7881299347898368 (-50))))
  /\ (forall v : Py.release,
         nth_error (stdout (snd (stats v (start four_rows [])))) 1
         = Some (MedianLine (S754_finite false 7318349394477056 (-50)))).
Proof.
  split; [|split; intros []; vm_compute; reflexivity].
  intros v s Hnum Hne.
  pose proof (snapshot_numeric s Hnum) as Hratings.
  destruct (stats_run v s Hne) as (average & median & maximum & minimum
                                   & _ & Hmed & _ & _ & Hrun).
  exists (Py.sorted Py.float_lt (fun r => r) (ratings_of (snapshot s))),
    (Py.round1 average), median,
    (flat_map (best_worst_lines maximum minimum) (snapshot s)).
  split; [apply sorted_perm|].
  split.
  { apply StronglySorted_weaken with (R := ascending Py.float_lt (fun r : Py.float => r)).
    - intros a b Ha Hb. unfold ascending.
      apply (Permutation_in _ (sorted_perm _ _ _)) in Ha, Hb.
      rewrite Forall_forall in Hratings. apply float_lt_false; now apply Hratings.
    - apply sorted_ascending with (proper := fun r => r <> Py.nan).
      + apply float_lt_asym.
      + apply float_lt_cotrans.
      + exact Hratings. }
  split; [assumption|]. split; [assumption|].
  intros l Hl x. apply in_flat_map in Hl as (e & _ & Hl).
  unfold best_worst_lines in Hl. apply in_app_or in Hl.
  destruct (Py.float_eq (rating (snd e)) maximum),
           (Py.float_eq (rating (snd e)) minimum);
    destruct Hl as [Hl|Hl]; simpl in Hl; intuition (subst; discriminate).
Qed.

(** C6. For every non-empty catalogue read from a table whose ratings are
    numbers, [stats] reports as best every record whose rating equals the
    largest rating of the catalogue, all of them when several tie, and no
    other; and as worst every record whose rating equals the smallest
    rating, and no other.  On the catalogue [{A: 8.0, B: 8.0, C: 5.0}] the
    best are A and B, the worst is C. *)
Theorem stats_best_worst_ties :
  (forall (v : Py.release) (s : state),
      numeric (table s) ->
      snapshot s <> [] ->
      exists (maximum minimum : Py.float) (out : list line),
        stats v s = (Ok tt, emit out (set_movies (snapshot s) s))
        /\ In maximum (ratings_of (snapshot s))
        /\ (forall r, In r (ratings_of (snapshot s)) -> fle r maximum)
        /\ In minimum (ratings_of (snapshot s))
        /\ (forall r, In r (ratings_of (snapshot s)) -> fle minimum r)
        /\ best_of out
           = map best_line
               (filter (fun e => SFeqb (rating (snd e)) maximum) (snapshot s))
        /\ worst_of out
           = map worst_line
               (filter (fun e => SFeqb (rating (snd e)) minimum) (snapshot s)))
  /\ (forall v : Py.release,
         best_of (stdout (snd (stats v (start tie_rows []))))
         = [BestLine "A" 2001 (S754_finite false 4503599627370496 (-49));
            BestLine "B" 2002 (S754_finite false 4503599627370496 (-49))]
         /\ worst_of (stdout (snd (stats v (start tie_rows []))))
            = [WorstLine "C" 2003 (S754_finite false 5629499534213120 (-50))]).
Proof.
  split; [|intros []; split; vm_compute; reflexivity].
  intros v s Hnum Hne.
  pose proof (snapshot_numeric s Hnum) as Hratings.
  destruct (stats_run v s Hne) as (average & median & maximum & minimum
                                   & _ & _ & Hmax & Hmin & Hrun).
  destruct (extrema_run _ _ _ Hratings Hmax Hmin) as [[Hmax_in Hmax_ub] [Hmin_in Hmin_lb]].
  exists maximum, minimum,
    (AverageLine (Py.round1 average) :: MedianLine median
       :: flat_map (best_worst_lines maximum minimum) (snapshot s)).
  split; [assumption|]. split; [assumption|]. split; [assumption|].
  split; [assumption|]. split; [assumption|].
  split.
  - change (best_of (flat_map (best_worst_lines maximum minimum) (snapshot s))
            = map best_line
                (filter (fun e => SFeqb (rating (snd e)) maximum) (snapshot s))).
    apply best_of_rounds.
  - change (worst_of (flat_map (best_worst_lines maximum minimum) (snapshot s))
            = map worst_line
                (filter (fun e => SFeqb (rating (snd e)) minimum) (snapshot s))).
    apply worst_of_rounds.
Qed.

(** C8. On an empty catalogue [stats] raises [ZeroDivisionError] and
    [random_movie] raises [IndexError]; neither writes anything, so no
    average, median or movie is reported. *)
Theorem empty_snapshot_guards (v : Py.release) (s : state) :
  snapshot s = [] ->
  stats v s = (Raise ZeroDivisionError, set_movies [] s)
  /\ stdout (snd (stats v s)) = stdout s
  /\ random_movie s = (Raise IndexError, set_movies [] s)
  /\ stdout (snd (random_movie s)) = stdout s.
Proof.
  intros Hempty.
  assert (Hstats : stats v s = (Raise ZeroDivisionError, set_movies [] s)).
  { unfold stats. rewrite (bind_ok _ _ _ _ _ (assign_movies_run s)), Hempty.
    reflexivity. }
  assert (Hrandom : random_movie s = (Raise IndexError, set_movies [] s)).
  { unfold random_movie. rewrite (bind_ok _ _ _ _ _ (assign_movies_run s)), Hempty.
    reflexivity. }
  rewrite Hstats, Hrandom. repeat split.
Qed.
(** * The catalogue is only read *)

Lemma keeps_ret {A : Type} (a : A) : keeps (ret a).
Proof.
  intros s. now split.
Qed.

Lemma keeps_raise {A : Type} (e : exn) : keeps (@raise A e).
Proof.
  intros s. now split.
Qed.

Lemma keeps_lift {A : Type} (r : result A) : keeps (lift r).
Proof.
  intros s. now split.
Qed.

Lemma keeps_bind {A B : Type} (m : M A) (k : A -> M B) :
  keeps m -> (forall a, keeps (k a)) -> keeps (bind m k).
Proof.
  intros Hm Hk s. unfold bind. specialize (Hm s).
  destruct (m s) as [[a|e] s1]; cbn [snd] in *; [|exact Hm].
  destruct (Hk a s1) as [Ht Hd]. destruct Hm as [Ht1 Hd1]. split; congruence.
Qed.

Lemma keeps_print (l : line) : keeps (print l).
Proof.
  intros s. now split.
Qed.

Lemma keeps_input : keeps input.
Proof.
  intros s. unfold input. destruct (stdin s); now split.
Qed.

Lemma keeps_keys : keeps keys.
Proof.
  intros s. now split.
Qed.

Lemma keeps_items : keeps items.
Proof.
  intros s. now split.
Qed.

Lemma keeps_field {A : Type} (f : movie -> A) (k : string) : keeps (field f k).
Proof.
  intros s. unfold field. destruct (dict_get (movies s) k); now split.
Qed.

Lemma keeps_randbelow (n : nat) : keeps (randbelow n).
Proof.
  intros s. now split.
Qed.

Lemma keeps_random_choice {A : Type} (seq : list A) : keeps (random_choice seq).
Proof.
  unfold random_choice. destruct (List.length seq =? 0)%nat.
  - apply keeps_raise.
  - apply keeps_bind; [apply keeps_randbelow|intros i; apply keeps_lift].
Qed.

Lemma keeps_process_extract (scorer : string -> string -> Q) (query : string)
    (choices : list string) :
  keeps (process_extract scorer query choices).
Proof.
  intros s. now split.
Qed.

Lemma keeps_for_each {A : Type} (l : list A) (body : A -> M unit) :
  (forall a, keeps (body a)) -> keeps (for_each l body).
Proof.
  intros Hbody. induction l as [|a l IH]; cbn [for_each].
  - apply keeps_ret.
  - apply keeps_bind; [apply Hbody|intros _; exact IH].
Qed.

Lemma keeps_for_list {A B : Type} (l : list A) (f : A -> M B) :
  (forall a, keeps (f a)) -> keeps (for_list l f).
Proof.
  intros Hf. induction l as [|a l IH]; cbn [for_list].
  - apply keeps_ret.
  - apply keeps_bind; [apply Hf|intros y].
    apply keeps_bind; [exact IH|intros ys; apply keeps_ret].
Qed.

Lemma keeps_for_fold {A V : Type} (l : list A) (v : V) (body : V -> A -> M V) :
  (forall v a, keeps (body v a)) -> keeps (for_fold l v body).
Proof.
  intros Hbody. revert v. induction l as [|a l IH]; intros v; cbn [for_fold].
  - apply keeps_ret.
  - apply keeps_bind; [apply Hbody|intros v'; apply IH].
Qed.

Lemma keeps_ask_title : keeps ask_title.
Proof.
  assert (H : forall n, keeps (ask_title_rounds n)).
  { induction n as [|n IH]; cbn [ask_title_rounds].
    - apply keeps_raise.
    - apply keeps_bind; [apply keeps_input|intros title].
      destruct (String.eqb title EmptyString); [|apply keeps_ret].
      apply keeps_bind; [apply keeps_print|intros _; exact IH]. }
  intros s. apply H.
Qed.

Create HintDb frame.

#[local] Hint Resolve keeps_ret keeps_raise keeps_lift keeps_print keeps_input
  keeps_keys keeps_items keeps_field keeps_random_choice keeps_process_extract
  keeps_ask_title keeps_bind keeps_for_each keeps_for_list keeps_for_fold : frame.

#[local] Hint Extern 1 (keeps (if ?b then _ else _)) => destruct b : frame.

#[local] Hint Extern 1 (keeps (let '(_, _) := ?p in _)) => destruct p : frame.

(** An operation that loads the catalogue and then only reads it ends with
    the table untouched and [movies] still the catalogue it loaded. *)
Lemma frame_after_assign {A : Type} (rest : M A) (s : state) :
  keeps rest ->
  table (snd ((assign_movies ;; rest) s)) = table s
  /\ movies (snd ((assign_movies ;; rest) s)) = snapshot s.
Proof.
  intros H. rewrite (bind_ok _ _ _ _ _ (assign_movies_run s)).
  destruct (H (set_movies (snapshot s) s)) as [Ht Hd]. now split.
Qed.

(** C9. Search Resolver, Statistics Calculator, Rating Ranker and Random
    Selector leave the catalogue as they received it, whatever they return
    or raise, whatever the lower-casing, the scorer, the summation and the
    generator: the SQL table is unchanged, and the dictionary [movies] is
    at the end the very catalogue that [storage.list_movies()] returned,
    with every field of every record. *)
Theorem core_operations_keep_catalogue
    (str_lower : string -> string) (token_set_ratio : string -> string -> Q)
    (v : Py.release) (s : state) :
  (table (snd (search_movie str_lower token_set_ratio s)) = table s
   /\ movies (snd (search_movie str_lower token_set_ratio s)) = snapshot s)
  /\ (table (snd (stats v s)) = table s
      /\ movies (snd (stats v s)) = snapshot s)
  /\ (table (snd (movies_sorted_by_rating s)) = table s
      /\ movies (snd (movies_sorted_by_rating s)) = snapshot s)
  /\ (table (snd (random_movie s)) = table s
      /\ movies (snd (random_movie s)) = snapshot s).
Proof.
  repeat apply conj.
  all: apply (frame_after_assign _ s); auto 40 with frame.
Qed.

(** * The Search Resolver: [search_movie] *)

Lemma dict_get_key (d : dict) (k : string) :
  In k (dict_keys d) -> exists m, dict_get d k = Some m.
Proof.
  induction d as [|[k' v'] d IH]; simpl; [contradiction|].
  intros [<-|Hin].
  - rewrite String.eqb_refl. now exists v'.
  - destruct (String.eqb k' k); [now exists v'|now apply IH].
Qed.

Lemma filter_none {A : Type} (p : A -> bool) (l : list A) :
  existsb p l = false -> filter p l = [].
Proof.
  induction l as [|a l IH]; simpl; [reflexivity|].
  destruct (p a); simpl; [discriminate|exact IH].
Qed.

Lemma firstn_in {A : Type} (n : nat) (l : list A) (x : A) :
  In x (firstn n l) -> In x l.
Proof.
  intros H. rewrite <- (firstn_skipn n l). apply in_or_app. now left.
Qed.

(** The first loop writes the line of every entry whose title contains the
    query, and sets [movie_is_found] when there is one. *)
Lemma exact_phase_run (str_lower : string -> string) (title : string) (l : dict)
    (found : bool) (s : state) :
  (forall k m, In (k, m) l -> dict_get (movies s) k = Some m) ->
  for_fold (dict_keys l) found
    (fun found movie =>
       if Py.contains (str_lower title) (str_lower movie)
       then y <- field year movie ;; r <- field rating movie ;;
            print (MovieLine movie y r) ;; ret true
       else ret found) s
  = (Ok (found || existsb (fun e => title_matches str_lower title (fst e)) l),
     emit (map movie_line (filter (fun e => title_matches str_lower title (fst e)) l)) s).
Proof.
  revert found s. induction l as [|[k m] l IH]; intros found s Hl.
  - cbn. now rewrite emit_nil, orb_false_r.
  - cbn [dict_keys map for_fold existsb filter fst]. fold (dict_keys l).
    change (Py.contains (str_lower title) (str_lower k))
      with (title_matches str_lower title k).
    destruct (title_matches str_lower title k) eqn:Hk.
    + assert (Hget := Hl k m (or_introl eq_refl)).
      assert (Hround :
        (y <- field year k ;; r <- field rating k ;;
         print (MovieLine k y r) ;; ret true) s
        = (Ok true, emit [movie_line (k, m)] s)).
      { unfold bind, field, print, ret. rewrite Hget. cbv beta iota.
        rewrite Hget. reflexivity. }
      rewrite (bind_ok _ _ _ _ _ Hround).
      rewrite IH by (intros k' m' H; apply Hl; now right).
      rewrite emit_emit. cbn [map app orb]. now rewrite orb_true_r.
    + unfold ret at 1. cbn [bind].
      rewrite IH by (intros k' m' H; apply Hl; now right).
      reflexivity.
Qed.

(** One round of the loop over the entries that [process.extract] returned. *)
Lemma suggestion_round (d : dict) (entry : string * Z) (s : state) :
  movies s = d -> In (fst entry) (dict_keys d) ->
  (let '(fuzzy_movie, score) := entry in
   if (53 <=? score)%Z
   then y <- field year fuzzy_movie ;; r <- field rating fuzzy_movie ;;
        print (SuggestionLine fuzzy_movie y r)
   else ret tt) s
  = (Ok tt, emit (suggestion_lines d entry) s).
Proof.
  intros Hs Hin. destruct entry as [t sc]. cbn [fst] in Hin.
  unfold suggestion_lines, suggestion_of. cbn [fst snd].
  destruct (53 <=? sc)%Z.
  - destruct (dict_get_key d t Hin) as [m Hm]. rewrite Hm.
    unfold bind, field, print. rewrite Hs, Hm. cbv beta iota. now rewrite Hs, Hm.
  - unfold ret. now rewrite emit_nil.
Qed.

Section SearchFacts.
Variable str_lower : string -> string.
Variable token_set_ratio : string -> string -> Q.

Lemma score_all_titles (query : string) (choices : list string) :
  map fst (thefuzz.score_all token_set_ratio query choices) = choices.
Proof.
  unfold thefuzz.score_all. rewrite map_map. cbn [fst]. apply map_id.
Qed.

Lemma ranking_perm (query : string) (d : dict) :
  Permutation (ranking token_set_ratio query d) (scored token_set_ratio query d).
Proof.
  apply sorted_reverse_perm.
Qed.

(** [process.extract] returns entries of the catalogue only. *)
Lemma extract_titles (query : string) (d : dict) (entry : string * Z) :
  In entry (thefuzz.extract token_set_ratio query (dict_keys d)) ->
  In (fst entry) (dict_keys d).
Proof.
  intros H. apply in_map_iff in H as (e & <- & H). apply firstn_in in H.
  apply (Permutation_in _ (ranking_perm query d)) in H.
  cbn [thefuzz.rounded fst].
  rewrite <- (score_all_titles query (dict_keys d)). now apply in_map.
Qed.

(** What [search_movie] does once a title that is not empty has been typed. *)
Lemma search_movie_run (s : state) (title : string) (rest : list string) :
  stdin s = title :: rest -> title <> EmptyString ->
  search_movie str_lower token_set_ratio s
  = if existsb (fun e => title_matches str_lower title (fst e)) (snapshot s)
    then (Ok tt,
          emit (map movie_line
                  (filter (fun e => title_matches str_lower title (fst e)) (snapshot s)))
               (set_stdin rest (emit [Prompt] (set_movies (snapshot s) s))))
    else match thefuzz.extract token_set_ratio title (dict_keys (snapshot s)) with
         | [] =>
             (Raise IndexError,
              count_extract (set_stdin rest (emit [Prompt] (set_movies (snapshot s) s))))
         | first :: _ =>
             if (snd first <? 53)%Z
             then (Ok tt,
                   emit [NotFoundLine title]
                     (count_extract
                        (set_stdin rest (emit [Prompt] (set_movies (snapshot s) s)))))
             else (Ok tt,
                   emit (DidYouMean title
                           :: flat_map (suggestion_lines (snapshot s))
                                (thefuzz.extract token_set_ratio title
                                   (dict_keys (snapshot s))))
                     (count_extract
                        (set_stdin rest (emit [Prompt] (set_movies (snapshot s) s)))))
         end.
Proof.
  intros Hin Hne. set (d := snapshot s).
  set (s2 := set_stdin rest (emit [Prompt] (set_movies d s))).
  unfold search_movie.
  rewrite (bind_ok _ _ _ _ _ (assign_movies_run s)). fold d.
  rewrite (bind_ok _ _ _ _ _ (ask_title_run title rest (set_movies d s) Hin Hne)).
  fold s2. unfold keys at 1. cbn [bind]. change (movies s2) with d.
  assert (Hget : forall k m, In (k, m) d -> dict_get (movies s2) k = Some m).
  { intros k m H. apply dict_get_in; [apply snapshot_nodup|exact H]. }
  rewrite (bind_ok _ _ _ _ _ (exact_phase_run str_lower title d false s2 Hget)).
  cbn [orb].
  destruct (existsb (fun e => title_matches str_lower title (fst e)) d) eqn:Hfound;
    cbn [negb].
  - reflexivity.
  - rewrite (filter_none _ _ Hfound). cbn [map]. rewrite emit_nil.
    unfold keys at 1. cbn [bind]. change (movies s2) with d.
    unfold process_extract at 1. cbn [bind].
    pose proof (extract_titles title d) as Htitles.
    destruct (thefuzz.extract token_set_ratio title (dict_keys d)) as [|first fuzzy].
    + reflexivity.
    + unfold lift at 1. cbn [bind].
      change (Py.getitem (first :: fuzzy) 0) with (Ok first).
      cbv iota beta.
      destruct (snd first <? 53)%Z; [reflexivity|].
      unfold print at 1. cbn [bind].
      rewrite (for_each_emit d _ (suggestion_lines d)).
      * now rewrite emit_emit.
      * intros entry s' Hentry Hs'. apply suggestion_round; [exact Hs'|].
        now apply Htitles.
      * reflexivity.
Qed.

End SearchFacts.

(** ** The ranking behind [process.extract] *)

Lemma StronglySorted_filter {A : Type} (R : A -> A -> Prop) (p : A -> bool)
    (l : list A) :
  StronglySorted R l -> StronglySorted R (filter p l).
Proof.
  induction 1 as [|a l Hs IH Hall]; simpl; [constructor|].
  destruct (p a); [|assumption].
  constructor; [assumption|].
  rewrite Forall_forall in *. intros x Hx. apply Hall.
  now apply filter_In in Hx.
Qed.

(** In a sorted list, what stands in front is related to what stands
    behind. *)
Lemma StronglySorted_front {A : Type} (R : A -> A -> Prop) (front back : list A)
    (a b : A) :
  StronglySorted R (front ++ back) -> In a front -> In b back -> R a b.
Proof.
  induction front as [|x front IH]; intros Hs Ha Hb; [contradiction|].
  cbn [app] in Hs. inversion Hs as [|? ? Hrest Hall]; subst.
  destruct Ha as [<-|Ha]; [|now apply IH].
  rewrite Forall_forall in Hall. apply Hall. apply in_or_app. now right.
Qed.

Lemma existsb_none {A : Type} (p : A -> bool) (l : list A) :
  (forall x, In x l -> p x = false) -> existsb p l = false.
Proof.
  induction l as [|a l IH]; intros H; simpl; [reflexivity|].
  rewrite (H a (or_introl eq_refl)). apply IH. intros x Hx. apply H. now right.
Qed.

(** In a list sorted by descending score, the entries that are printed as
    53 or more come first, so cutting commutes with keeping them. *)
Lemma filter_firstn_descending (n : nat) (l : list (string * Q)) :
  StronglySorted (fun a b => snd b <= snd a)%Q l ->
  filter printed_53_or_more (firstn n l) = firstn n (filter printed_53_or_more l).
Proof.
  intros Hs. revert n. induction Hs as [|a l Hs IH Hall]; intros n.
  - now rewrite !firstn_nil.
  - destruct n as [|n]; [reflexivity|].
    cbn [firstn filter]. destruct (printed_53_or_more a) eqn:Ha.
    + cbn [firstn]. now rewrite IH.
    + assert (Hnone : filter printed_53_or_more l = []).
      { apply filter_none, existsb_none. intros x Hx.
        rewrite Forall_forall in Hall. specialize (Hall x Hx).
        apply not_true_iff_false. apply not_true_iff_false in Ha.
        rewrite printed_53_or_more_iff in *. intros Hx53. apply Ha.
        now apply Qlt_le_trans with (snd x). }
      rewrite Hnone. cbn [firstn]. now rewrite IH, Hnone, firstn_nil.
Qed.

(** The suggestion loop writes one line for each entry that reaches the
    threshold, and nothing else. *)
Lemma suggestion_rounds (d : dict) (l : list (string * Q)) :
  flat_map (suggestion_lines d) (map thefuzz.rounded l)
  = flat_map (fun e => suggestion_of d (fst e)) (filter printed_53_or_more l).
Proof.
  induction l as [|e l IH]; [reflexivity|].
  cbn [map flat_map filter]. rewrite IH.
  unfold suggestion_lines at 1.
  change (53 <=? snd (thefuzz.rounded e))%Z with (reaches_threshold (thefuzz.rounded e)).
  rewrite reaches_rounded. cbn [thefuzz.rounded fst].
  now destruct (printed_53_or_more e).
Qed.

Lemma suggested_of_rounds (d : dict) (l : list (string * Q)) :
  (forall e, In e l -> In (fst e) (dict_keys d)) ->
  suggested_titles (flat_map (fun e => suggestion_of d (fst e)) l) = map fst l
  /\ List.length (flat_map (fun e => suggestion_of d (fst e)) l) = List.length l.
Proof.
  unfold suggested_titles.
  induction l as [|e l IH]; intros Hl; [now split|].
  destruct IH as (IH1 & IH2); [intros e' H; apply Hl; now right|].
  cbn [map flat_map List.length]. rewrite flat_map_app, length_app, IH1, IH2.
  unfold suggestion_of.
  destruct (dict_get_key d (fst e) (Hl e (or_introl eq_refl))) as [m Hm].
  rewrite Hm. now split.
Qed.

Section RankingFacts.
Variable token_set_ratio : string -> string -> Q.
Variable query : string.
Variable d : dict.

Lemma extract_ranking :
  thefuzz.extract token_set_ratio query (dict_keys d)
  = map thefuzz.rounded (firstn 5 (ranking token_set_ratio query d)).
Proof.
  reflexivity.
Qed.

Lemma ranking_descending :
  StronglySorted (fun a b => snd b <= snd a)%Q (ranking token_set_ratio query d).
Proof.
  apply StronglySorted_weaken with (R := descending thefuzz.score_lt (@snd string Q)).
  - intros a b _ _. unfold descending. now rewrite score_lt_false.
  - apply sorted_reverse_descending with (proper := fun _ => True).
    + apply score_lt_asym.
    + apply score_lt_cotrans.
    + apply Forall_forall. now intros.
Qed.

Lemma ranking_stable (v : Q) :
  filter (fun e => Qeq_bool (snd e) v) (ranking token_set_ratio query d)
  = filter (fun e => Qeq_bool (snd e) v) (scored token_set_ratio query d).
Proof.
  apply sorted_reverse_filter. intros a b Ha Hb.
  apply Qeq_bool_iff in Ha, Hb. apply score_lt_false. rewrite Ha, Hb. apply Qle_refl.
Qed.

(** There is one ranking: a list that is descending by score is made of
    its classes of equal scores, the highest first. *)
Lemma ranked_classes_unique (l l' : list (string * Q)) :
  StronglySorted (fun a b => snd b <= snd a)%Q l ->
  StronglySorted (fun a b => snd b <= snd a)%Q l' ->
  (forall v : Q,
      filter (fun e => Qeq_bool (snd e) v) l = filter (fun e => Qeq_bool (snd e) v) l') ->
  l = l'.
Proof.
  assert (Hself : forall e : string * Q, Qeq_bool (snd e) (snd e) = true)
    by (intros e; apply Qeq_bool_iff; reflexivity).
  revert l'. induction l as [|a l IH]; intros l' Hs Hs' Hclasses.
  - destruct l' as [|b l']; [reflexivity|].
    specialize (Hclasses (snd b)). cbn [filter] in Hclasses.
    rewrite Hself in Hclasses. discriminate.
  - destruct l' as [|b l'].
    { specialize (Hclasses (snd a)). cbn [filter] in Hclasses.
      rewrite Hself in Hclasses. discriminate. }
    inversion Hs as [|? ? Hl Hall]; subst. inversion Hs' as [|? ? Hl' Hall']; subst.
    rewrite Forall_forall in Hall, Hall'.
    assert (Hab : (snd a <= snd b)%Q).
    { assert (Hin : In a (filter (fun e => Qeq_bool (snd e) (snd a)) (b :: l'))).
      { rewrite <- Hclasses. cbn [filter]. rewrite Hself. now left. }
      apply filter_In in Hin as [[->|Hin] _]; [apply Qle_refl|now apply Hall']. }
    assert (Hba : (snd b <= snd a)%Q).
    { assert (Hin : In b (filter (fun e => Qeq_bool (snd e) (snd b)) (a :: l))).
      { rewrite Hclasses. cbn [filter]. rewrite Hself. now left. }
      apply filter_In in Hin as [[->|Hin] _]; [apply Qle_refl|now apply Hall]. }
    assert (Heq : Qeq_bool (snd b) (snd a) = true)
      by (apply Qeq_bool_iff; now apply Qle_antisym).
    assert (Hhead : a = b).
    { pose proof (Hclasses (snd a)) as H. cbn [filter] in H.
      rewrite Hself, Heq in H. now injection H. }
    subst b. f_equal. apply IH; [assumption|assumption|].
    intros v. specialize (Hclasses v). cbn [filter] in Hclasses.
    destruct (Qeq_bool (snd a) v); [now injection Hclasses|assumption].
Qed.

(** The ranking the model computes is the ranking of the catalogue. *)
Lemma ranks_ranking :
  ranks token_set_ratio query d (ranking token_set_ratio query d).
Proof.
  split; [apply ranking_perm|]. split; [apply ranking_descending|apply ranking_stable].
Qed.

Lemma ranks_unique (ranked ranked' : list (string * Q)) :
  ranks token_set_ratio query d ranked ->
  ranks token_set_ratio query d ranked' ->
  ranked = ranked'.
Proof.
  intros (_ & Hs & Hc) (_ & Hs' & Hc').
  apply ranked_classes_unique; [assumption|assumption|].
  intros v. now rewrite Hc, Hc'.
Qed.

(** An entry of the ranking is a title of the catalogue with its score. *)
Lemma ranking_in (e : string * Q) :
  In e (ranking token_set_ratio query d)
  <-> In (fst e) (dict_keys d) /\ snd e = token_set_ratio query (fst e).
Proof.
  split.
  - intros H. apply (Permutation_in _ (ranking_perm token_set_ratio query d)) in H.
    unfold scored in H. apply in_map_iff in H as (c & <- & Hc).
    now split.
  - intros [Hin Hsc].
    apply (Permutation_in _ (Permutation_sym (ranking_perm token_set_ratio query d))).
    unfold scored. apply in_map_iff. exists (fst e).
    split; [|assumption]. rewrite <- Hsc. now destruct e.
Qed.

(** The first entry of the ranking has the top score. *)
Lemma ranking_head (first : string * Q) (others : list (string * Q)) (t : string) :
  ranking token_set_ratio query d = first :: others ->
  In t (dict_keys d) -> (token_set_ratio query t <= snd first)%Q.
Proof.
  intros Hr Ht. pose proof ranking_descending as Hs. rewrite Hr in Hs.
  assert (Hin : In (t, token_set_ratio query t) (first :: others)).
  { rewrite <- Hr. apply ranking_in. now split. }
  destruct Hin as [Heq|Hin]; [rewrite Heq; apply Qle_refl|].
  inversion Hs as [|? ? _ Hall]; subst. rewrite Forall_forall in Hall.
  exact (Hall _ Hin).
Qed.

Lemma ranking_nil : ranking token_set_ratio query d = [] -> d = [].
Proof.
  intros H. pose proof (ranking_perm token_set_ratio query d) as Hp.
  rewrite H in Hp. apply Permutation_nil in Hp.
  unfold scored, dict_keys in Hp.
  destruct d; [reflexivity|discriminate].
Qed.

End RankingFacts.

(** ** The exact phase *)

Lemma no_match_existsb (str_lower : string -> string) (title : string) (d : dict) :
  (forall t, In t (dict_keys d) -> title_matches str_lower title t = false) ->
  existsb (fun e => title_matches str_lower title (fst e)) d = false.
Proof.
  intros H. apply existsb_none. intros e He. apply H. now apply in_map.
Qed.


(** ** The fuzzy phase *)

(** C4 (what the code does).  With an empty catalogue [process.extract]
    returns the empty list and [fuzzy_search[0]] raises [IndexError]: the
    search writes the prompt and no "not found" line. *)
Theorem search_empty_catalogue_raises
    (str_lower : string -> string) (token_set_ratio : string -> string -> Q)
    (s : state) (title : string) (rest : list string) :
  stdin s = title :: rest ->
  title <> EmptyString ->
  snapshot s = [] ->
  search_movie str_lower token_set_ratio s
  = (Raise IndexError,
     count_extract (set_stdin rest (emit [Prompt] (set_movies [] s))))
  /\ stdout (snd (search_movie str_lower token_set_ratio s)) = stdout s ++ [Prompt].
Proof.
  intros Hin Hne Hempty.
  rewrite (search_movie_run str_lower token_set_ratio s title rest Hin Hne), Hempty.
  now split.
Qed.

(** What the fuzzy phase does on a catalogue that is not empty: it looks at
    the first entry of the ranking, and suggests the first five of the
    titles printed as 53 or more. *)
Lemma fuzzy_phase_run
    (str_lower : string -> string) (token_set_ratio : string -> string -> Q)
    (s : state) (title : string) (rest : list string)
    (first : string * Q) (others : list (string * Q)) :
  stdin s = title :: rest ->
  title <> EmptyString ->
  (forall t, In t (dict_keys (snapshot s)) -> title_matches str_lower title t = false) ->
  ranking token_set_ratio title (snapshot s) = first :: others ->
  search_movie str_lower token_set_ratio s
  = (Ok tt,
     emit (if printed_53_or_more first
           then DidYouMean title
                  :: flat_map (fun e => suggestion_of (snapshot s) (fst e))
                       (firstn 5 (filter printed_53_or_more
                                    (ranking token_set_ratio title (snapshot s))))
           else [NotFoundLine title])
          (count_extract (set_stdin rest (emit [Prompt] (set_movies (snapshot s) s))))).
Proof.
  intros Hin Hne Hnone Hr.
  rewrite (search_movie_run str_lower token_set_ratio s title rest Hin Hne).
  rewrite (no_match_existsb _ _ _ Hnone), extract_ranking.
  rewrite suggestion_rounds, filter_firstn_descending by apply ranking_descending.
  assert (Hhead : map thefuzz.rounded (firstn 5 (ranking token_set_ratio title (snapshot s)))
                  = thefuzz.rounded first :: map thefuzz.rounded (firstn 4 others))
    by (rewrite Hr; reflexivity).
  rewrite Hhead. cbv beta iota.
  replace (snd (thefuzz.rounded first) <? 53)%Z with (negb (printed_53_or_more first)).
  - now destruct (printed_53_or_more first).
  - rewrite <- reaches_rounded. unfold reaches_threshold.
    now rewrite Z.leb_antisym, negb_involutive.
Qed.

Lemma top_is_printed
    (token_set_ratio : string -> string -> Q) (query : string) (d : dict)
    (first : string * Q) (others : list (string * Q)) (t : string) :
  ranking token_set_ratio query d = first :: others ->
  In t (dict_keys d) -> (105 # 2 < token_set_ratio query t)%Q ->
  printed_53_or_more first = true.
Proof.
  intros Hr Ht Hscore. apply printed_53_or_more_iff.
  apply Qlt_le_trans with (token_set_ratio query t); [assumption|].
  now apply (ranking_head token_set_ratio query d first others).
Qed.

Lemma top_is_first
    (token_set_ratio : string -> string -> Q) (query : string) (d : dict)
    (first : string * Q) (others : list (string * Q)) (e : string * Q) :
  ranking token_set_ratio query d = first :: others ->
  In e (ranking token_set_ratio query d) -> (snd e <= snd first)%Q.
Proof.
  intros Hr He. apply ranking_in in He as [He Hscore]. rewrite Hscore.
  now apply (ranking_head token_set_ratio query d first others).
Qed.

(** C10. [search_movie] suggests at most five titles, all of them among
    the first five of the ranking of the catalogue by score.  When a title
    that is printed as 53 or more is not suggested, five titles are, and
    each of them scores at least as much: the five considered are the five
    highest-scoring.  Of six titles that all score 100 the search suggests
    the first five. *)
Theorem suggestions_at_most_five :
  (forall (str_lower : string -> string) (token_set_ratio : string -> string -> Q)
          (s : state) (title : string) (rest : list string),
      stdin s = title :: rest ->
      title <> EmptyString ->
      exists (ranked : list (string * Q)) (out : list line),
        ranks token_set_ratio title (snapshot s) ranked
        /\ stdout (snd (search_movie str_lower token_set_ratio s)) = stdout s ++ out
        /\ (List.length (suggested_titles out) <= 5)%nat
        /\ incl (suggested_titles out) (map fst (firstn 5 ranked))
        /\ ((forall t, In t (dict_keys (snapshot s)) ->
                       title_matches str_lower title t = false) ->
            forall t,
              In t (dict_keys (snapshot s)) ->
              (105 # 2 < token_set_ratio title t)%Q ->
              ~ In t (suggested_titles out) ->
              List.length (suggested_titles out) = 5%nat
              /\ forall u, In u (suggested_titles out) ->
                           (token_set_ratio title t <= token_set_ratio title u)%Q))
  /\ forallb (fun t => printed_53_or_more (t, matrix_scores "matrix the" t))
             (dict_keys (snapshot (start matrix_rows ["matrix the"]))) = true
  /\ suggested_titles
       (stdout (snd (search_movie Py.ascii_lower matrix_scores
                       (start matrix_rows ["matrix the"]))))
     = ["The Matrix"; "The Matrix Reloaded"; "The Matrix Revolutions";
        "The Matrix Resurrections"; "The Matrix Revisited"].
Proof.
  split; [|split; vm_compute; reflexivity].
  intros str_lower token_set_ratio s title rest Hin Hne.
  set (d := snapshot s).
  exists (ranking token_set_ratio title d).
  pose proof (ranks_ranking token_set_ratio title d) as Hranks.
  assert (Hnone_lines : forall l, suggested_titles (map movie_line l) = []).
  { induction l as [|e l IH]; [reflexivity|exact IH]. }
  destruct (existsb (fun e => title_matches str_lower title (fst e)) d) eqn:Hfound.
  { exists (Prompt :: map movie_line
              (filter (fun e => title_matches str_lower title (fst e)) d)).
    split; [exact Hranks|].
    rewrite (search_movie_run str_lower token_set_ratio s title rest Hin Hne).
    fold d. rewrite Hfound.
    cbn [snd stdout emit set_stdin set_movies]. rewrite <- app_assoc.
    split; [reflexivity|].
    change (suggested_titles (Prompt :: ?l)) with (suggested_titles l).
    rewrite Hnone_lines. split; [simpl; lia|]. split; [intros x []|].
    intros Hnone. rewrite (no_match_existsb _ _ _ Hnone) in Hfound. discriminate. }
  assert (Hnone : forall t, In t (dict_keys d) -> title_matches str_lower title t = false).
  { intros t Ht. apply in_map_iff in Ht as (e & <- & He).
    destruct (title_matches str_lower title (fst e)) eqn:Hm; [|reflexivity].
    assert (existsb (fun e => title_matches str_lower title (fst e)) d = true)
      by (apply existsb_exists; now exists e).
    congruence. }
  destruct (ranking token_set_ratio title d) as [|first others] eqn:Hfull.
  { exists [Prompt]. split; [exact Hranks|].
    apply ranking_nil in Hfull.
    rewrite (search_movie_run str_lower token_set_ratio s title rest Hin Hne).
    fold d. rewrite Hfound, Hfull. cbn.
    split; [reflexivity|]. split; [lia|]. split; [intros x []|].
    intros _ t []. }
  rewrite <- Hfull in *.
  pose proof (fuzzy_phase_run str_lower token_set_ratio s title rest first others
                Hin Hne Hnone Hfull) as Hrun.
  fold d in Hrun.
  set (shown := filter printed_53_or_more (ranking token_set_ratio title d)) in *.
  exists (Prompt :: (if printed_53_or_more first
                     then DidYouMean title
                            :: flat_map (fun e => suggestion_of d (fst e)) (firstn 5 shown)
                     else [NotFoundLine title])).
  split; [exact Hranks|].
  rewrite Hrun. cbn [snd stdout emit set_stdin set_movies count_extract].
  rewrite <- app_assoc. split; [reflexivity|].
  change (suggested_titles (Prompt :: ?l)) with (suggested_titles l).
  destruct (printed_53_or_more first) eqn:Hfirst.
  2:{ cbn. split; [lia|]. split; [intros x []|].
      intros _ t Ht Hscore _. exfalso.
      rewrite (top_is_printed token_set_ratio title d first others t Hfull Ht Hscore)
        in Hfirst.
      discriminate. }
  change (suggested_titles (DidYouMean title :: ?l)) with (suggested_titles l).
  assert (Htitles : forall e, In e (firstn 5 shown) -> In (fst e) (dict_keys d)).
  { intros e He. apply firstn_in, filter_In in He as [He _]. now apply ranking_in in He. }
  destruct (suggested_of_rounds d (firstn 5 shown) Htitles) as [-> _].
  rewrite length_map.
  split; [apply firstn_le_length|].
  split.
  { unfold shown. rewrite <- filter_firstn_descending by apply ranking_descending.
    intros x Hx. apply in_map_iff in Hx as (e & <- & He).
    apply in_map. now apply filter_In in He. }
  intros _ t Ht Hscore Hmissing.
  assert (Hshown : In (t, token_set_ratio title t) shown).
  { apply filter_In. split; [apply ranking_in; now split|].
    now apply printed_53_or_more_iff. }
  rewrite <- (firstn_skipn 5 shown) in Hshown. apply in_app_or in Hshown.
  destruct Hshown as [Hshown|Hbehind].
  { exfalso. apply Hmissing. change t with (fst (t, token_set_ratio title t)).
    now apply in_map. }
  split.
  - rewrite length_firstn. apply Nat.min_l.
    destruct (Nat.le_gt_cases 5 (List.length shown)) as [Hlong|Hshort]; [assumption|].
    rewrite skipn_all2 in Hbehind by lia. contradiction.
  - intros u Hu. apply in_map_iff in Hu as (e & <- & He).
    assert (Hranked : In e (ranking token_set_ratio title d))
      by (apply firstn_in, filter_In in He; tauto).
    apply ranking_in in Hranked as [_ <-].
    assert (Hsorted : StronglySorted (fun a b => snd b <= snd a)%Q
                        (firstn 5 shown ++ skipn 5 shown)).
    { rewrite firstn_skipn. apply StronglySorted_filter, ranking_descending. }
    exact (StronglySorted_front _ _ _ _ _ Hsorted He Hbehind).
Qed.

(** C2, as the code has it.  With no exact match and a title printed as 53
    or more, the suggestions are the first five (all, when there are fewer)
    of the titles printed as 53 or more, taken in the ranking of the
    catalogue: descending by the score before it is rounded and, among
    titles of one such score, in catalogue order. *)
Theorem suggestions_first_five_ranked
    (str_lower : string -> string) (token_set_ratio : string -> string -> Q)
    (s : state) (title : string) (rest : list string) :
  stdin s = title :: rest ->
  title <> EmptyString ->
  (forall t, In t (dict_keys (snapshot s)) -> title_matches str_lower title t = false) ->
  (exists t, In t (dict_keys (snapshot s)) /\ (105 # 2 < token_set_ratio title t)%Q) ->
  exists (ranked : list (string * Q)) (lines : list line),
    ranks token_set_ratio title (snapshot s) ranked
    /\ fst (search_movie str_lower token_set_ratio s) = Ok tt
    /\ stdout (snd (search_movie str_lower token_set_ratio s))
       = stdout s ++ Prompt :: DidYouMean title :: lines
    /\ lines = flat_map (fun e => suggestion_of (snapshot s) (fst e))
                        (firstn 5 (filter printed_53_or_more ranked))
    /\ List.length lines = List.length (firstn 5 (filter printed_53_or_more ranked))
    /\ suggested_titles lines = map fst (firstn 5 (filter printed_53_or_more ranked)).
Proof.
  intros Hin Hne Hnone (t & Ht & Hscore).
  set (d := snapshot s) in *.
  destruct (ranking token_set_ratio title d) as [|first others] eqn:Hfull.
  { apply ranking_nil in Hfull. rewrite Hfull in Ht. contradiction. }
  pose proof (fuzzy_phase_run str_lower token_set_ratio s title rest first others
                Hin Hne Hnone Hfull) as Hrun.
  fold d in Hrun.
  rewrite (top_is_printed token_set_ratio title d first others t Hfull Ht Hscore) in Hrun.
  set (shown := filter printed_53_or_more (ranking token_set_ratio title d)) in *.
  exists (ranking token_set_ratio title d),
    (flat_map (fun e => suggestion_of d (fst e)) (firstn 5 shown)).
  split; [apply ranks_ranking|].
  rewrite Hrun. split; [reflexivity|].
  split.
  { cbn [snd stdout emit set_stdin set_movies count_extract].
    now rewrite <- app_assoc. }
  split; [reflexivity|].
  assert (Htitles : forall e, In e (firstn 5 shown) -> In (fst e) (dict_keys d)).
  { intros e He. apply firstn_in, filter_In in He as [He _]. now apply ranking_in in He. }
  destruct (suggested_of_rounds d (firstn 5 shown) Htitles) as [Hsug Hlen].
  now split.
Qed.

(** C3, as the code has it.  In the fuzzy phase on a catalogue that is not
    empty, a title is suggested exactly when it stands among the first five
    of the ranking and its score is above 52.5, that is, printed as 53 or
    more: so a title printed as 53 (a score between 52.5 and 53.5) is
    suggested when it is among those five, a title printed as 52 (a score
    from 51.5 to 52.5) is not suggested, and when no title scores above
    52.5 the search writes "not found". *)
Theorem threshold_boundary
    (str_lower : string -> string) (token_set_ratio : string -> string -> Q)
    (s : state) (title : string) (rest : list string) :
  stdin s = title :: rest ->
  title <> EmptyString ->
  (forall t, In t (dict_keys (snapshot s)) -> title_matches str_lower title t = false) ->
  snapshot s <> [] ->
  exists (ranked : list (string * Q)) (out : list line),
    ranks token_set_ratio title (snapshot s) ranked
    /\ stdout (snd (search_movie str_lower token_set_ratio s)) = stdout s ++ Prompt :: out
    /\ (forall t,
           In t (suggested_titles out)
           <-> exists q, In (t, q) (firstn 5 ranked) /\ (105 # 2 < q)%Q)
    /\ (forall t q,
           In (t, q) (firstn 5 ranked) -> (105 # 2 < q)%Q /\ (q < 107 # 2)%Q ->
           In t (suggested_titles out))
    /\ (forall t,
           In t (dict_keys (snapshot s)) ->
           (103 # 2 <= token_set_ratio title t)%Q /\ (token_set_ratio title t <= 105 # 2)%Q ->
           ~ In t (suggested_titles out))
    /\ ((forall t, In t (dict_keys (snapshot s)) ->
                   (token_set_ratio title t <= 105 # 2)%Q) ->
        fst (search_movie str_lower token_set_ratio s) = Ok tt
        /\ out = [NotFoundLine title]).
Proof.
  intros Hin Hne Hnone Hd.
  set (d := snapshot s) in *.
  destruct (ranking token_set_ratio title d) as [|first others] eqn:Hfull.
  { apply ranking_nil in Hfull. contradiction. }
  pose proof (fuzzy_phase_run str_lower token_set_ratio s title rest first others
                Hin Hne Hnone Hfull) as Hrun.
  fold d in Hrun.
  set (full := ranking token_set_ratio title d) in *.
  exists full,
    (if printed_53_or_more first
     then DidYouMean title
            :: flat_map (fun e => suggestion_of d (fst e))
                 (firstn 5 (filter printed_53_or_more full))
     else [NotFoundLine title]).
  split; [apply ranks_ranking|].
  rewrite Hrun. cbn [fst snd stdout emit set_stdin set_movies count_extract].
  rewrite <- app_assoc. split; [reflexivity|].
  assert (Hiff : forall t,
    In t (suggested_titles
            (if printed_53_or_more first
             then DidYouMean title
                    :: flat_map (fun e => suggestion_of d (fst e))
                         (firstn 5 (filter printed_53_or_more full))
             else [NotFoundLine title]))
    <-> exists q, In (t, q) (firstn 5 full) /\ (105 # 2 < q)%Q).
  { intros t. destruct (printed_53_or_more first) eqn:Hfirst.
    - change (suggested_titles (DidYouMean title :: ?l)) with (suggested_titles l).
      assert (Htitles : forall e, In e (firstn 5 (filter printed_53_or_more full)) ->
                                  In (fst e) (dict_keys d)).
      { intros e He. apply firstn_in, filter_In in He as [He _].
        now apply ranking_in in He. }
      destruct (suggested_of_rounds d _ Htitles) as [-> _].
      unfold full. rewrite <- filter_firstn_descending by apply ranking_descending.
      fold full. rewrite in_map_iff. split.
      + intros ([t' q] & Ht & He). cbn [fst] in Ht. subst t'.
        apply filter_In in He as [He Hq]. exists q. split; [assumption|].
        now apply printed_53_or_more_iff in Hq.
      + intros (q & He & Hq). exists (t, q). split; [reflexivity|].
        apply filter_In. split; [assumption|]. now apply printed_53_or_more_iff.
    - split; [intros []|]. intros (q & He & Hq). exfalso.
      apply firstn_in in He.
      pose proof (top_is_first token_set_ratio title d first others (t, q) Hfull He)
        as Hle.
      cbn [snd] in Hle. apply not_true_iff_false in Hfirst. apply Hfirst.
      apply printed_53_or_more_iff. now apply Qlt_le_trans with q. }
  split; [exact Hiff|]. split; [|split].
  - intros t q He [Hq _]. apply Hiff. now exists q.
  - intros t Ht [_ Hlow] Hsug. apply Hiff in Hsug as (q & He & Hq).
    apply firstn_in in He. apply ranking_in in He as [_ Hscore]. cbn [fst snd] in Hscore.
    rewrite Hscore in Hq. apply (Qlt_irrefl (105 # 2)).
    now apply Qlt_le_trans with (token_set_ratio title t).
  - intros Hall.
    assert (Hfirst : printed_53_or_more first = false).
    { apply not_true_iff_false. rewrite printed_53_or_more_iff.
      assert (In first full) by (rewrite Hfull; now left).
      apply ranking_in in H as [Hkey Hscore]. rewrite Hscore.
      apply Qle_not_lt. now apply Hall. }
    rewrite Hfirst. now split.
Qed.

(** * The statements on the sample catalogues *)

(** C2 as the specification words it fails: six titles score 100 against
    [matrix the], none contains it, and the sixth is not suggested. *)
Lemma suggestions_miss_sixth_title :
  stdin (start matrix_rows ["matrix the"]) = ["matrix the"]
  /\ forallb (fun t => negb (title_matches Py.ascii_lower "matrix the" t))
             (dict_keys (snapshot (start matrix_rows ["matrix the"]))) = true
  /\ In "Making The Matrix" (dict_keys (snapshot (start matrix_rows ["matrix the"])))
  /\ Py.round (matrix_scores "matrix the" "Making The Matrix") = 100%Z
  /\ In (DidYouMean "matrix the")
        (stdout (snd (search_movie Py.ascii_lower matrix_scores
                        (start matrix_rows ["matrix the"]))))
  /\ ~ In "Making The Matrix"
         (suggested_titles
            (stdout (snd (search_movie Py.ascii_lower matrix_scores
                            (start matrix_rows ["matrix the"]))))).
Proof.
  split; [reflexivity|]. split; [vm_compute; reflexivity|].
  split; [vm_compute; tauto|]. split; [vm_compute; reflexivity|].
  split; [vm_compute; tauto|].
  intros H. vm_compute in H.
  repeat (destruct H as [H|H]; [discriminate H|]). exact H.
Qed.

(** C3 as the specification words it fails: the sixth title scores 1000/19
    against [matrix the], which is printed as 53, the top score is 100, and
    the title is not suggested, five titles being ranked before it. *)
Lemma threshold_title_beyond_limit :
  forallb (fun t => negb (title_matches Py.ascii_lower "matrix the" t))
          (dict_keys (snapshot (start crowded_rows ["matrix the"]))) = true
  /\ In "The Mummy" (dict_keys (snapshot (start crowded_rows ["matrix the"])))
  /\ matrix_scores "matrix the" "The Mummy" = (1000 # 19)%Q
  /\ Py.round (matrix_scores "matrix the" "The Mummy") = 53%Z
  /\ In (DidYouMean "matrix the")
        (stdout (snd (search_movie Py.ascii_lower matrix_scores
                        (start crowded_rows ["matrix the"]))))
  /\ ~ In "The Mummy"
         (suggested_titles
            (stdout (snd (search_movie Py.ascii_lower matrix_scores
                            (start crowded_rows ["matrix the"]))))).
Proof.
  split; [vm_compute; reflexivity|].
  split; [vm_compute; tauto|]. split; [reflexivity|]. split; [reflexivity|].
  split; [vm_compute; tauto|].
  intros H. vm_compute in H.
  repeat (destruct H as [H|H]; [discriminate H|]). exact H.
Qed.

Lemma three_rows_numeric : numeric (table (start three_rows [])).
Proof.
  repeat constructor; discriminate.
Defined.

Lemma tie_rows_numeric : numeric (table (start tie_rows [])).
Proof.
  repeat constructor; discriminate.
Defined.

Lemma abc_rows_numeric : numeric (table (start abc_rows [])).
Proof.
  repeat constructor; discriminate.
Defined.

Lemma stats_median_witness :
  numeric (table (start three_rows []))
  /\ snapshot (start three_rows []) <> []
  /\ exists (sorted_ratings : list Py.float) (average median : Py.float)
            (rest : list line),
      Permutation sorted_ratings (ratings_of (snapshot (start three_rows [])))
      /\ StronglySorted fle sorted_ratings
      /\ spec_median sorted_ratings median
      /\ stats Py.From312 (start three_rows [])
         = (Ok tt,
            emit (AverageLine average :: MedianLine median :: rest)
                 (set_movies (snapshot (start three_rows [])) (start three_rows [])))
      /\ (forall l, In l rest -> forall x, l <> MedianLine x).
Proof.
  split; [exact three_rows_numeric|]. split; [discriminate|].
  apply (proj1 stats_median Py.From312 (start three_rows []) three_rows_numeric).
  discriminate.
Defined.

Lemma stats_best_worst_ties_witness :
  numeric (table (start tie_rows []))
  /\ snapshot (start tie_rows []) <> []
  /\ exists (maximum minimum : Py.float) (out : list line),
      stats Py.From312 (start tie_rows [])
      = (Ok tt, emit out (set_movies (snapshot (start tie_rows [])) (start tie_rows [])))
      /\ In maximum (ratings_of (snapshot (start tie_rows [])))
      /\ (forall r, In r (ratings_of (snapshot (start tie_rows []))) -> fle r maximum)
      /\ In minimum (ratings_of (snapshot (start tie_rows [])))
      /\ (forall r, In r (ratings_of (snapshot (start tie_rows []))) -> fle minimum r)
      /\ best_of out
         = map best_line
             (filter (fun e => SFeqb (rating (snd e)) maximum)
                     (snapshot (start tie_rows [])))
      /\ worst_of out
         = map worst_line
             (filter (fun e => SFeqb (rating (snd e)) minimum)
                     (snapshot (start tie_rows []))).
Proof.
  split; [exact tie_rows_numeric|]. split; [discriminate|].
  apply (proj1 stats_best_worst_ties Py.From312 (start tie_rows []) tie_rows_numeric).
  discriminate.
Defined.

Lemma ranker_descending_stable_witness :
  numeric (table (start abc_rows []))
  /\ exists ranked : list (string * movie),
      movies_sorted_by_rating (start abc_rows [])
      = (Ok tt,
         emit (map movie_line ranked)
              (set_movies (snapshot (start abc_rows [])) (start abc_rows [])))
      /\ Permutation ranked (snapshot (start abc_rows []))
      /\ StronglySorted (fun a b => fle (rating (snd b)) (rating (snd a))) ranked
      /\ forall r : Py.float,
          filter (fun e => SFeqb (rating (snd e)) r) ranked
          = filter (fun e => SFeqb (rating (snd e)) r) (snapshot (start abc_rows [])).
Proof.
  split; [exact abc_rows_numeric|].
  exact (proj1 ranker_descending_stable (start abc_rows []) abc_rows_numeric).
Defined.

Lemma empty_snapshot_guards_witness :
  snapshot (start [] []) = []
  /\ stats Py.From312 (start [] []) = (Raise ZeroDivisionError, set_movies [] (start [] []))
  /\ stdout (snd (stats Py.From312 (start [] []))) = stdout (start [] [])
  /\ random_movie (start [] []) = (Raise IndexError, set_movies [] (start [] []))
  /\ stdout (snd (random_movie (start [] []))) = stdout (start [] []).
Proof.
  split; [reflexivity|].
  apply (empty_snapshot_guards Py.From312 (start [] [])). reflexivity.
Defined.


Lemma search_empty_catalogue_raises_witness :
  stdin (start [] ["Alien"]) = ["Alien"]
  /\ "Alien" <> EmptyString
  /\ snapshot (start [] ["Alien"]) = []
  /\ search_movie Py.ascii_lower matrix_scores (start [] ["Alien"])
     = (Raise IndexError,
        count_extract (set_stdin [] (emit [Prompt] (set_movies [] (start [] ["Alien"])))))
  /\ stdout (snd (search_movie Py.ascii_lower matrix_scores (start [] ["Alien"])))
     = stdout (start [] ["Alien"]) ++ [Prompt].
Proof.
  split; [reflexivity|]. split; [discriminate|]. split; [reflexivity|].
  apply (search_empty_catalogue_raises Py.ascii_lower matrix_scores
           (start [] ["Alien"]) "Alien" []).
  - reflexivity.
  - discriminate.
  - reflexivity.
Defined.

Lemma suggestions_at_most_five_witness :
  stdin (start matrix_rows ["matrix the"]) = ["matrix the"]
  /\ "matrix the" <> EmptyString
  /\ exists (ranked : list (string * Q)) (out : list line),
      ranks matrix_scores "matrix the" (snapshot (start matrix_rows ["matrix the"])) ranked
      /\ stdout (snd (search_movie Py.ascii_lower matrix_scores
                        (start matrix_rows ["matrix the"])))
         = stdout (start matrix_rows ["matrix the"]) ++ out
      /\ (List.length (suggested_titles out) <= 5)%nat
      /\ incl (suggested_titles out) (map fst (firstn 5 ranked)).
Proof.
  split; [reflexivity|]. split; [discriminate|].
  destruct (proj1 suggestions_at_most_five Py.ascii_lower matrix_scores
              (start matrix_rows ["matrix the"]) "matrix the" [] eq_refl)
    as (ranked & out & Hranks & Hout & Hlen & Hincl & _).
  - discriminate.
  - now exists ranked, out.
Defined.

Lemma matrix_titles_do_not_match (t : string) :
  In t (dict_keys (snapshot (start matrix_rows ["matrix the"]))) ->
  title_matches Py.ascii_lower "matrix the" t = false.
Proof.
  intros Ht. vm_compute in Ht.
  repeat (destruct Ht as [<-|Ht]; [vm_compute; reflexivity|]). contradiction.
Defined.

Lemma boundary_titles_do_not_match (t : string) :
  In t (dict_keys (snapshot (start boundary_rows ["matrix the"]))) ->
  title_matches Py.ascii_lower "matrix the" t = false.
Proof.
  intros Ht. vm_compute in Ht.
  repeat (destruct Ht as [<-|Ht]; [vm_compute; reflexivity|]). contradiction.
Defined.

Lemma suggestions_first_five_ranked_witness :
  stdin (start matrix_rows ["matrix the"]) = ["matrix the"]
  /\ "matrix the" <> EmptyString
  /\ (forall t, In t (dict_keys (snapshot (start matrix_rows ["matrix the"]))) ->
                title_matches Py.ascii_lower "matrix the" t = false)
  /\ (exists t, In t (dict_keys (snapshot (start matrix_rows ["matrix the"])))
                /\ (105 # 2 < matrix_scores "matrix the" t)%Q)
  /\ exists (ranked : list (string * Q)) (lines : list line),
      ranks matrix_scores "matrix the" (snapshot (start matrix_rows ["matrix the"])) ranked
      /\ fst (search_movie Py.ascii_lower matrix_scores
                (start matrix_rows ["matrix the"])) = Ok tt
      /\ stdout (snd (search_movie Py.ascii_lower matrix_scores
                        (start matrix_rows ["matrix the"])))
         = stdout (start matrix_rows ["matrix the"])
           ++ Prompt :: DidYouMean "matrix the" :: lines
      /\ lines = flat_map (fun e => suggestion_of
                                      (snapshot (start matrix_rows ["matrix the"])) (fst e))
                          (firstn 5 (filter printed_53_or_more ranked))
      /\ List.length lines = List.length (firstn 5 (filter printed_53_or_more ranked))
      /\ suggested_titles lines = map fst (firstn 5 (filter printed_53_or_more ranked)).
Proof.
  assert (Htop : exists t,
             In t (dict_keys (snapshot (start matrix_rows ["matrix the"])))
             /\ (105 # 2 < matrix_scores "matrix the" t)%Q).
  { exists "The Matrix". split; [vm_compute; tauto|reflexivity]. }
  split; [reflexivity|]. split; [discriminate|].
  split; [exact matrix_titles_do_not_match|]. split; [exact Htop|].
  apply (suggestions_first_five_ranked Py.ascii_lower matrix_scores
           (start matrix_rows ["matrix the"]) "matrix the" []).
  - reflexivity.
  - discriminate.
  - exact matrix_titles_do_not_match.
  - exact Htop.
Defined.

Lemma threshold_boundary_witness :
  stdin (start boundary_rows ["matrix the"]) = ["matrix the"]
  /\ "matrix the" <> EmptyString
  /\ (forall t, In t (dict_keys (snapshot (start boundary_rows ["matrix the"]))) ->
                title_matches Py.ascii_lower "matrix the" t = false)
  /\ snapshot (start boundary_rows ["matrix the"]) <> []
  /\ exists (ranked : list (string * Q)) (out : list line),
      ranks matrix_scores "matrix the" (snapshot (start boundary_rows ["matrix the"]))
            ranked
      /\ stdout (snd (search_movie Py.ascii_lower matrix_scores
                        (start boundary_rows ["matrix the"])))
         = stdout (start boundary_rows ["matrix the"]) ++ Prompt :: out
      /\ (forall t,
             In t (suggested_titles out)
             <-> exists q, In (t, q) (firstn 5 ranked) /\ (105 # 2 < q)%Q).
Proof.
  split; [reflexivity|]. split; [discriminate|].
  split; [exact boundary_titles_do_not_match|]. split; [discriminate|].
  destruct (threshold_boundary Py.ascii_lower matrix_scores
              (start boundary_rows ["matrix the"]) "matrix the" [] eq_refl)
    as (ranked & out & Hranks & Hout & Hiff & _).
  - discriminate.
  - exact boundary_titles_do_not_match.
  - discriminate.
  - now exists ranked, out.
Defined.

(** Beyond ASCII: with the lower-casing of Latin-1 text, the query of the
    one letter U+00E9 matches the title that ends in it and the title that
    ends in its capital U+00C9; lower-casing ASCII letters only would miss
    the second. *)
Example exact_match_beyond_ascii :
  stdout (snd (search_movie Py.latin1_lower matrix_scores (start cafe_rows [e_acute])))
  = [Prompt;
     MovieLine ("CAF" ++ capital_e_acute)%string 2001 (Py.float_of_int 7);
     MovieLine ("caf" ++ e_acute)%string 2002 (Py.float_of_int 6)]
  /\ Py.latin1_lower ("CAF" ++ capital_e_acute)%string = ("caf" ++ e_acute)%string
  /\ title_matches Py.ascii_lower e_acute ("CAF" ++ capital_e_acute)%string = false.
Proof.
  repeat split; vm_compute; reflexivity.
Qed.

(** Of three titles printed as 53, 52 and 67 the search suggests the one
    printed as 67, then the one printed as 53, and not the one printed as
    52; when every title is printed as 52 it writes "not found". *)
Example threshold_on_three_titles :
  map (fun t => Py.round (matrix_scores "matrix the" t))
      ["The Mummy"; "The Apartment"; "The Mask"; "Into the Wild"]
  = [53; 52; 67; 52]%Z
  /\ stdout (snd (search_movie Py.ascii_lower matrix_scores
                    (start boundary_rows ["matrix the"])))
     = [Prompt; DidYouMean "matrix the";
        SuggestionLine "The Mask" 1994 (Py.float_literal 7 1);
        SuggestionLine "The Mummy" 1999 (Py.float_literal 71 10)]
  /\ stdout (snd (search_movie Py.ascii_lower matrix_scores
                    (start faint_rows ["matrix the"])))
     = [Prompt; NotFoundLine "matrix the"].
Proof.
  repeat split; vm_compute; reflexivity.
Qed.

(** Two titles that are both printed as 53 are suggested in the order of
    their scores before rounding, here against the order of the
    catalogue. *)
Example equal_printed_scores_order :
  dict_keys (snapshot (start close_rows ["matrix the"])) = ["Ma Rainey"; "Mates"]
  /\ map (fun t => Py.round (matrix_scores "matrix the" t)) ["Ma Rainey"; "Mates"]
     = [53; 53]%Z
  /\ suggested_titles
       (stdout (snd (search_movie Py.ascii_lower matrix_scores
                       (start close_rows ["matrix the"]))))
     = ["Mates"; "Ma Rainey"].
Proof.
  repeat split; vm_compute; reflexivity.
Qed.

(** * Beyond the claims: the rest of the core operations *)

(** ** The loop that asks for a title *)

Lemma set_stdin_same (s : state) : set_stdin (stdin s) (emit [] s) = s.
Proof.
  destruct s. unfold set_stdin, emit. simpl. now rewrite app_nil_r.
Qed.

Lemma ask_title_rounds_skip (k fuel : nat) (tail : list string) (s : state) :
  stdin s = repeat EmptyString k ++ tail ->
  ask_title_rounds (k + fuel) s
  = ask_title_rounds fuel (set_stdin tail (emit (empty_rounds k) s)).
Proof.
  revert s. induction k as [|k IH]; intros s Hin.
  - cbn in Hin. subst tail. unfold empty_rounds. cbn [repeat List.concat plus].
    now rewrite set_stdin_same.
  - cbn [repeat app] in Hin. cbn [plus ask_title_rounds].
    assert (Hinput : input s
                     = (Ok EmptyString,
                        set_stdin (repeat EmptyString k ++ tail) (emit [Prompt] s)))
      by (unfold input; now rewrite Hin).
    rewrite (bind_ok _ _ _ _ _ Hinput). cbn [String.eqb].
    unfold print at 1. cbn [bind].
    rewrite IH by reflexivity.
    f_equal. unfold empty_rounds, set_stdin, emit. cbn [repeat List.concat].
    cbn [table movies stdin stdout entropy draws extract_calls].
    now rewrite <- !app_assoc.
Qed.

(** Empty answers are turned down one by one, and the first answer that is
    not empty is the title. *)
Lemma ask_title_skips (k : nat) (title : string) (rest : list string) (s : state) :
  stdin s = repeat EmptyString k ++ title :: rest ->
  title <> EmptyString ->
  ask_title s = (Ok title, set_stdin rest (emit (empty_rounds k ++ [Prompt]) s)).
Proof.
  intros Hin Hne. unfold ask_title. rewrite Hin, length_app, repeat_length.
  replace (S (k + List.length (title :: rest)))
    with (k + S (List.length (title :: rest)))%nat by lia.
  rewrite (ask_title_rounds_skip k _ (title :: rest) s Hin).
  cbn [ask_title_rounds].
  assert (Hinput : input (set_stdin (title :: rest) (emit (empty_rounds k) s))
                   = (Ok title,
                      set_stdin rest
                        (emit [Prompt]
                           (set_stdin (title :: rest) (emit (empty_rounds k) s)))))
    by reflexivity.
  rewrite (bind_ok _ _ _ _ _ Hinput).
  destruct (String.eqb_spec title EmptyString); [contradiction|].
  unfold ret. f_equal. unfold set_stdin, emit.
  cbn [table movies stdin stdout entropy draws extract_calls]. now rewrite <- app_assoc.
Qed.

Lemma ask_title_eof (k : nat) (s : state) :
  stdin s = repeat EmptyString k ->
  ask_title s = (Raise EOFError, set_stdin [] (emit (empty_rounds k ++ [Prompt]) s)).
Proof.
  intros Hin. unfold ask_title. rewrite Hin, repeat_length.
  replace (S k) with (k + 1)%nat by lia.
  rewrite (ask_title_rounds_skip k 1 [] s) by (now rewrite app_nil_r).
  cbn [ask_title_rounds]. unfold bind, input. cbn [stdin set_stdin].
  f_equal. unfold set_stdin, emit.
  cbn [table movies stdin stdout entropy draws extract_calls]. now rewrite <- app_assoc.
Qed.

(** X1. Empty answers to the prompt of [search_movie] only cost a round
    each: the search then runs on the first answer that is not empty,
    exactly as if that answer had been typed first after the rounds were
    written. *)
Theorem search_skips_empty_titles
    (str_lower : string -> string) (token_set_ratio : string -> string -> Q)
    (s : state) (k : nat) (title : string) (rest : list string) :
  stdin s = repeat EmptyString k ++ title :: rest ->
  title <> EmptyString ->
  search_movie str_lower token_set_ratio s
  = search_movie str_lower token_set_ratio
      (set_stdin (title :: rest) (emit (empty_rounds k) s)).
Proof.
  intros Hin Hne. unfold search_movie.
  rewrite (bind_ok _ _ _ _ _ (assign_movies_run s)).
  rewrite (bind_ok _ _ _ _ _
             (assign_movies_run (set_stdin (title :: rest) (emit (empty_rounds k) s)))).
  rewrite (bind_ok _ _ _ _ _
             (ask_title_skips k title rest (set_movies (snapshot s) s) Hin Hne)).
  rewrite (bind_ok _ _ _ _ _
             (ask_title_run title rest
                (set_movies
                   (snapshot (set_stdin (title :: rest) (emit (empty_rounds k) s)))
                   (set_stdin (title :: rest) (emit (empty_rounds k) s)))
                eq_refl Hne)).
  assert (Hstate :
    set_stdin rest (emit (empty_rounds k ++ [Prompt]) (set_movies (snapshot s) s))
    = set_stdin rest
        (emit [Prompt]
           (set_movies
              (snapshot (set_stdin (title :: rest) (emit (empty_rounds k) s)))
              (set_stdin (title :: rest) (emit (empty_rounds k) s))))).
  { unfold set_stdin, emit, set_movies, snapshot.
    cbn [table movies stdin stdout entropy draws extract_calls].
    now rewrite app_assoc. }
  now rewrite Hstate.
Qed.

(** X2. When only empty answers are typed, [search_movie] turns each down,
    then [input] raises [EOFError]: nothing is searched, [process.extract]
    is not called and no movie is written. *)
Theorem search_without_title_raises
    (str_lower : string -> string) (token_set_ratio : string -> string -> Q)
    (s : state) (k : nat) :
  stdin s = repeat EmptyString k ->
  search_movie str_lower token_set_ratio s
  = (Raise EOFError,
     set_stdin [] (emit (empty_rounds k ++ [Prompt]) (set_movies (snapshot s) s))).
Proof.
  intros Hin. unfold search_movie.
  rewrite (bind_ok _ _ _ _ _ (assign_movies_run s)).
  now rewrite (bind_raise _ _ _ _ _ (ask_title_eof k (set_movies (snapshot s) s) Hin)).
Qed.

(** ** [random_movie] on a catalogue that is not empty *)

(** X3. On a catalogue of [n > 0] movies, when [_randbelow(n)] returns an
    index below [n], as CPython's does, [random_movie] writes one line: the
    title and the rating of the record at that index, a record of the
    catalogue; [_randbelow] has then been called once more. *)
Theorem random_movie_picks_a_record (s : state) :
  snapshot s <> [] ->
  (entropy s (draws s) < List.length (snapshot s))%nat ->
  exists entry : string * movie,
    nth_error (snapshot s) (entropy s (draws s)) = Some entry
    /\ In entry (snapshot s)
    /\ random_movie s
       = (Ok tt,
          emit [TonightLine (fst entry) (rating (snd entry))]
               (count_draw (set_movies (snapshot s) s))).
Proof.
  intros Hne Hi. set (d := snapshot s) in *.
  destruct (nth_error_below d _ Hi) as [entry Hentry].
  exists entry. split; [exact Hentry|]. split; [now apply nth_error_In in Hentry|].
  unfold random_movie.
  rewrite (bind_ok _ _ _ _ _ (assign_movies_run s)). fold d.
  unfold items at 1. cbn [bind movies set_movies].
  assert (Hchoice : random_choice d (set_movies d s)
                    = (Ok entry, count_draw (set_movies d s))).
  { unfold random_choice. destruct (Nat.eqb_spec (List.length d) 0) as [H0|_]; [lia|].
    unfold bind, randbelow, lift. cbn [entropy draws set_movies].
    now rewrite (getitem_nat _ _ _ Hentry). }
  rewrite (bind_ok _ _ _ _ _ Hchoice). now destruct entry.
Qed.

(** ** The average of [stats] *)

Lemma float_eq_refl (r : Py.float) : r <> Py.nan -> SFeqb r r = true.
Proof.
  intros Hr. destruct r as [[|]|[|]| |[|] m e]; try reflexivity;
    try (now exfalso; apply Hr);
    unfold SFeqb, SFcompare; rewrite Z.compare_refl;
    change (Pos.compare_cont Eq m m) with (Pos.compare m m);
    now rewrite Pos.compare_refl.
Qed.

(** X4. On a catalogue that is not empty the first line [stats] writes is
    the average, which is [round(sum(ratings) / len(ratings), 1)], and the
    second is the median, which is not rounded.  The rounding can take the
    average above every rating: for the one rating 6.75 the average written
    is 6.8 (7656119366529843 * 2^-50) and the best and the worst rating
    6.75 (7599824371187712 * 2^-50); for the ratings 1.0 and 1.1 the
    average written is 1.1 (4953959590107546 * 2^-52) and the median 1.05
    (4728779608739021 * 2^-52). *)
Theorem stats_average_is_rounded :
  (forall (v : Py.release) (s : state),
      snapshot s <> [] ->
      exists (average median : Py.float) (rest : list line),
        Py.truediv (Py.sum v (ratings_of (snapshot s)))
                   (Z.of_nat (List.length (snapshot s)))
        = Ok average
        /\ stats v s
           = (Ok tt,
              emit (AverageLine (Py.round1 average) :: MedianLine median :: rest)
                   (set_movies (snapshot s) s))
        /\ forall l, In l rest -> forall x, l <> AverageLine x)
  /\ (forall v : Py.release,
         stdout (snd (stats v (start single_row [])))
         = [AverageLine (S754_finite false 7656119366529843 (-50));
            MedianLine (S754_finite false 7599824371187712 (-50));
            BestLine "A" 2001 (S754_finite false 7599824371187712 (-50));
            WorstLine "A" 2001 (S754_finite false 7599824371187712 (-50))])
  /\ (forall v : Py.release,
         firstn 2 (stdout (snd (stats v (start near_rows []))))
         = [AverageLine (S754_finite false 4953959590107546 (-52));
            MedianLine (S754_finite false 4728779608739021 (-52))]).
Proof.
  split; [|split; intros []; vm_compute; reflexivity].
  intros v s Hne.
  destruct (stats_run v s Hne) as (average & median & maximum & minimum
                                   & Havg & _ & _ & _ & Hrun).
  exists average, median, (flat_map (best_worst_lines maximum minimum) (snapshot s)).
  split.
  { rewrite <- Havg. unfold Py.len, ratings_of. now rewrite length_map. }
  split; [exact Hrun|].
  intros l Hl x. apply in_flat_map in Hl as (e & _ & Hl).
  unfold best_worst_lines in Hl. apply in_app_or in Hl.
  destruct (Py.float_eq (rating (snd e)) maximum),
           (Py.float_eq (rating (snd e)) minimum);
    destruct Hl as [Hl|Hl]; simpl in Hl; intuition (subst; discriminate).
Qed.

(** X5. On a catalogue that is not empty, read from a table whose ratings
    are numbers, [stats] names at least one best and at least one worst
    movie. *)
Theorem stats_names_best_and_worst (v : Py.release) (s : state) :
  numeric (table s) ->
  snapshot s <> [] ->
  exists out : list line,
    stats v s = (Ok tt, emit out (set_movies (snapshot s) s))
    /\ best_of out <> []
    /\ worst_of out <> [].
Proof.
  intros Hnum Hne.
  pose proof (snapshot_numeric s Hnum) as Hratings.
  destruct (stats_run v s Hne) as (average & median & maximum & minimum
                                   & _ & _ & Hmax & Hmin & Hrun).
  destruct (extrema_run _ _ _ Hratings Hmax Hmin) as [[Hmax_in _] [Hmin_in _]].
  assert (Hsome : forall x, In x (ratings_of (snapshot s)) ->
            filter (fun e => SFeqb (rating (snd e)) x) (snapshot s) <> []).
  { intros x Hx. pose proof Hx as Hnan.
    rewrite Forall_forall in Hratings. apply Hratings in Hnan.
    apply in_map_iff in Hx as (e & <- & He).
    intros Hnil.
    assert (Hin : In e (filter (fun e' => SFeqb (rating (snd e')) (rating (snd e)))
                               (snapshot s))).
    { apply filter_In. split; [assumption|]. now apply float_eq_refl. }
    now rewrite Hnil in Hin. }
  exists (AverageLine (Py.round1 average) :: MedianLine median
            :: flat_map (best_worst_lines maximum minimum) (snapshot s)).
  split; [exact Hrun|]. split.
  - change (best_of (flat_map (best_worst_lines maximum minimum) (snapshot s)) <> []).
    rewrite best_of_rounds. intros H. apply map_eq_nil in H.
    now apply (Hsome maximum).
  - change (worst_of (flat_map (best_worst_lines maximum minimum) (snapshot s)) <> []).
    rewrite worst_of_rounds. intros H. apply map_eq_nil in H.
    now apply (Hsome minimum).
Qed.

(** * Beyond the claims: the storage *)

(** ** [list_movies] reads the table back *)

Lemma dict_get_set (d : dict) (k k' : string) (v : movie) :
  dict_get (dict_set d k v) k' = if String.eqb k k' then Some v else dict_get d k'.
Proof.
  induction d as [|[k0 v0] d IH]; cbn [dict_set dict_get].
  - now destruct (String.eqb k k').
  - destruct (String.eqb_spec k0 k) as [->|Hne]; cbn [dict_get].
    + now destruct (String.eqb k k').
    + rewrite IH. destruct (String.eqb_spec k0 k') as [->|Hne'];
        [|reflexivity].
      destruct (String.eqb_spec k k'); [congruence|reflexivity].
Qed.

Lemma list_movies_of_snoc (rows : list row) (r : row) :
  storage.list_movies_of (rows ++ [r])
  = dict_set (storage.list_movies_of rows) (fst (row_entry r)) (snd (row_entry r)).
Proof.
  unfold storage.list_movies_of. rewrite fold_left_app.
  now destruct r as [[[t y] rt] img].
Qed.

(** Looking a title up in the catalogue gives the newest row with that
    title, and nothing when there is none. *)
Lemma list_movies_get (rows : list row) (t : string) :
  dict_get (storage.list_movies_of rows) t
  = option_map (fun r => snd (row_entry r)) (find_row rows t).
Proof.
  unfold find_row.
  induction rows as [|r rows IH] using rev_ind; [reflexivity|].
  rewrite list_movies_of_snoc, dict_get_set, rev_app_distr. cbn [rev app find].
  destruct r as [[[t' y] rt] img]. cbn [row_entry fst snd movie_storage_sql.title_of].
  destruct (String.eqb t' t); [reflexivity|exact IH].
Qed.

Lemma dict_set_fresh (d : dict) (k : string) (v : movie) :
  ~ In k (dict_keys d) -> dict_set d k v = d ++ [(k, v)].
Proof.
  induction d as [|[k0 v0] d IH]; cbn [dict_set dict_keys map fst app]; intros H.
  - reflexivity.
  - destruct (String.eqb_spec k0 k) as [->|Hne].
    + exfalso. apply H. now left.
    + rewrite IH; [reflexivity|]. intros Hin. apply H. now right.
Qed.

(** X6. When the titles of the table are pairwise distinct, as the UNIQUE
    constraint makes them, [storage.list_movies()] returns one entry for
    each row, in row order, and looking up the title of a row gives the
    year, the rating and the poster of that row. *)
Theorem list_movies_reads_rows_back (rows : list row) :
  NoDup (titles_of rows) ->
  storage.list_movies_of rows = map row_entry rows
  /\ forall (t : string) (y : Z) (r : Py.float) (img : string),
      In (t, y, r, img) rows ->
      dict_get (storage.list_movies_of rows) t = Some (mkMovie y r img).
Proof.
  intros Hnodup.
  assert (Hmap : storage.list_movies_of rows = map row_entry rows).
  { induction rows as [|r rows IH] using rev_ind; [reflexivity|].
    unfold titles_of in Hnodup. rewrite map_app in Hnodup.
    apply NoDup_remove in Hnodup as [Hrows Hfresh]. rewrite app_nil_r in Hrows, Hfresh.
    rewrite list_movies_of_snoc, (IH Hrows), map_app. cbn [map].
    rewrite (surjective_pairing (row_entry r)) at 3. apply dict_set_fresh.
    assert (Hkeys : dict_keys (map row_entry rows) = titles_of rows).
    { unfold dict_keys, titles_of. rewrite map_map. apply map_ext.
      now intros [[[t y] rt] img]. }
    rewrite Hkeys. now destruct r as [[[t y] rt] img]. }
  split; [exact Hmap|].
  intros t y r img Hin. apply dict_get_in.
  - rewrite Hmap.
    replace (dict_keys (map row_entry rows)) with (titles_of rows); [assumption|].
    unfold dict_keys, titles_of. rewrite map_map. apply map_ext.
    now intros [[[t' y'] rt'] img'].
  - rewrite Hmap. change (t, mkMovie y r img) with (row_entry (t, y, r, img)).
    now apply in_map.
Qed.

(** ** Running the storage *)

Lemma w_bind_ok {A B : Type} (m : W A) (k : A -> W B) (w w' : world) (a : A) :
  m w = (Ok a, w') -> w_bind m k w = k a w'.
Proof.
  unfold w_bind. now intros ->.
Qed.

Lemma w_bind_raise {A B : Type} (m : W A) (k : A -> W B) (w w' : world) (e : exn) :
  m w = (Raise e, w') -> w_bind m k w = (Raise e, w').
Proof.
  unfold w_bind. now intros ->.
Qed.

Lemma show_show (a b : list message) (w : world) : show b (show a w) = show (a ++ b) w.
Proof.
  unfold show. simpl. now rewrite app_assoc.
Qed.

Lemma show_nil (w : world) : show [] w = w.
Proof.
  destruct w. unfold show. simpl. now rewrite app_nil_r.
Qed.

Lemma existsb_eqb_in (t : string) (l : list string) :
  existsb (String.eqb t) l = true <-> In t l.
Proof.
  rewrite existsb_exists. split.
  - intros (x & Hx & Heq). apply String.eqb_eq in Heq. now subst.
  - intros H. exists t. split; [assumption|apply String.eqb_refl].
Qed.


Lemma storage_add_run (title : string) (y : Z) (r : Py.float) (img : string) (w : world) :
  movie_storage_sql.add_movie title y r img w
  = if negb (movie_storage_sql.int64 y) || Py.isnan r
       || existsb (String.eqb title) (titles_of (table (core w)))
    then (Ok tt, show [StorageError] w)
    else (Ok tt,
          show [Stored title]
            (with_core
               (set_table (table (core w) ++ [(title, y, movie_storage_sql.real r, img)])
                          (core w)) w)).
Proof.
  unfold movie_storage_sql.add_movie, w_bind, get_rows, titles_of.
  now destruct (negb (movie_storage_sql.int64 y) || Py.isnan r
                || existsb (String.eqb title)
                     (map movie_storage_sql.title_of (table (core w)))).
Qed.

Lemma storage_delete_run (title : string) (w : world) :
  movie_storage_sql.delete_movie title w
  = (Ok tt,
     show [Deleted title]
       (with_core
          (set_table
             (filter (fun r => negb (String.eqb (movie_storage_sql.title_of r) title))
                     (table (core w)))
             (core w)) w)).
Proof.
  reflexivity.
Qed.

Lemma storage_update_run (title : string) (rating : Py.float) (w : world) :
  movie_storage_sql.update_movie title rating w
  = if Py.isnan rating
       && existsb (fun r => String.eqb (movie_storage_sql.title_of r) title)
            (table (core w))
    then (Ok tt, show [StorageError] w)
    else (Ok tt,
          show [Updated title]
            (with_core
               (set_table (map (update_row title (movie_storage_sql.real rating))
                               (table (core w)))
                          (core w)) w)).
Proof.
  unfold movie_storage_sql.update_movie, w_bind, get_rows.
  now destruct (Py.isnan rating
                && existsb (fun r => String.eqb (movie_storage_sql.title_of r) title)
                     (table (core w))).
Qed.

(** X7. Storing a title that is not in the table, with a year that fits 64
    bits and a rating that is a number, adds its row after the others and
    reports the success; [list_movies] then returns the new record under
    that title and every other title as before.  The rating read back is
    the one stored, but for the negative zero, which is read back as the
    positive zero. *)
Theorem storage_add_then_list
    (title : string) (y : Z) (r : Py.float) (img : string) (w : world) :
  ~ In title (titles_of (table (core w))) ->
  movie_storage_sql.int64 y = true ->
  r <> Py.nan ->
  movie_storage_sql.add_movie title y r img w
  = (Ok tt,
     show [Stored title]
       (with_core
          (set_table (table (core w) ++ [(title, y, movie_storage_sql.real r, img)])
                     (core w)) w))
  /\ dict_get (snapshot (core (snd (movie_storage_sql.add_movie title y r img w)))) title
     = Some (mkMovie y (movie_storage_sql.real r) img)
  /\ (r <> S754_zero true -> movie_storage_sql.real r = r)
  /\ (r = S754_zero true -> movie_storage_sql.real r = S754_zero false)
  /\ forall t, t <> title ->
       dict_get (snapshot (core (snd (movie_storage_sql.add_movie title y r img w)))) t
       = dict_get (snapshot (core w)) t.
Proof.
  intros Hfresh Hyear Hnum. rewrite storage_add_run, Hyear, (proj2 (isnan_false r) Hnum).
  destruct (existsb (String.eqb title) (titles_of (table (core w)))) eqn:Hex.
  { apply existsb_eqb_in in Hex. contradiction. }
  cbn [negb orb].
  split; [reflexivity|].
  cbn [snd core show with_core]. unfold snapshot. cbn [table set_table].
  rewrite list_movies_of_snoc. cbn [row_entry fst snd].
  split; [now rewrite dict_get_set, String.eqb_refl|].
  split; [destruct r as [[|]| | |]; intros H; try reflexivity; now exfalso; apply H|].
  split; [now intros ->|].
  intros t Ht. rewrite dict_get_set.
  destruct (String.eqb_spec title t); [congruence|reflexivity].
Qed.

Lemma titles_of_update (title : string) (r : Py.float) (rows : list row) :
  titles_of (map (update_row title r) rows) = titles_of rows.
Proof.
  unfold titles_of. rewrite map_map. apply map_ext.
  intros [[[t y] rt] img]. cbn [update_row].
  now destruct (String.eqb t title).
Qed.

(** Deleting rows keeps the titles of the others distinct. *)
Lemma titles_of_filter_distinct (keep : row -> bool) (rows : list row) :
  NoDup (titles_of rows) -> NoDup (titles_of (filter keep rows)).
Proof.
  unfold titles_of. induction rows as [|r rows IH]; cbn [map filter]; intros Hrows.
  - constructor.
  - inversion Hrows as [|? ? Hfresh Hrest]; subst.
    destruct (keep r); [|now apply IH].
    cbn [map]. constructor; [|now apply IH].
    intros Hin. apply Hfresh. apply in_map_iff in Hin as (x & <- & Hx).
    apply in_map. now apply filter_In in Hx.
Qed.

(** X8. The storage keeps the titles of the table pairwise distinct: none
    of its three statements ever leaves two rows with one title, and
    storing a title that is in the table changes no row and reports an
    error instead of a success. *)
Theorem storage_keeps_titles_unique
    (title : string) (y : Z) (r : Py.float) (img : string) (w : world) :
  NoDup (titles_of (table (core w))) ->
  NoDup (titles_of (table (core (snd (movie_storage_sql.add_movie title y r img w)))))
  /\ NoDup (titles_of (table (core (snd (movie_storage_sql.delete_movie title w)))))
  /\ NoDup (titles_of (table (core (snd (movie_storage_sql.update_movie title r w)))))
  /\ (In title (titles_of (table (core w))) ->
      movie_storage_sql.add_movie title y r img w = (Ok tt, show [StorageError] w)).
Proof.
  intros Hnodup. rewrite storage_add_run, storage_delete_run, storage_update_run.
  split; [|split; [|split]].
  - destruct (negb (movie_storage_sql.int64 y) || Py.isnan r
              || existsb (String.eqb title) (titles_of (table (core w)))) eqn:Hex;
      cbn [snd core show with_core table set_table]; [assumption|].
    apply orb_false_iff in Hex as [_ Hex].
    unfold titles_of. rewrite map_app. cbn [map movie_storage_sql.title_of].
    apply NoDup_app; [assumption|constructor; [intros []|constructor]|].
    intros t Ht [Heq|[]]. subst t.
    assert (existsb (String.eqb title) (titles_of (table (core w))) = true)
      by now apply existsb_eqb_in.
    congruence.
  - cbn [snd core show with_core table set_table].
    now apply titles_of_filter_distinct.
  - destruct (Py.isnan r && _); cbn [snd core show with_core table set_table];
      [assumption|now rewrite titles_of_update].
  - intros Hin. apply existsb_eqb_in in Hin. rewrite Hin. now rewrite orb_true_r.
Qed.

Lemma find_filter_title (title t : string) (l : list row) :
  find (fun r => String.eqb (movie_storage_sql.title_of r) t)
       (filter (fun r => negb (String.eqb (movie_storage_sql.title_of r) title)) l)
  = if String.eqb t title then None
    else find (fun r => String.eqb (movie_storage_sql.title_of r) t) l.
Proof.
  induction l as [|r l IH]; cbn [filter find].
  - now destruct (String.eqb t title).
  - destruct (String.eqb_spec (movie_storage_sql.title_of r) title) as [Hr|Hr];
      cbn [negb find].
    + rewrite IH. destruct (String.eqb_spec t title) as [Ht|Ht]; [reflexivity|].
      destruct (String.eqb_spec (movie_storage_sql.title_of r) t); [congruence|reflexivity].
    + rewrite IH.
      destruct (String.eqb_spec (movie_storage_sql.title_of r) t) as [Hrt|Hrt];
        [|reflexivity].
      destruct (String.eqb_spec t title); [congruence|reflexivity].
Qed.

Lemma delete_rows_get (title t : string) (rows : list row) :
  dict_get (storage.list_movies_of
              (filter (fun r => negb (String.eqb (movie_storage_sql.title_of r) title))
                      rows)) t
  = if String.eqb t title then None else dict_get (storage.list_movies_of rows) t.
Proof.
  rewrite !list_movies_get. unfold find_row.
  rewrite <- filter_rev, find_filter_title. now destruct (String.eqb t title).
Qed.

(** X9. After [storage.delete_movie(title)] the catalogue has no entry for
    the title and every other title has its record as before; the success
    is reported whether or not the title was in the table. *)
Theorem storage_delete_then_list (title : string) (w : world) :
  fst (movie_storage_sql.delete_movie title w) = Ok tt
  /\ screen (snd (movie_storage_sql.delete_movie title w)) = screen w ++ [Deleted title]
  /\ dict_get (snapshot (core (snd (movie_storage_sql.delete_movie title w)))) title = None
  /\ forall t, t <> title ->
       dict_get (snapshot (core (snd (movie_storage_sql.delete_movie title w)))) t
       = dict_get (snapshot (core w)) t.
Proof.
  rewrite storage_delete_run. cbn [fst snd core show with_core screen].
  split; [reflexivity|]. split; [reflexivity|].
  unfold snapshot. cbn [table set_table].
  split.
  - now rewrite delete_rows_get, String.eqb_refl.
  - intros t Ht. rewrite delete_rows_get.
    destruct (String.eqb_spec t title); [contradiction|reflexivity].
Qed.

Lemma dict_set_map (g : string * movie -> string * movie) (h : string -> movie -> movie)
    (d : dict) (k : string) (v : movie) :
  (forall k' v', g (k', v') = (k', h k' v')) ->
  dict_set (map g d) k (h k v) = map g (dict_set d k v).
Proof.
  intros Hg. induction d as [|[k0 v0] d IH]; cbn [map dict_set].
  - now rewrite Hg.
  - rewrite Hg. cbn [dict_set].
    destruct (String.eqb_spec k0 k) as [->|Hne]; cbn [map].
    + now rewrite !Hg.
    + now rewrite Hg, IH.
Qed.

Lemma update_entry_shape (title : string) (r : Py.float) (k : string) (v : movie) :
  update_entry title r (k, v)
  = (k, if String.eqb k title then with_rating r v else v).
Proof.
  unfold update_entry. cbn [fst snd]. now destruct (String.eqb k title).
Qed.

(** The catalogue of the updated table is the catalogue with the rating of
    the title replaced. *)
Lemma list_movies_of_update (title : string) (r : Py.float) (rows : list row) :
  storage.list_movies_of (map (update_row title r) rows)
  = map (update_entry title r) (storage.list_movies_of rows).
Proof.
  induction rows as [|row0 rows IH] using rev_ind; [reflexivity|].
  rewrite map_app. cbn [map]. rewrite !list_movies_of_snoc, IH.
  destruct row0 as [[[t y] rt] img]. cbn [update_row row_entry fst snd].
  rewrite <- (dict_set_map (update_entry title r)
                 (fun k v => if String.eqb k title then with_rating r v else v))
    by apply update_entry_shape.
  now destruct (String.eqb t title).
Qed.

Lemma dict_get_map_update (title : string) (r : Py.float) (d : dict) (t : string) :
  dict_get (map (update_entry title r) d) t
  = if String.eqb t title then option_map (with_rating r) (dict_get d t)
    else dict_get d t.
Proof.
  induction d as [|[k v] d IH]; cbn [map dict_get].
  - now destruct (String.eqb t title).
  - rewrite update_entry_shape. cbn [dict_get].
    destruct (String.eqb_spec k t) as [->|Hkt]; [|exact IH].
    now destruct (String.eqb t title).
Qed.

Lemma update_absent (title : string) (r : Py.float) (d : dict) :
  dict_get d title = None -> map (update_entry title r) d = d.
Proof.
  induction d as [|[k v] d IH]; [reflexivity|].
  cbn [map dict_get]. rewrite update_entry_shape.
  destruct (String.eqb_spec k title) as [->|Hk]; [discriminate|].
  intros H. now rewrite IH.
Qed.

Lemma has_row_get (title : string) (rows : list row) :
  existsb (fun r => String.eqb (movie_storage_sql.title_of r) title) rows = false
  <-> dict_get (storage.list_movies_of rows) title = None.
Proof.
  rewrite list_movies_get. unfold find_row.
  split.
  - intros Hex. destruct (find _ (rev rows)) as [r|] eqn:Hfind; [|reflexivity].
    apply find_some in Hfind as [Hin Heq]. apply in_rev in Hin.
    assert (Htrue : existsb (fun r => String.eqb (movie_storage_sql.title_of r) title)
                      rows = true)
      by (apply existsb_exists; now exists r).
    congruence.
  - intros Hnone.
    destruct (existsb _ rows) eqn:Hex; [|reflexivity].
    apply existsb_exists in Hex as (r & Hin & Heq).
    destruct (find _ (rev rows)) as [r'|] eqn:Hfind; [discriminate|].
    apply in_rev in Hin. now rewrite (find_none _ _ Hfind r Hin) in Heq.
Qed.

(** X10. [storage.update_movie(title, rating)] returns normally and leaves
    every other title with its record.  For a rating that is a number the
    catalogue afterwards is the one before with the rating of the title
    replaced by the rating as the REAL column gives it back: the same
    titles in the same order, the year and the poster of every record
    unchanged; the success is reported.  A title that is not in the table
    changes nothing, and the success is reported all the same.  The rating
    not-a-number for a title of the table changes nothing and an error is
    reported. *)
Theorem storage_update_then_list (title : string) (rating : Py.float) (w : world) :
  fst (movie_storage_sql.update_movie title rating w) = Ok tt
  /\ (forall t, t <> title ->
        dict_get (snapshot (core (snd (movie_storage_sql.update_movie title rating w)))) t
        = dict_get (snapshot (core w)) t)
  /\ (dict_get (snapshot (core w)) title = None ->
      snapshot (core (snd (movie_storage_sql.update_movie title rating w)))
      = snapshot (core w)
      /\ screen (snd (movie_storage_sql.update_movie title rating w))
         = screen w ++ [Updated title])
  /\ (rating <> Py.nan ->
      screen (snd (movie_storage_sql.update_movie title rating w))
      = screen w ++ [Updated title]
      /\ snapshot (core (snd (movie_storage_sql.update_movie title rating w)))
         = map (update_entry title (movie_storage_sql.real rating)) (snapshot (core w))
      /\ dict_get (snapshot (core (snd (movie_storage_sql.update_movie title rating w))))
                  title
         = option_map (with_rating (movie_storage_sql.real rating))
                      (dict_get (snapshot (core w)) title))
  /\ (rating = Py.nan ->
      dict_get (snapshot (core w)) title <> None ->
      movie_storage_sql.update_movie title rating w = (Ok tt, show [StorageError] w)).
Proof.
  rewrite storage_update_run. unfold snapshot.
  destruct (existsb (fun r => String.eqb (movie_storage_sql.title_of r) title)
                    (table (core w))) eqn:Hex.
  - assert (Hsome : dict_get (storage.list_movies_of (table (core w))) title <> None).
    { intros Hnone. apply has_row_get in Hnone. congruence. }
    rewrite andb_true_r.
    destruct (Py.isnan rating) eqn:Hnan.
    + cbn [fst snd core show with_core screen].
      split; [reflexivity|]. split; [reflexivity|].
      split; [intros Hnone; contradiction|].
      split; [intros Hnum; apply isnan_false in Hnum; congruence|]. reflexivity.
    + cbn [fst snd core show with_core screen table set_table].
      rewrite list_movies_of_update.
      split; [reflexivity|].
      split.
      { intros t Ht. rewrite dict_get_map_update.
        destruct (String.eqb_spec t title); [contradiction|reflexivity]. }
      split; [intros Hnone; contradiction|].
      split.
      { intros _. split; [reflexivity|]. split; [reflexivity|].
        now rewrite dict_get_map_update, String.eqb_refl. }
      intros ->. discriminate.
  - assert (Hnone : dict_get (storage.list_movies_of (table (core w))) title = None)
      by now apply has_row_get.
    rewrite andb_false_r.
    cbn [fst snd core show with_core screen table set_table].
    rewrite list_movies_of_update.
    split; [reflexivity|].
    split.
    { intros t Ht. rewrite dict_get_map_update.
      destruct (String.eqb_spec t title); [contradiction|reflexivity]. }
    split; [intros _; split; [now apply update_absent|reflexivity]|].
    split.
    { intros _. split; [reflexivity|]. split; [reflexivity|].
      now rewrite dict_get_map_update, String.eqb_refl. }
    intros _ Hsome. contradiction.
Qed.

Lemma real_numeric (r : Py.float) : r <> Py.nan -> movie_storage_sql.real r <> Py.nan.
Proof.
  destruct r; intros H; try discriminate; exact H.
Qed.

Lemma isnan_true (r : Py.float) : Py.isnan r = true -> r = Py.nan.
Proof.
  destruct r; try discriminate; reflexivity.
Qed.

(** X22. The storage keeps the ratings of the table numbers: if no rating
    of the table is not-a-number, none is after [add_movie], [delete_movie]
    or [update_movie], whatever their arguments.  [add_movie] with a year
    that does not fit 64 bits or with the rating not-a-number changes no
    row and reports an error. *)
Theorem storage_keeps_ratings_numeric
    (title : string) (y : Z) (r : Py.float) (img : string) (w : world) :
  numeric (table (core w)) ->
  numeric (table (core (snd (movie_storage_sql.add_movie title y r img w))))
  /\ numeric (table (core (snd (movie_storage_sql.delete_movie title w))))
  /\ numeric (table (core (snd (movie_storage_sql.update_movie title r w))))
  /\ (movie_storage_sql.int64 y = false \/ r = Py.nan ->
      movie_storage_sql.add_movie title y r img w = (Ok tt, show [StorageError] w)).
Proof.
  intros Hnum. rewrite storage_add_run, storage_delete_run, storage_update_run.
  unfold numeric in *.
  split; [|split; [|split]].
  - destruct (negb (movie_storage_sql.int64 y)) eqn:Hy; [exact Hnum|].
    destruct (Py.isnan r) eqn:Hr; [exact Hnum|].
    cbn [orb].
    destruct (existsb _ _); cbn [snd core show with_core table set_table];
      [exact Hnum|].
    apply Forall_app. split; [exact Hnum|].
    constructor; [|constructor]. cbn [rating_of].
    apply real_numeric. intros ->. discriminate.
  - cbn [snd core show with_core table set_table].
    rewrite Forall_forall in *. intros x Hx. apply filter_In in Hx as [Hx _]. auto.
  - destruct (Py.isnan r) eqn:Hr; cbn [andb].
    + destruct (existsb _ _) eqn:Hex; cbn [snd core show with_core table set_table];
        [exact Hnum|].
      assert (Hsame : map (update_row title (movie_storage_sql.real r)) (table (core w))
                      = table (core w)).
      { clear Hnum. induction (table (core w)) as [|row0 rows IH]; [reflexivity|].
        cbn [existsb] in Hex. apply orb_false_iff in Hex as [H0 Hrows].
        cbn [map]. rewrite (IH Hrows). f_equal.
        destruct row0 as [[[t y0] rt] img0]. cbn [update_row movie_storage_sql.title_of] in *.
        now rewrite H0. }
      now rewrite Hsame.
    + cbn [snd core show with_core table set_table].
      rewrite Forall_forall in *. intros x Hx.
      apply in_map_iff in Hx as ([[[t y0] rt] img0] & <- & Hx).
      cbn [update_row]. destruct (String.eqb t title).
      * cbn [rating_of]. apply real_numeric. intros ->. discriminate.
      * now apply Hnum.
  - intros [Hy| ->]; [now rewrite Hy|]. cbn [Py.isnan]. now rewrite orb_true_r.
Qed.

(** * Beyond the claims: listing and editing the catalogue *)

Lemma assign_run (w : world) :
  assign w = (Ok tt, with_core (set_movies (snapshot (core w)) (core w)) w).
Proof.
  reflexivity.
Qed.

Lemma has_title_run (title : string) (w : world) :
  has_title title w = (Ok (dict_has (movies (core w)) title), w).
Proof.
  reflexivity.
Qed.

Lemma dict_has_in (d : dict) (t : string) : dict_has d t = true <-> In t (dict_keys d).
Proof.
  apply existsb_eqb_in.
Qed.

Lemma dict_has_get (d : dict) (t : string) :
  dict_has d t = match dict_get d t with Some _ => true | None => false end.
Proof.
  unfold dict_has. induction d as [|[k v] d IH]; cbn [dict_keys map fst existsb dict_get].
  - reflexivity.
  - rewrite String.eqb_sym. destruct (String.eqb k t); [reflexivity|exact IH].
Qed.

(** The titles of the catalogue are the titles of the rows. *)
Lemma snapshot_keys_in (rows : list row) (t : string) :
  In t (dict_keys (storage.list_movies_of rows)) <-> In t (titles_of rows).
Proof.
  induction rows as [|r rows IH] using rev_ind; [reflexivity|].
  rewrite list_movies_of_snoc, dict_set_keys_in, IH.
  unfold titles_of. rewrite map_app, in_app_iff. cbn [map In].
  destruct r as [[[t' y] rt] img]. cbn [row_entry fst movie_storage_sql.title_of].
  intuition congruence.
Qed.

Lemma snapshot_has (rows : list row) (t : string) :
  dict_has (storage.list_movies_of rows) t = existsb (String.eqb t) (titles_of rows).
Proof.
  apply eq_true_iff_eq. rewrite dict_has_in, existsb_eqb_in. apply snapshot_keys_in.
Qed.

Lemma with_core_same (w : world) : with_core (set_stdin (stdin (core w)) (core w)) (show [] w) = w.
Proof.
  destruct w as [[? ? ? ? ? ? ?] ? ? ?]. unfold with_core, show, set_stdin. simpl.
  now rewrite app_nil_r.
Qed.

Lemma ask_name_rounds_skip (p : prompt) (k fuel : nat) (tail : list string) (w : world) :
  stdin (core w) = repeat EmptyString k ++ tail ->
  ask_name_rounds p (k + fuel) w
  = ask_name_rounds p fuel
      (with_core (set_stdin tail (core w)) (show (empty_name_rounds p k) w)).
Proof.
  revert w. induction k as [|k IH]; intros w Hin.
  - cbn in Hin. subst tail. unfold empty_name_rounds. cbn [repeat List.concat plus].
    now rewrite with_core_same.
  - cbn [repeat app] in Hin. cbn [plus ask_name_rounds].
    assert (Hask : ask p w
                   = (Ok EmptyString,
                      with_core (set_stdin (repeat EmptyString k ++ tail) (core w))
                                (show [Asked p] w)))
      by (unfold ask; now rewrite Hin).
    rewrite (w_bind_ok _ _ _ _ _ Hask). cbn [String.eqb].
    unfold say at 1. cbn [w_bind].
    rewrite IH by reflexivity.
    f_equal. unfold empty_name_rounds, with_core, show, set_stdin.
    cbn [repeat List.concat core screen omdb requested
         table movies stdin stdout entropy draws extract_calls].
    now rewrite <- !app_assoc.
Qed.

(** Empty names are turned down one by one, and the first answer that is
    not empty is the name. *)
Lemma ask_name_skips (p : prompt) (k : nat) (title : string) (rest : list string)
    (w : world) :
  stdin (core w) = repeat EmptyString k ++ title :: rest ->
  title <> EmptyString ->
  ask_name p w
  = (Ok title,
     with_core (set_stdin rest (core w)) (show (empty_name_rounds p k ++ [Asked p]) w)).
Proof.
  intros Hin Hne. unfold ask_name. rewrite Hin, length_app, repeat_length.
  replace (S (k + List.length (title :: rest)))
    with (k + S (List.length (title :: rest)))%nat by lia.
  rewrite (ask_name_rounds_skip p k _ (title :: rest) w Hin).
  cbn [ask_name_rounds].
  unfold w_bind, ask. cbn [core with_core stdin set_stdin].
  destruct (String.eqb_spec title EmptyString); [contradiction|].
  unfold w_ret. f_equal. unfold with_core, show, set_stdin.
  cbn [core screen omdb requested table movies stdin stdout entropy draws extract_calls].
  now rewrite <- app_assoc.
Qed.

Lemma ask_name_run (p : prompt) (title : string) (rest : list string) (w : world) :
  stdin (core w) = title :: rest ->
  title <> EmptyString ->
  ask_name p w = (Ok title, with_core (set_stdin rest (core w)) (show [Asked p] w)).
Proof.
  intros Hin Hne. exact (ask_name_skips p 0 title rest w Hin Hne).
Qed.

(** An operation that loads the catalogue, asks for a name and goes on
    with it treats [k] empty names as [k] rounds written before. *)
Lemma name_loop_rounds {A : Type} (p : prompt) (continue : string -> W A)
    (k : nat) (title : string) (rest : list string) (w : world) :
  stdin (core w) = repeat EmptyString k ++ title :: rest ->
  title <> EmptyString ->
  w_bind assign (fun _ => w_bind (ask_name p) continue) w
  = w_bind assign (fun _ => w_bind (ask_name p) continue)
      (with_core (set_stdin (title :: rest) (core w)) (show (empty_name_rounds p k) w)).
Proof.
  intros Hin Hne.
  set (w2 := with_core (set_stdin (title :: rest) (core w))
                       (show (empty_name_rounds p k) w)).
  rewrite (w_bind_ok _ _ _ _ _ (assign_run w)).
  rewrite (w_bind_ok _ _ _ _ _ (assign_run w2)).
  rewrite (w_bind_ok _ _ _ _ _
             (ask_name_skips p k title rest
                (with_core (set_movies (snapshot (core w)) (core w)) w) Hin Hne)).
  rewrite (w_bind_ok _ _ _ _ _
             (ask_name_run p title rest
                (with_core (set_movies (snapshot (core w2)) (core w2)) w2)
                eq_refl Hne)).
  f_equal. unfold w2. unfold with_core, show, set_stdin, set_movies, snapshot.
  cbn [core screen omdb requested table movies stdin stdout entropy draws extract_calls].
  now rewrite app_assoc.
Qed.

(** X11. In [add_movie], [delete_movie] and [update_movie], empty names
    only cost a round each: the operation then runs on the first name that
    is not empty, exactly as if that name had been typed first after the
    rounds were written. *)
Theorem editing_skips_empty_names
    (py_int : string -> option Z) (py_float : string -> option Py.float)
    (k : nat) (title : string) (rest : list string) (w : world) :
  stdin (core w) = repeat EmptyString k ++ title :: rest ->
  title <> EmptyString ->
  add_movie py_int py_float w
  = add_movie py_int py_float
      (with_core (set_stdin (title :: rest) (core w))
                 (show (empty_name_rounds NewMovieName k) w))
  /\ delete_movie w
     = delete_movie
         (with_core (set_stdin (title :: rest) (core w))
                    (show (empty_name_rounds NameToDelete k) w))
  /\ update_movie py_float w
     = update_movie py_float
         (with_core (set_stdin (title :: rest) (core w))
                    (show (empty_name_rounds MovieName k) w)).
Proof.
  intros Hin Hne. repeat split.
  - exact (name_loop_rounds NewMovieName _ k title rest w Hin Hne).
  - exact (name_loop_rounds NameToDelete _ k title rest w Hin Hne).
  - exact (name_loop_rounds MovieName _ k title rest w Hin Hne).
Qed.

(** ** [list_movies] *)

Lemma w_for_each_show {A : Type} (d : dict) (body : A -> W unit) (f : A -> list message)
    (l : list A) :
  (forall a w, In a l -> movies (core w) = d -> body a w = (Ok tt, show (f a) w)) ->
  forall w, movies (core w) = d -> w_for_each l body w = (Ok tt, show (flat_map f l) w).
Proof.
  induction l as [|a l IH]; intros Hbody w Hw; cbn [w_for_each flat_map].
  - unfold w_ret. now rewrite show_nil.
  - rewrite (w_bind_ok _ _ _ _ _ (Hbody a w (or_introl eq_refl) Hw)).
    rewrite IH; [now rewrite show_show| |exact Hw].
    intros b w' Hb. apply Hbody. now right.
Qed.

Lemma item_field_run {A : Type} (f : movie -> A) (k : string) (m : movie) (w : world) :
  dict_get (movies (core w)) k = Some m -> item_field f k w = (Ok (f m), w).
Proof.
  intros H. unfold item_field, w_bind, get_movies. now rewrite H.
Qed.

(** X12. [list_movies] writes the number of movies of the catalogue and then
    one line for each movie, in catalogue order, with its year and rating;
    the number it writes is the number of lines that follow, and no lookup
    fails. *)
Theorem list_movies_prints_catalogue (w : world) :
  list_movies w
  = (Ok tt,
     show (Total (Z.of_nat (List.length (snapshot (core w))))
             :: map listed_line (snapshot (core w)))
          (with_core (set_movies (snapshot (core w)) (core w)) w)).
Proof.
  set (d := snapshot (core w)).
  unfold list_movies. rewrite (w_bind_ok _ _ _ _ _ (assign_run w)). fold d.
  unfold get_movies at 1. cbn [w_bind core with_core movies set_movies].
  unfold say at 1. cbn [w_bind].
  rewrite (w_for_each_show d _
             (fun k => match dict_get d k with
                       | Some m => [listed_line (k, m)]
                       | None => []
                       end)).
  - rewrite show_show. cbn [app]. do 3 f_equal.
    rewrite (flat_map_keys d d (fun e => [listed_line e])).
    + apply flat_map_singleton.
    + intros k m Hin. apply dict_get_in; [apply snapshot_nodup|exact Hin].
  - intros k w' Hk Hw'. apply in_map_iff in Hk as ([k' m] & Hk & Hin).
    cbn [fst] in Hk. subst k'.
    assert (Hget : dict_get d k = Some m)
      by (apply dict_get_in; [apply snapshot_nodup|exact Hin]).
    rewrite Hget. rewrite <- Hw' in Hget.
    rewrite (w_bind_ok _ _ _ _ _ (item_field_run year k m w' Hget)).
    rewrite (w_bind_ok _ _ _ _ _ (item_field_run rating k m w' Hget)).
    reflexivity.
  - reflexivity.
Qed.

(** ** [delete_movie] *)

(** X13. After [delete_movie] the typed title is not in the catalogue,
    whether it was deleted or was never there, and every other title has
    its record as before.  A title that is not in the catalogue, for
    instance in another letter case, is answered with "doesn't exist" and
    leaves the table untouched. *)
Theorem delete_movie_removes_title (title : string) (rest : list string) (w : world) :
  stdin (core w) = title :: rest ->
  title <> EmptyString ->
  fst (delete_movie w) = Ok tt
  /\ screen (snd (delete_movie w))
     = screen w ++ [Asked NameToDelete;
                    if dict_has (snapshot (core w)) title
                    then Deleted title else DoesNotExist title]
  /\ dict_get (snapshot (core (snd (delete_movie w)))) title = None
  /\ (forall t, t <> title ->
        dict_get (snapshot (core (snd (delete_movie w)))) t
        = dict_get (snapshot (core w)) t)
  /\ (dict_has (snapshot (core w)) title = false ->
      table (core (snd (delete_movie w))) = table (core w)).
Proof.
  intros Hin Hne. unfold delete_movie.
  rewrite (w_bind_ok _ _ _ _ _ (assign_run w)).
  rewrite (w_bind_ok _ _ _ _ _
             (ask_name_run NameToDelete title rest
                (with_core (set_movies (snapshot (core w)) (core w)) w) Hin Hne)).
  rewrite (w_bind_ok _ _ _ _ _ (has_title_run title _)).
  cbn [core with_core movies set_movies set_stdin].
  pose proof (dict_has_get (snapshot (core w)) title) as Hhas.
  destruct (dict_has (snapshot (core w)) title).
  - rewrite storage_delete_run.
    cbn [fst snd core show with_core screen table set_table set_stdin set_movies].
    split; [reflexivity|]. split; [now rewrite <- app_assoc|].
    unfold snapshot. cbn [table set_table].
    split; [now rewrite delete_rows_get, String.eqb_refl|].
    split; [|discriminate].
    intros t Ht. rewrite delete_rows_get.
    destruct (String.eqb_spec t title); [contradiction|reflexivity].
  - unfold say.
    cbn [fst snd core show with_core screen table set_table set_stdin set_movies].
    split; [reflexivity|]. split; [now rewrite <- app_assoc|].
    split; [|split; reflexivity].
    unfold snapshot in *. cbn [table]. now destruct (dict_get _ title).
Qed.

(** ** [add_movie] *)

Lemma data_item_run (data : list (string * string)) (key : string) (w : world) :
  data_item data key w
  = match data_get data key with
    | Some v => (Ok v, w)
    | None => (Raise KeyError, w)
    end.
Proof.
  unfold data_item, data_get.
  now destruct (find (fun entry => String.eqb (fst entry) key) data).
Qed.

Lemma parse_run {A : Type} (parser : string -> option A) (text : string) (w : world) :
  parse parser text w
  = match parser text with
    | Some a => (Ok a, w)
    | None => (Raise ValueError, w)
    end.
Proof.
  unfold parse. now destruct (parser text).
Qed.

Lemma data_item_ok (data : list (string * string)) (key v : string) (w : world) :
  data_get data key = Some v -> data_item data key w = (Ok v, w).
Proof.
  intros H. now rewrite data_item_run, H.
Qed.

Lemma data_item_missing (data : list (string * string)) (key : string) (w : world) :
  data_get data key = None -> data_item data key w = (Raise KeyError, w).
Proof.
  intros H. now rewrite data_item_run, H.
Qed.

Lemma parse_ok {A : Type} (parser : string -> option A) (text : string) (a : A)
    (w : world) :
  parser text = Some a -> parse parser text w = (Ok a, w).
Proof.
  intros H. now rewrite parse_run, H.
Qed.

Lemma parse_bad {A : Type} (parser : string -> option A) (text : string) (w : world) :
  parser text = None -> parse parser text w = (Raise ValueError, w).
Proof.
  intros H. now rewrite parse_run, H.
Qed.

Section AddMovieFacts.
Variable py_int : string -> option Z.
Variable py_float : string -> option Py.float.

(** What [add_movie] does once a name that is not empty has been typed. *)
Lemma add_movie_run (title : string) (rest : list string) (w : world) :
  stdin (core w) = title :: rest ->
  title <> EmptyString ->
  add_movie py_int py_float w
  = let d := snapshot (core w) in
    let w3 := with_core (set_stdin rest (set_movies d (core w)))
                        (show [Asked NewMovieName] w) in
    let w4 := log_request title w3 in
    if dict_has d title then (Ok tt, show [AlreadyExist title] w3)
    else
      match omdb w title with
      | ConnectionError => (Ok tt, show [NoConnection] w4)
      | Timeout => (Ok tt, show [RequestTimedOut] w4)
      | Json data =>
          match data_get data "Title" with
          | None => (Ok tt, show [NoSuchMovie title] w4)
          | Some found =>
              if dict_has d found then (Ok tt, show [AlreadyExist title] w4)
              else
                match data_get data "Year" with
                | None => (Ok tt, show [NoSuchMovie title] w4)
                | Some y_text =>
                    match py_int y_text with
                    | None => (Raise ValueError, w4)
                    | Some y =>
                        match data_get data "imdbRating" with
                        | None => (Ok tt, show [NoSuchMovie title] w4)
                        | Some r_text =>
                            match py_float r_text with
                            | None => (Raise ValueError, w4)
                            | Some r =>
                                match data_get data "Poster" with
                                | None => (Ok tt, show [NoSuchMovie title] w4)
                                | Some poster =>
                                    if negb (movie_storage_sql.int64 y) || Py.isnan r
                                    then (Ok tt, show [StorageError] w4)
                                    else
                                      (Ok tt,
                                       show [Stored found]
                                         (with_core
                                            (set_table
                                               (table (core w)
                                                ++ [(found, y, movie_storage_sql.real r,
                                                     poster)])
                                               (core w4))
                                            w4))
                                end
                            end
                        end
                    end
                end
          end
      end.
Proof.
  intros Hin Hne. cbv zeta. unfold add_movie.
  rewrite (w_bind_ok _ _ _ _ _ (assign_run w)).
  rewrite (w_bind_ok _ _ _ _ _
             (ask_name_run NewMovieName title rest
                (with_core (set_movies (snapshot (core w)) (core w)) w) Hin Hne)).
  rewrite (w_bind_ok _ _ _ _ _ (has_title_run title _)).
  cbn [core with_core movies set_movies set_stdin].
  destruct (dict_has (snapshot (core w)) title); cbn [negb]; [reflexivity|].
  unfold requests_get at 1. cbn [w_bind omdb with_core show].
  destruct (omdb w title) as [data| |]; [|reflexivity|reflexivity].
  set (w4 := log_request title
               (with_core (set_stdin rest (set_movies (snapshot (core w)) (core w)))
                          (show [Asked NewMovieName] w))).
  unfold try_except.
  destruct (data_get data "Title") as [found|] eqn:Htitle.
  2:{ rewrite (w_bind_raise _ _ _ _ _ (data_item_missing data "Title" w4 Htitle)).
      reflexivity. }
  rewrite (w_bind_ok _ _ _ _ _ (data_item_ok data "Title" found w4 Htitle)).
  rewrite (w_bind_ok _ _ _ _ _ (has_title_run found w4)).
  cbn [core with_core movies set_movies set_stdin log_request show w4].
  pose proof (snapshot_has (table (core w)) found) as Hrows.
  fold (snapshot (core w)) in Hrows.
  destruct (dict_has (snapshot (core w)) found); cbn [negb]; [reflexivity|].
  fold w4.
  rewrite (w_bind_ok _ _ _ _ _ (data_item_ok data "Title" found w4 Htitle)).
  destruct (data_get data "Year") as [y_text|] eqn:Hyear.
  2:{ rewrite (w_bind_raise _ _ _ _ _ (data_item_missing data "Year" w4 Hyear)).
      reflexivity. }
  rewrite (w_bind_ok _ _ _ _ _ (data_item_ok data "Year" y_text w4 Hyear)).
  destruct (py_int y_text) as [y|] eqn:Hy.
  2:{ rewrite (w_bind_raise _ _ _ _ _ (parse_bad py_int y_text w4 Hy)). reflexivity. }
  rewrite (w_bind_ok _ _ _ _ _ (parse_ok py_int y_text y w4 Hy)).
  destruct (data_get data "imdbRating") as [r_text|] eqn:Hrating.
  2:{ rewrite (w_bind_raise _ _ _ _ _ (data_item_missing data "imdbRating" w4 Hrating)).
      reflexivity. }
  rewrite (w_bind_ok _ _ _ _ _ (data_item_ok data "imdbRating" r_text w4 Hrating)).
  destruct (py_float r_text) as [r|] eqn:Hr.
  2:{ rewrite (w_bind_raise _ _ _ _ _ (parse_bad py_float r_text w4 Hr)). reflexivity. }
  rewrite (w_bind_ok _ _ _ _ _ (parse_ok py_float r_text r w4 Hr)).
  destruct (data_get data "Poster") as [poster|] eqn:Hposter.
  2:{ rewrite (w_bind_raise _ _ _ _ _ (data_item_missing data "Poster" w4 Hposter)).
      reflexivity. }
  rewrite (w_bind_ok _ _ _ _ _ (data_item_ok data "Poster" poster w4 Hposter)).
  rewrite storage_add_run.
  change (table (core w4)) with (table (core w)).
  rewrite <- Hrows, orb_false_r.
  now destruct (negb (movie_storage_sql.int64 y) || Py.isnan r).
Qed.

End AddMovieFacts.

(** X14. A name that is a title of the catalogue is answered with "already
    exist" at once: the provider is not asked and the table is not
    touched. *)
Theorem add_movie_listed_title
    (py_int : string -> option Z) (py_float : string -> option Py.float)
    (title : string) (rest : list string) (w : world) :
  stdin (core w) = title :: rest ->
  title <> EmptyString ->
  dict_has (snapshot (core w)) title = true ->
  fst (add_movie py_int py_float w) = Ok tt
  /\ screen (snd (add_movie py_int py_float w))
     = screen w ++ [Asked NewMovieName; AlreadyExist title]
  /\ table (core (snd (add_movie py_int py_float w))) = table (core w)
  /\ requested (snd (add_movie py_int py_float w)) = requested w.
Proof.
  intros Hin Hne Hlisted.
  rewrite (add_movie_run py_int py_float title rest w Hin Hne). cbv zeta.
  rewrite Hlisted.
  cbn [fst snd core show with_core screen table requested set_stdin set_movies].
  now rewrite <- app_assoc.
Qed.

(** X15. When the provider returns a record with a title that is not in the
    catalogue, a year [int] reads and that fits 64 bits, and a rating
    [float] reads as a number, [add_movie] stores one row: the title, year,
    rating and poster of the record (the provider's title, not the typed
    name; the rating as the REAL column gives it back).  The catalogue then
    has that record under that title. *)
Theorem add_movie_stores_provider_record
    (py_int : string -> option Z) (py_float : string -> option Py.float)
    (title : string) (rest : list string) (w : world)
    (data : list (string * string)) (found y_text r_text poster : string)
    (y : Z) (r : Py.float) :
  stdin (core w) = title :: rest ->
  title <> EmptyString ->
  dict_has (snapshot (core w)) title = false ->
  omdb w title = Json data ->
  data_get data "Title" = Some found ->
  dict_has (snapshot (core w)) found = false ->
  data_get data "Year" = Some y_text ->
  py_int y_text = Some y ->
  (- 2 ^ 63 <= y < 2 ^ 63)%Z ->
  data_get data "imdbRating" = Some r_text ->
  py_float r_text = Some r ->
  r <> S754_nan ->
  data_get data "Poster" = Some poster ->
  fst (add_movie py_int py_float w) = Ok tt
  /\ table (core (snd (add_movie py_int py_float w)))
     = table (core w) ++ [(found, y, movie_storage_sql.real r, poster)]
  /\ screen (snd (add_movie py_int py_float w))
     = screen w ++ [Asked NewMovieName; Stored found]
  /\ requested (snd (add_movie py_int py_float w)) = requested w ++ [title]
  /\ dict_get (snapshot (core (snd (add_movie py_int py_float w)))) found
     = Some (mkMovie y (movie_storage_sql.real r) poster)
  /\ (r <> S754_zero true -> movie_storage_sql.real r = r).
Proof.
  intros Hin Hne Hnew Hreply Htitle Hfound Hyear Hy Hfits Hrating Hr Hnum Hposter.
  rewrite (add_movie_run py_int py_float title rest w Hin Hne). cbv zeta.
  rewrite Hnew, Hreply, Htitle, Hfound, Hyear, Hy, Hrating, Hr, Hposter.
  assert (Hint : movie_storage_sql.int64 y = true).
  { unfold movie_storage_sql.int64. apply andb_true_intro. split.
    - apply Z.leb_le. lia.
    - apply Z.ltb_lt. lia. }
  rewrite Hint, (proj2 (isnan_false r) Hnum). cbn [negb orb].
  cbn [fst snd core show with_core screen table requested set_stdin set_movies
       set_table log_request].
  split; [reflexivity|]. split; [reflexivity|].
  split; [now rewrite <- app_assoc|]. split; [reflexivity|].
  split.
  - unfold snapshot.
    cbn [core show with_core table set_stdin set_movies set_table log_request].
    rewrite list_movies_of_snoc. cbn [row_entry fst snd].
    now rewrite dict_get_set, String.eqb_refl.
  - destruct r as [[|]| | |]; intros H; try reflexivity. now exfalso; apply H.
Qed.

(** X16. When the provider has no record for the name (the reply has no
    [Title]), cannot be reached, or does not answer in time, [add_movie]
    says so and leaves the table as it was. *)
Theorem add_movie_without_record
    (py_int : string -> option Z) (py_float : string -> option Py.float)
    (title : string) (rest : list string) (w : world) :
  stdin (core w) = title :: rest ->
  title <> EmptyString ->
  dict_has (snapshot (core w)) title = false ->
  match omdb w title with
  | Json data => data_get data "Title" = None
  | ConnectionError | Timeout => True
  end ->
  fst (add_movie py_int py_float w) = Ok tt
  /\ screen (snd (add_movie py_int py_float w))
     = screen w ++ [Asked NewMovieName;
                    match omdb w title with
                    | Json _ => NoSuchMovie title
                    | ConnectionError => NoConnection
                    | Timeout => RequestTimedOut
                    end]
  /\ table (core (snd (add_movie py_int py_float w))) = table (core w)
  /\ requested (snd (add_movie py_int py_float w)) = requested w ++ [title].
Proof.
  intros Hin Hne Hnew Hreply.
  rewrite (add_movie_run py_int py_float title rest w Hin Hne). cbv zeta.
  rewrite Hnew.
  destruct (omdb w title) as [data| |]; [rewrite Hreply| |];
    cbn [fst snd core show with_core screen table requested set_stdin set_movies
         log_request];
    now rewrite <- app_assoc.
Qed.

(** X17. [add_movie] does not handle a year or a rating that is no number:
    when [int] rejects the year of the record, or [float] its rating (the
    provider writes N/A for a film without rating), [ValueError] leaves
    [add_movie], no message is written and no row is stored. *)
Theorem add_movie_bad_number_raises
    (py_int : string -> option Z) (py_float : string -> option Py.float)
    (title : string) (rest : list string) (w : world)
    (data : list (string * string)) (found y_text : string) :
  stdin (core w) = title :: rest ->
  title <> EmptyString ->
  dict_has (snapshot (core w)) title = false ->
  omdb w title = Json data ->
  data_get data "Title" = Some found ->
  dict_has (snapshot (core w)) found = false ->
  data_get data "Year" = Some y_text ->
  (py_int y_text = None
   \/ exists r_text, data_get data "imdbRating" = Some r_text
                     /\ py_float r_text = None) ->
  fst (add_movie py_int py_float w) = Raise ValueError
  /\ screen (snd (add_movie py_int py_float w)) = screen w ++ [Asked NewMovieName]
  /\ table (core (snd (add_movie py_int py_float w))) = table (core w).
Proof.
  intros Hin Hne Hnew Hreply Htitle Hfound Hyear Hbad.
  rewrite (add_movie_run py_int py_float title rest w Hin Hne). cbv zeta.
  rewrite Hnew, Hreply, Htitle, Hfound, Hyear.
  destruct Hbad as [Hy|(r_text & Hrating & Hr)].
  - rewrite Hy. now cbn.
  - destruct (py_int y_text); [|now cbn]. rewrite Hrating, Hr. now cbn.
Qed.

(** X18. Whatever the provider answers, [add_movie] never stores a second
    row for a title: it leaves the table as it was or adds one row whose
    title was not in it, and writes the storage's success message exactly
    then.  It never runs into the UNIQUE constraint of the storage: the
    storage's error message is written only for a record whose title is
    not in the table and whose year does not fit 64 bits or whose rating
    is not-a-number. *)
Theorem add_movie_never_duplicates
    (py_int : string -> option Z) (py_float : string -> option Py.float)
    (title : string) (rest : list string) (w : world) :
  stdin (core w) = title :: rest ->
  title <> EmptyString ->
  exists out : list message,
    screen (snd (add_movie py_int py_float w)) = screen w ++ Asked NewMovieName :: out
    /\ (In StorageError out ->
        exists (data : list (string * string)) (found y_text r_text : string)
               (y : Z) (r : Py.float),
          omdb w title = Json data
          /\ data_get data "Title" = Some found
          /\ ~ In found (titles_of (table (core w)))
          /\ data_get data "Year" = Some y_text /\ py_int y_text = Some y
          /\ data_get data "imdbRating" = Some r_text /\ py_float r_text = Some r
          /\ (~ (- 2 ^ 63 <= y < 2 ^ 63)%Z \/ r = S754_nan))
    /\ ((table (core (snd (add_movie py_int py_float w))) = table (core w)
         /\ forall t, ~ In (Stored t) out)
        \/ exists r : row,
            table (core (snd (add_movie py_int py_float w))) = table (core w) ++ [r]
            /\ ~ In (movie_storage_sql.title_of r) (titles_of (table (core w)))
            /\ out = [Stored (movie_storage_sql.title_of r)])
    /\ (NoDup (titles_of (table (core w))) ->
        NoDup (titles_of (table (core (snd (add_movie py_int py_float w)))))).
Proof.
  intros Hin Hne.
  rewrite (add_movie_run py_int py_float title rest w Hin Hne). cbv zeta.
  set (cause := fun out : list message =>
         In StorageError out ->
         exists (data : list (string * string)) (found y_text r_text : string)
                (y : Z) (r : Py.float),
           omdb w title = Json data
           /\ data_get data "Title" = Some found
           /\ ~ In found (titles_of (table (core w)))
           /\ data_get data "Year" = Some y_text /\ py_int y_text = Some y
           /\ data_get data "imdbRating" = Some r_text /\ py_float r_text = Some r
           /\ (~ (- 2 ^ 63 <= y < 2 ^ 63)%Z \/ r = S754_nan)).
  set (kept := fun (p : result unit * world) (out : list message) =>
         (table (core (snd p)) = table (core w) /\ forall t, ~ In (Stored t) out)
         \/ exists r : row,
             table (core (snd p)) = table (core w) ++ [r]
             /\ ~ In (movie_storage_sql.title_of r) (titles_of (table (core w)))
             /\ out = [Stored (movie_storage_sql.title_of r)]).
  set (distinct := fun p : result unit * world =>
         NoDup (titles_of (table (core w))) ->
         NoDup (titles_of (table (core (snd p))))).
  set (good := fun p : result unit * world =>
         exists out : list message,
           screen (snd p) = screen w ++ Asked NewMovieName :: out
           /\ cause out /\ kept p out /\ distinct p).
  match goal with
  | |- exists out, screen (snd ?p) = _ /\ _ => change (good p)
  end.
  assert (Hquiet : forall (res : result unit) (m : message) (w' : world),
             table (core w') = table (core w) ->
             screen w' = screen w ++ [Asked NewMovieName] ->
             m <> StorageError -> (forall t, m <> Stored t) ->
             good (res, show [m] w')).
  { intros res m w' Ht Hs Hm Hstored. exists [m]. unfold cause, kept, distinct.
    cbn [snd core show screen]. rewrite Hs, Ht, <- app_assoc.
    split; [reflexivity|]. split; [intros [H|[]]; congruence|].
    split; [|trivial]. left. split; [reflexivity|].
    intros t [H|[]]. now apply (Hstored t). }
  assert (Hraise : forall (w' : world),
             table (core w') = table (core w) ->
             screen w' = screen w ++ [Asked NewMovieName] ->
             good (@Raise unit ValueError, w')).
  { intros w' Ht Hs. exists []. unfold cause, kept, distinct. cbn [snd]. rewrite Hs, Ht.
    split; [reflexivity|]. split; [intros []|].
    split; [|trivial]. left. split; [reflexivity|intros t []]. }
  destruct (dict_has (snapshot (core w)) title);
    [apply Hquiet; [reflexivity|reflexivity|discriminate|discriminate]|].
  destruct (omdb w title) as [data| |] eqn:Hreply;
    [|apply Hquiet; [reflexivity|reflexivity|discriminate|discriminate]
     |apply Hquiet; [reflexivity|reflexivity|discriminate|discriminate]].
  destruct (data_get data "Title") as [found|] eqn:Htitle;
    [|apply Hquiet; [reflexivity|reflexivity|discriminate|discriminate]].
  pose proof (snapshot_has (table (core w)) found) as Hrows.
  fold (snapshot (core w)) in Hrows.
  destruct (dict_has (snapshot (core w)) found);
    [apply Hquiet; [reflexivity|reflexivity|discriminate|discriminate]|].
  destruct (data_get data "Year") as [y_text|] eqn:Hyear;
    [|apply Hquiet; [reflexivity|reflexivity|discriminate|discriminate]].
  destruct (py_int y_text) as [y|] eqn:Hy; [|apply Hraise; reflexivity].
  destruct (data_get data "imdbRating") as [r_text|] eqn:Hrating;
    [|apply Hquiet; [reflexivity|reflexivity|discriminate|discriminate]].
  destruct (py_float r_text) as [r|] eqn:Hr; [|apply Hraise; reflexivity].
  destruct (data_get data "Poster") as [poster|];
    [|apply Hquiet; [reflexivity|reflexivity|discriminate|discriminate]].
  assert (Hfresh : ~ In found (titles_of (table (core w)))).
  { intros H. apply existsb_eqb_in in H. congruence. }
  destruct (negb (movie_storage_sql.int64 y) || Py.isnan r) eqn:Hbad.
  - exists [StorageError]. unfold cause, kept, distinct.
    cbn [snd core show with_core screen table requested set_stdin set_movies
         set_table log_request].
    rewrite <- app_assoc.
    split; [reflexivity|]. split.
    + intros _. exists data, found, y_text, r_text, y, r.
      repeat (split; [assumption || reflexivity|]).
      apply orb_true_iff in Hbad as [Hyear64|Hnan].
      * left. intros [Hlo Hhi]. unfold movie_storage_sql.int64 in Hyear64.
        apply negb_true_iff, andb_false_iff in Hyear64 as [H|H].
        -- apply Z.leb_gt in H. lia.
        -- apply Z.ltb_ge in H. lia.
      * right. now apply isnan_true.
    + split; [|trivial]. left. split; [reflexivity|].
      intros t [H|[]]. discriminate.
  - exists [Stored found]. unfold cause, kept, distinct.
    cbn [snd core show with_core screen table requested set_stdin set_movies
         set_table log_request].
    rewrite <- app_assoc.
    split; [reflexivity|]. split; [intros [H|[]]; discriminate|].
    split.
    + right. exists (found, y, movie_storage_sql.real r, poster). now repeat split.
    + intros Hnodup. unfold titles_of. rewrite map_app.
      cbn [map movie_storage_sql.title_of].
      apply NoDup_app; [assumption|constructor; [intros []|constructor]|].
      intros t Ht [Heq|[]]. subst t. contradiction.
Qed.

(** ** [update_movie] *)

Lemma map_update_absent (title : string) (r : Py.float) (d : dict) :
  ~ In title (dict_keys d) -> map (update_entry title r) d = d.
Proof.
  induction d as [|[k v] d IH]; cbn [map dict_keys fst]; intros H; [reflexivity|].
  rewrite update_entry_shape.
  destruct (String.eqb_spec k title) as [->|Hk].
  - exfalso. apply H. now left.
  - rewrite IH; [reflexivity|]. intros Hin. apply H. now right.
Qed.

(** Setting the rating of a listed title in the dictionary changes that
    entry and no other. *)
Lemma dict_set_update (title : string) (r : Py.float) (m : movie) (d : dict) :
  NoDup (dict_keys d) ->
  dict_get d title = Some m ->
  dict_set d title (with_rating r m) = map (update_entry title r) d.
Proof.
  induction d as [|[k v] d IH]; cbn [dict_keys map fst dict_get dict_set];
    intros Hnodup Hget; [discriminate|].
  inversion Hnodup as [|? ? Hnotin Hrest]; subst.
  rewrite update_entry_shape.
  destruct (String.eqb_spec k title) as [->|Hk].
  - injection Hget as ->. now rewrite map_update_absent.
  - now rewrite IH.
Qed.

Section UpdateMovieFacts.
Variable py_float : string -> option Py.float.

Lemma ask_rating_rounds_skip (title : string) (bad : list string) (fuel : nat)
    (tail : list string) (w : world) :
  stdin (core w) = bad ++ tail ->
  forallb (rejected py_float) bad = true ->
  ask_rating_rounds py_float title (List.length bad + fuel) w
  = ask_rating_rounds py_float title fuel
      (with_core (set_stdin tail (core w)) (show (rating_rounds (List.length bad)) w)).
Proof.
  revert w. induction bad as [|text bad IH]; intros w Hin Hbad.
  - cbn in Hin. subst tail. unfold rating_rounds. cbn [List.length repeat List.concat plus].
    now rewrite with_core_same.
  - cbn [app] in Hin. cbn [forallb] in Hbad. apply andb_prop in Hbad as [Htext Hbad].
    cbn [List.length plus ask_rating_rounds].
    assert (Hask : ask NewRating w
                   = (Ok text,
                      with_core (set_stdin (bad ++ tail) (core w))
                                (show [Asked NewRating] w)))
      by (unfold ask; now rewrite Hin).
    rewrite (w_bind_ok _ _ _ _ _ Hask).
    assert (Hturn :
      match py_float text with
      | Some rating =>
          if Py.float_le (Py.float_of_int 0) rating && Py.float_le rating (Py.float_of_int 10)
          then w_bind (set_item_rating title rating) (fun _ => w_ret rating)
          else w_bind (say NeedNumber)
                      (fun _ => ask_rating_rounds py_float title (List.length bad + fuel))
      | None => w_bind (say NeedNumber)
                       (fun _ => ask_rating_rounds py_float title (List.length bad + fuel))
      end
      = w_bind (say NeedNumber)
               (fun _ => ask_rating_rounds py_float title (List.length bad + fuel))).
    { unfold rejected in Htext. destruct (py_float text) as [rating|]; [|reflexivity].
      change (Py.float_le (Py.float_of_int 0) rating
              && Py.float_le rating (Py.float_of_int 10))
        with (SFleb (S754_zero false) rating
              && SFleb rating (S754_finite false 5629499534213120 (-49))).
      destruct (SFleb (S754_zero false) rating
                && SFleb rating (S754_finite false 5629499534213120 (-49)));
        [discriminate|reflexivity]. }
    rewrite Hturn. unfold say at 1. cbn [w_bind].
    rewrite IH by (reflexivity || assumption).
    f_equal. unfold rating_rounds, with_core, show, set_stdin.
    cbn [repeat List.concat core screen omdb requested
         table movies stdin stdout entropy draws extract_calls].
    now rewrite <- !app_assoc.
Qed.

Lemma ask_rating_run (title : string) (bad : list string) (text : string)
    (rest : list string) (r : Py.float) (m : movie) (w : world) :
  stdin (core w) = bad ++ text :: rest ->
  forallb (rejected py_float) bad = true ->
  py_float text = Some r ->
  Py.float_le (Py.float_of_int 0) r && Py.float_le r (Py.float_of_int 10) = true ->
  dict_get (movies (core w)) title = Some m ->
  ask_rating py_float title w
  = (Ok r,
     with_core
       (set_movies (dict_set (movies (core w)) title (with_rating r m))
                   (set_stdin rest (core w)))
       (show (rating_rounds (List.length bad) ++ [Asked NewRating]) w)).
Proof.
  intros Hin Hbad Htext Hrange Hget. unfold ask_rating.
  rewrite Hin, length_app.
  replace (S (List.length bad + List.length (text :: rest)))
    with (List.length bad + S (List.length (text :: rest)))%nat by lia.
  rewrite (ask_rating_rounds_skip title bad _ (text :: rest) w Hin Hbad).
  cbn [ask_rating_rounds]. unfold w_bind at 1. unfold ask.
  cbn [core with_core stdin set_stdin]. rewrite Htext, Hrange.
  unfold w_bind, set_item_rating, get_movies, w_bind, put_movies, w_ret.
  cbn [core with_core show movies set_stdin]. rewrite Hget.
  f_equal. unfold with_core, show, set_stdin, set_movies, with_rating.
  cbn [core screen omdb requested table movies stdin stdout entropy draws extract_calls].
  now rewrite <- app_assoc.
Qed.

Lemma ask_rating_eof (title : string) (bad : list string) (w : world) :
  stdin (core w) = bad ->
  forallb (rejected py_float) bad = true ->
  ask_rating py_float title w
  = (Raise EOFError,
     with_core (set_stdin [] (core w))
               (show (rating_rounds (List.length bad) ++ [Asked NewRating]) w)).
Proof.
  intros Hin Hbad. unfold ask_rating. rewrite Hin.
  replace (S (List.length bad)) with (List.length bad + 1)%nat by lia.
  rewrite (ask_rating_rounds_skip title bad 1 [] w) by (now rewrite ?app_nil_r).
  cbn [ask_rating_rounds]. unfold w_bind, ask. cbn [core with_core stdin set_stdin].
  f_equal. unfold with_core, show, set_stdin.
  cbn [core screen omdb requested table movies stdin stdout entropy draws extract_calls].
  now rewrite <- app_assoc.
Qed.

End UpdateMovieFacts.

Lemma real_same (r : Py.float) : r <> S754_zero true -> movie_storage_sql.real r = r.
Proof.
  destruct r as [[|]| | |]; intros H; try reflexivity. now exfalso; apply H.
Qed.

(** X19. [update_movie] on a title of the catalogue turns down every typed
    rating that is no number or not from 0 to 10, and stores the first one
    that is: afterwards the catalogue is the one before with the rating of
    the title replaced by the rating as the REAL column gives it back, the
    dictionary [movies] is the one before with the rating of the title
    replaced by the typed rating, and the stored rating is a number from 0
    to 10.  The two dictionaries agree unless the typed rating is the
    negative zero, which is accepted and read back from the table as the
    positive zero. *)
Theorem update_movie_stores_first_valid_rating
    (py_float : string -> option Py.float)
    (title : string) (bad : list string) (text : string) (rest : list string)
    (r : Py.float) (w : world) :
  stdin (core w) = title :: bad ++ text :: rest ->
  title <> EmptyString ->
  dict_has (snapshot (core w)) title = true ->
  forallb (rejected py_float) bad = true ->
  py_float text = Some r ->
  SFleb (S754_zero false) r && SFleb r (S754_finite false 5629499534213120 (-49)) = true ->
  fst (update_movie py_float w) = Ok tt
  /\ screen (snd (update_movie py_float w))
     = screen w ++ Asked MovieName
                   :: rating_rounds (List.length bad) ++ [Asked NewRating; Updated title]
  /\ stdin (core (snd (update_movie py_float w))) = rest
  /\ snapshot (core (snd (update_movie py_float w)))
     = map (update_entry title (movie_storage_sql.real r)) (snapshot (core w))
  /\ movies (core (snd (update_movie py_float w)))
     = map (update_entry title r) (snapshot (core w))
  /\ (r <> S754_zero true ->
      movies (core (snd (update_movie py_float w)))
      = snapshot (core (snd (update_movie py_float w))))
  /\ (r = S754_zero true ->
      dict_get (movies (core (snd (update_movie py_float w)))) title
      = option_map (with_rating (S754_zero true)) (dict_get (snapshot (core w)) title)
      /\ dict_get (snapshot (core (snd (update_movie py_float w)))) title
         = option_map (with_rating (S754_zero false)) (dict_get (snapshot (core w)) title))
  /\ movie_storage_sql.real r <> S754_nan
  /\ fle (S754_zero false) (movie_storage_sql.real r)
  /\ fle (movie_storage_sql.real r) (S754_finite false 5629499534213120 (-49)).
Proof.
  intros Hin Hne Hlisted Hbad Htext Hrange.
  assert (Hnum : Py.isnan r = false).
  { destruct r; try reflexivity. discriminate Hrange. }
  set (d := snapshot (core w)) in *.
  assert (Hm : exists m, dict_get d title = Some m).
  { rewrite dict_has_get in Hlisted. destruct (dict_get d title) as [m|]; [|discriminate].
    now exists m. }
  destruct Hm as [m Hm].
  unfold update_movie.
  rewrite (w_bind_ok _ _ _ _ _ (assign_run w)). fold d.
  rewrite (w_bind_ok _ _ _ _ _
             (ask_name_run MovieName title (bad ++ text :: rest)
                (with_core (set_movies d (core w)) w) Hin Hne)).
  rewrite (w_bind_ok _ _ _ _ _ (has_title_run title _)).
  cbn [core with_core movies set_movies set_stdin]. rewrite Hlisted.
  match goal with
  | |- context [w_bind (ask_rating py_float title) _ ?x] => set (w3 := x)
  end.
  rewrite (w_bind_ok _ _ _ _ _
             (ask_rating_run py_float title bad text rest r m w3
                eq_refl Hbad Htext Hrange Hm)).
  unfold w3.
  rewrite storage_update_run, Hnum. cbn [andb].
  cbn [fst snd core show with_core screen table movies stdin
       set_table set_stdin set_movies].
  split; [reflexivity|].
  split; [now rewrite <- !app_assoc|].
  split; [reflexivity|].
  unfold snapshot.
  cbn [core show with_core table set_table set_stdin set_movies].
  rewrite list_movies_of_update. fold (snapshot (core w)).
  fold d.
  assert (Hlocal : dict_set d title (with_rating r m) = map (update_entry title r) d)
    by (apply dict_set_update; [apply snapshot_nodup|exact Hm]).
  split; [reflexivity|].
  split; [exact Hlocal|].
  split; [intros Hr; now rewrite (real_same r Hr)|].
  split.
  - intros ->. rewrite Hlocal, !dict_get_map_update, String.eqb_refl. now split.
  - apply andb_prop in Hrange as [H0 H10]. unfold fle.
    destruct r as [[|]| | |]; try discriminate; repeat split; try assumption;
      try discriminate; reflexivity.
Qed.

(** X20. [update_movie] changes the table in no other case: a title that is
    not in the catalogue is answered with "not found" without asking for a
    rating, and when every rating typed for a title of the catalogue is
    turned down, [input] raises [EOFError] with the table as it was. *)
Theorem update_movie_changes_nothing_otherwise
    (py_float : string -> option Py.float)
    (title : string) (answers : list string) (w : world) :
  stdin (core w) = title :: answers ->
  title <> EmptyString ->
  (dict_has (snapshot (core w)) title = false ->
   fst (update_movie py_float w) = Ok tt
   /\ screen (snd (update_movie py_float w))
      = screen w ++ [Asked MovieName; NoSuchMovie title]
   /\ stdin (core (snd (update_movie py_float w))) = answers
   /\ table (core (snd (update_movie py_float w))) = table (core w))
  /\ (dict_has (snapshot (core w)) title = true ->
      forallb (rejected py_float) answers = true ->
      fst (update_movie py_float w) = Raise EOFError
      /\ screen (snd (update_movie py_float w))
         = screen w ++ Asked MovieName
                       :: rating_rounds (List.length answers) ++ [Asked NewRating]
      /\ table (core (snd (update_movie py_float w))) = table (core w)
      /\ movies (core (snd (update_movie py_float w))) = snapshot (core w)).
Proof.
  intros Hin Hne. unfold update_movie.
  rewrite (w_bind_ok _ _ _ _ _ (assign_run w)).
  rewrite (w_bind_ok _ _ _ _ _
             (ask_name_run MovieName title answers
                (with_core (set_movies (snapshot (core w)) (core w)) w) Hin Hne)).
  rewrite (w_bind_ok _ _ _ _ _ (has_title_run title _)).
  cbn [core with_core movies set_movies set_stdin].
  split.
  - intros ->. unfold say.
    cbn [fst snd core show with_core screen table stdin set_stdin set_movies].
    now rewrite <- app_assoc.
  - intros -> Hbad.
    match goal with
    | |- context [w_bind (ask_rating py_float title) _ ?x] => set (w3 := x)
    end.
    rewrite (w_bind_raise _ _ _ _ _
               (ask_rating_eof py_float title answers w3 eq_refl Hbad)).
    unfold w3.
    cbn [fst snd core show with_core screen table movies stdin set_stdin set_movies].
    now rewrite <- !app_assoc.
Qed.

(** * Beyond the claims: the HTML of the catalogue *)

Lemma string_app_assoc (a b c : string) : ((a ++ b) ++ c = a ++ (b ++ c))%string.
Proof.
  induction a as [|ch a IH]; simpl; [reflexivity|now rewrite IH].
Qed.

Lemma string_app_nil_r (a : string) : (a ++ EmptyString = a)%string.
Proof.
  induction a as [|ch a IH]; simpl; [reflexivity|now rewrite IH].
Qed.

Lemma contains_inside (n a b c : string) :
  Py.contains n b = true -> Py.contains n (a ++ b ++ c) = true.
Proof.
  rewrite !contains_iff. intros (pre & post & ->).
  exists (a ++ pre)%string, (post ++ c)%string. now rewrite !string_app_assoc.
Qed.

Lemma html_fold (d : dict) (acc : string) :
  fold_left (fun output entry =>
               (output ++ serialize_movie (fst entry) (snd entry))%string) d acc
  = (acc ++ fold_right (fun entry rest =>
                          (serialize_movie (fst entry) (snd entry) ++ rest)%string)
                       EmptyString d)%string.
Proof.
  revert acc. induction d as [|e d IH]; intros acc; cbn [fold_left fold_right].
  - now rewrite string_app_nil_r.
  - now rewrite IH, string_app_assoc.
Qed.

Lemma html_split (l1 l2 : dict) (e : string * movie) :
  fold_right (fun entry rest =>
                (serialize_movie (fst entry) (snd entry) ++ rest)%string)
             EmptyString (l1 ++ e :: l2)
  = (fold_right (fun entry rest =>
                   (serialize_movie (fst entry) (snd entry) ++ rest)%string)
                EmptyString l1
     ++ serialize_movie (fst e) (snd e)
     ++ fold_right (fun entry rest =>
                      (serialize_movie (fst entry) (snd entry) ++ rest)%string)
                   EmptyString l2)%string.
Proof.
  induction l1 as [|e1 l1 IH]; cbn [app fold_right]; [reflexivity|].
  now rewrite IH, string_app_assoc.
Qed.

(** X21. [create_movies_html] gives the "no movie" heading for the empty
    catalogue and for no other; for a catalogue that is not empty, the
    page contains, for each movie, its title, its poster address and its
    year, as they are stored (nothing is escaped). *)
Theorem create_movies_html_shows_every_movie (d : dict) :
  (create_movies_html d = "<h2>There is no movie at the moment</h2>" <-> d = [])
  /\ forall (title : string) (infos : movie),
      In (title, infos) d ->
      Py.contains title (create_movies_html d) = true
      /\ Py.contains (image infos) (create_movies_html d) = true
      /\ Py.contains (str_of_int (year infos)) (create_movies_html d) = true.
Proof.
  split.
  - split; [|now intros ->].
    destruct d as [|e d]; [reflexivity|]. intros H. exfalso.
    unfold create_movies_html in H. rewrite html_fold in H.
    cbn [fold_right] in H. unfold serialize_movie in H. simpl in H. discriminate H.
  - intros title infos Hin.
    assert (Hpage : exists before after,
               create_movies_html d
               = (before ++ serialize_movie title infos ++ after)%string).
    { destruct (in_split _ _ Hin) as (l1 & l2 & ->).
      assert (Hne : l1 ++ (title, infos) :: l2 <> []) by now destruct l1.
      unfold create_movies_html.
      destruct (l1 ++ (title, infos) :: l2) eqn:Hd; [contradiction|]. rewrite <- Hd.
      rewrite html_fold, html_split. cbn [append fst snd]. now eexists; eexists. }
    destruct Hpage as (before & after & ->).
    repeat split; apply contains_inside; apply contains_iff; unfold serialize_movie.
    + exists ("<li>" ++ "<div class=" ++ dq ++ "movie" ++ dq ++ ">"
              ++ "<img class=" ++ dq ++ "movie-poster" ++ dq
              ++ "src=" ++ dq ++ image infos ++ dq ++ ">"
              ++ "<div class=" ++ dq ++ "movie-title" ++ dq ++ ">")%string.
      eexists. rewrite !string_app_assoc. reflexivity.
    + exists ("<li>" ++ "<div class=" ++ dq ++ "movie" ++ dq ++ ">"
              ++ "<img class=" ++ dq ++ "movie-poster" ++ dq
              ++ "src=" ++ dq)%string.
      eexists. rewrite !string_app_assoc. reflexivity.
    + exists ("<li>" ++ "<div class=" ++ dq ++ "movie" ++ dq ++ ">"
              ++ "<img class=" ++ dq ++ "movie-poster" ++ dq
              ++ "src=" ++ dq ++ image infos ++ dq ++ ">"
              ++ "<div class=" ++ dq ++ "movie-title" ++ dq ++ ">" ++ title ++ "</div>"
              ++ "<div class=" ++ dq ++ "movie-year" ++ dq ++ ">")%string.
      eexists. rewrite !string_app_assoc. reflexivity.
Qed.


(** * The further statements on the sample catalogues *)

Lemma abc_titles_distinct : NoDup (titles_of abc_rows).
Proof.
  repeat (constructor; [simpl; intuition discriminate|]). constructor.
Defined.

Lemma search_skips_empty_titles_witness :
  stdin (start matrix_rows [EmptyString; EmptyString; "RELOADED"])
  = repeat EmptyString 2 ++ ["RELOADED"]
  /\ "RELOADED" <> EmptyString
  /\ search_movie Py.ascii_lower matrix_scores
       (start matrix_rows [EmptyString; EmptyString; "RELOADED"])
     = search_movie Py.ascii_lower matrix_scores
         (set_stdin ["RELOADED"]
            (emit (empty_rounds 2)
                  (start matrix_rows [EmptyString; EmptyString; "RELOADED"]))).
Proof.
  split; [reflexivity|]. split; [discriminate|].
  apply (search_skips_empty_titles Py.ascii_lower matrix_scores
           (start matrix_rows [EmptyString; EmptyString; "RELOADED"]) 2 "RELOADED" []).
  - reflexivity.
  - discriminate.
Defined.

Lemma search_without_title_raises_witness :
  stdin (start matrix_rows [EmptyString; EmptyString]) = repeat EmptyString 2
  /\ fst (search_movie Py.ascii_lower matrix_scores
            (start matrix_rows [EmptyString; EmptyString]))
     = Raise EOFError
  /\ stdout (snd (search_movie Py.ascii_lower matrix_scores
                    (start matrix_rows [EmptyString; EmptyString])))
     = [Prompt; PleaseEnter; Prompt; PleaseEnter; Prompt].
Proof.
  split; [reflexivity|].
  rewrite (search_without_title_raises Py.ascii_lower matrix_scores
             (start matrix_rows [EmptyString; EmptyString]) 2 eq_refl).
  split; reflexivity.
Defined.

Lemma random_movie_picks_a_record_witness :
  snapshot (mkState abc_rows [] [] [] (fun _ => 1%nat) 0 0) <> []
  /\ (entropy (mkState abc_rows [] [] [] (fun _ => 1%nat) 0 0)
        (draws (mkState abc_rows [] [] [] (fun _ => 1%nat) 0 0))
      < List.length (snapshot (mkState abc_rows [] [] [] (fun _ => 1%nat) 0 0)))%nat
  /\ exists entry : string * movie,
      nth_error (snapshot (mkState abc_rows [] [] [] (fun _ => 1%nat) 0 0)) 1 = Some entry
      /\ In entry (snapshot (mkState abc_rows [] [] [] (fun _ => 1%nat) 0 0))
      /\ random_movie (mkState abc_rows [] [] [] (fun _ => 1%nat) 0 0)
         = (Ok tt,
            emit [TonightLine (fst entry) (rating (snd entry))]
                 (count_draw
                    (set_movies (snapshot (mkState abc_rows [] [] [] (fun _ => 1%nat) 0 0))
                                (mkState abc_rows [] [] [] (fun _ => 1%nat) 0 0)))).
Proof.
  split; [discriminate|]. split; [cbn; lia|].
  apply (random_movie_picks_a_record (mkState abc_rows [] [] [] (fun _ => 1%nat) 0 0)).
  - discriminate.
  - cbn. lia.
Defined.

Lemma stats_names_best_and_worst_witness :
  numeric (table (start tie_rows []))
  /\ snapshot (start tie_rows []) <> []
  /\ exists out : list line,
      stats Py.From312 (start tie_rows [])
      = (Ok tt, emit out (set_movies (snapshot (start tie_rows [])) (start tie_rows [])))
      /\ best_of out <> []
      /\ worst_of out <> [].
Proof.
  split; [exact tie_rows_numeric|]. split; [discriminate|].
  apply (stats_names_best_and_worst Py.From312 (start tie_rows []) tie_rows_numeric).
  discriminate.
Defined.

Lemma list_movies_reads_rows_back_witness :
  NoDup (titles_of abc_rows)
  /\ storage.list_movies_of abc_rows = map row_entry abc_rows
  /\ forall (t : string) (y : Z) (r : Py.float) (img : string),
      In (t, y, r, img) abc_rows ->
      dict_get (storage.list_movies_of abc_rows) t = Some (mkMovie y r img).
Proof.
  split; [exact abc_titles_distinct|].
  exact (list_movies_reads_rows_back abc_rows abc_titles_distinct).
Defined.

Lemma storage_add_then_list_witness :
  ~ In "D" (titles_of (table (core (session abc_rows []))))
  /\ movie_storage_sql.int64 2004 = true
  /\ Py.float_of_int 6 <> Py.nan
  /\ table (core (snd (movie_storage_sql.add_movie "D" 2004 (Py.float_of_int 6) "d.jpg"
                         (session abc_rows []))))
     = abc_rows ++ [("D", 2004%Z, Py.float_of_int 6, "d.jpg")]
  /\ dict_get (snapshot (core (snd (movie_storage_sql.add_movie "D" 2004
                                      (Py.float_of_int 6) "d.jpg"
                                      (session abc_rows []))))) "D"
     = Some (mkMovie 2004 (Py.float_of_int 6) "d.jpg").
Proof.
  assert (Hfresh : ~ In "D" (titles_of (table (core (session abc_rows []))))).
  { simpl. intuition discriminate. }
  assert (Hnum : Py.float_of_int 6 <> Py.nan) by discriminate.
  split; [exact Hfresh|]. split; [reflexivity|]. split; [exact Hnum|].
  destruct (storage_add_then_list "D" 2004 (Py.float_of_int 6) "d.jpg"
              (session abc_rows []) Hfresh eq_refl Hnum)
    as (Hrun & Hget & _).
  split; [now rewrite Hrun|exact Hget].
Defined.

Lemma storage_keeps_titles_unique_witness :
  NoDup (titles_of (table (core (session abc_rows []))))
  /\ NoDup (titles_of (table (core (snd (movie_storage_sql.add_movie "B" 2004
                                          (Py.float_of_int 6) "d.jpg"
                                          (session abc_rows []))))))
  /\ movie_storage_sql.add_movie "B" 2004 (Py.float_of_int 6) "d.jpg" (session abc_rows [])
     = (Ok tt, show [StorageError] (session abc_rows [])).
Proof.
  split; [exact abc_titles_distinct|].
  destruct (storage_keeps_titles_unique "B" 2004 (Py.float_of_int 6) "d.jpg"
              (session abc_rows []) abc_titles_distinct) as (Hadd & _ & _ & Hdup).
  split; [exact Hadd|]. apply Hdup. simpl. tauto.
Defined.

Lemma storage_update_then_list_witness :
  Py.float_literal 95 10 <> Py.nan
  /\ dict_get (snapshot (core (session abc_rows []))) "B" <> None
  /\ snapshot (core (snd (movie_storage_sql.update_movie "B" (Py.float_literal 95 10)
                            (session abc_rows []))))
     = map (update_entry "B" (Py.float_literal 95 10)) (snapshot (core (session abc_rows [])))
  /\ movie_storage_sql.update_movie "B" Py.nan (session abc_rows [])
     = (Ok tt, show [StorageError] (session abc_rows [])).
Proof.
  assert (Hnum : Py.float_literal 95 10 <> Py.nan) by discriminate.
  assert (Hlisted : dict_get (snapshot (core (session abc_rows []))) "B" <> None)
    by discriminate.
  split; [exact Hnum|]. split; [exact Hlisted|]. split.
  - destruct (storage_update_then_list "B" (Py.float_literal 95 10) (session abc_rows []))
      as (_ & _ & _ & Hset & _).
    destruct (Hset Hnum) as (_ & Hsnap & _). exact Hsnap.
  - destruct (storage_update_then_list "B" Py.nan (session abc_rows []))
      as (_ & _ & _ & _ & Hnan).
    exact (Hnan eq_refl Hlisted).
Defined.

Lemma storage_keeps_ratings_numeric_witness :
  numeric (table (core (session abc_rows [])))
  /\ numeric (table (core (snd (movie_storage_sql.update_movie "B" Py.nan
                                  (session abc_rows [])))))
  /\ movie_storage_sql.add_movie "D" 2004 Py.nan "d.jpg" (session abc_rows [])
     = (Ok tt, show [StorageError] (session abc_rows []))
  /\ movie_storage_sql.add_movie "D" (2 ^ 63) (Py.float_of_int 6) "d.jpg"
       (session abc_rows [])
     = (Ok tt, show [StorageError] (session abc_rows [])).
Proof.
  split; [exact abc_rows_numeric|].
  split; [|split].
  - exact (proj1 (proj2 (proj2 (storage_keeps_ratings_numeric "B" 2004 Py.nan "d.jpg"
                                  (session abc_rows []) abc_rows_numeric)))).
  - apply (storage_keeps_ratings_numeric "D" 2004 Py.nan "d.jpg"
             (session abc_rows []) abc_rows_numeric).
    now right.
  - apply (storage_keeps_ratings_numeric "D" (2 ^ 63) (Py.float_of_int 6) "d.jpg"
             (session abc_rows []) abc_rows_numeric).
    now left.
Defined.

Lemma editing_skips_empty_names_witness :
  stdin (core (session abc_rows [EmptyString; "B"])) = repeat EmptyString 1 ++ ["B"]
  /\ "B" <> EmptyString
  /\ delete_movie (session abc_rows [EmptyString; "B"])
     = delete_movie
         (with_core (set_stdin ["B"] (core (session abc_rows [EmptyString; "B"])))
                    (show (empty_name_rounds NameToDelete 1)
                          (session abc_rows [EmptyString; "B"]))).
Proof.
  split; [reflexivity|]. split; [discriminate|].
  apply (editing_skips_empty_names sample_int sample_float 1 "B" []
           (session abc_rows [EmptyString; "B"])).
  - reflexivity.
  - discriminate.
Defined.

Lemma delete_movie_removes_title_witness :
  stdin (core (session abc_rows ["B"])) = ["B"]
  /\ "B" <> EmptyString
  /\ screen (snd (delete_movie (session abc_rows ["B"])))
     = [Asked NameToDelete; Deleted "B"]
  /\ dict_get (snapshot (core (snd (delete_movie (session abc_rows ["B"]))))) "B" = None.
Proof.
  split; [reflexivity|]. split; [discriminate|].
  destruct (delete_movie_removes_title "B" [] (session abc_rows ["B"]) eq_refl)
    as (_ & Hscreen & Hgone & _); [discriminate|].
  split; [rewrite Hscreen; reflexivity|exact Hgone].
Defined.

Lemma add_movie_listed_title_witness :
  stdin (core (session abc_rows ["A"])) = ["A"]
  /\ "A" <> EmptyString
  /\ dict_has (snapshot (core (session abc_rows ["A"]))) "A" = true
  /\ screen (snd (add_movie sample_int sample_float (session abc_rows ["A"])))
     = [Asked NewMovieName; AlreadyExist "A"]
  /\ requested (snd (add_movie sample_int sample_float (session abc_rows ["A"]))) = [].
Proof.
  split; [reflexivity|]. split; [discriminate|]. split; [reflexivity|].
  destruct (add_movie_listed_title sample_int sample_float "A" []
              (session abc_rows ["A"]) eq_refl) as (_ & Hscreen & _ & Hreq).
  - discriminate.
  - reflexivity.
  - split; [rewrite Hscreen; reflexivity|exact Hreq].
Defined.

Lemma add_movie_stores_provider_record_witness :
  stdin (core (session abc_rows ["matrix"])) = ["matrix"]
  /\ "matrix" <> EmptyString
  /\ (- 2 ^ 63 <= 1999 < 2 ^ 63)%Z
  /\ Py.float_literal 87 10 <> S754_nan
  /\ table (core (snd (add_movie sample_int sample_float (session abc_rows ["matrix"]))))
     = abc_rows ++ [("The Matrix", 1999%Z, Py.float_literal 87 10, "m1.jpg")]
  /\ dict_get (snapshot (core (snd (add_movie sample_int sample_float
                                      (session abc_rows ["matrix"]))))) "The Matrix"
     = Some (mkMovie 1999 (Py.float_literal 87 10) "m1.jpg").
Proof.
  assert (Hfits : (- 2 ^ 63 <= 1999 < 2 ^ 63)%Z) by (split; [discriminate|reflexivity]).
  assert (Hnum : Py.float_literal 87 10 <> S754_nan) by discriminate.
  split; [reflexivity|]. split; [discriminate|].
  split; [exact Hfits|]. split; [exact Hnum|].
  destruct (add_movie_stores_provider_record sample_int sample_float "matrix" []
              (session abc_rows ["matrix"])
              [("Title", "The Matrix"); ("Year", "1999");
               ("imdbRating", "8.7"); ("Poster", "m1.jpg")]
              "The Matrix" "1999" "8.7" "m1.jpg" 1999 (Py.float_literal 87 10) eq_refl)
    as (_ & Htable & _ & _ & Hget & _);
    try reflexivity; try assumption; [discriminate|].
  split; [exact Htable|exact Hget].
Defined.

Lemma add_movie_without_record_witness :
  stdin (core (session abc_rows ["offline"])) = ["offline"]
  /\ "offline" <> EmptyString
  /\ dict_has (snapshot (core (session abc_rows ["offline"]))) "offline" = false
  /\ screen (snd (add_movie sample_int sample_float (session abc_rows ["offline"])))
     = [Asked NewMovieName; NoConnection]
  /\ table (core (snd (add_movie sample_int sample_float (session abc_rows ["offline"]))))
     = abc_rows.
Proof.
  split; [reflexivity|]. split; [discriminate|]. split; [reflexivity|].
  destruct (add_movie_without_record sample_int sample_float "offline" []
              (session abc_rows ["offline"]) eq_refl) as (_ & Hscreen & Htable & _).
  - discriminate.
  - reflexivity.
  - exact I.
  - split; [rewrite Hscreen; reflexivity|exact Htable].
Defined.

Lemma add_movie_bad_number_raises_witness :
  stdin (core (session abc_rows ["unrated"])) = ["unrated"]
  /\ "unrated" <> EmptyString
  /\ sample_float "N/A" = None
  /\ fst (add_movie sample_int sample_float (session abc_rows ["unrated"]))
     = Raise ValueError
  /\ table (core (snd (add_movie sample_int sample_float (session abc_rows ["unrated"]))))
     = abc_rows.
Proof.
  split; [reflexivity|]. split; [discriminate|]. split; [reflexivity|].
  destruct (add_movie_bad_number_raises sample_int sample_float "unrated" []
              (session abc_rows ["unrated"])
              [("Title", "Unrated"); ("Year", "2003");
               ("imdbRating", "N/A"); ("Poster", "u.jpg")]
              "Unrated" "2003" eq_refl) as (Hraise & _ & Htable);
    try reflexivity; [discriminate| |].
  - right. exists "N/A". split; reflexivity.
  - split; [exact Hraise|exact Htable].
Defined.

Lemma add_movie_never_duplicates_witness :
  stdin (core (session abc_rows ["late"])) = ["late"]
  /\ "late" <> EmptyString
  /\ exists out : list message,
      screen (snd (add_movie sample_int sample_float (session abc_rows ["late"])))
      = screen (session abc_rows ["late"]) ++ Asked NewMovieName :: out
      /\ ((table (core (snd (add_movie sample_int sample_float
                               (session abc_rows ["late"]))))
           = table (core (session abc_rows ["late"]))
           /\ forall t, ~ In (Stored t) out)
          \/ exists r : row,
              table (core (snd (add_movie sample_int sample_float
                                  (session abc_rows ["late"]))))
              = table (core (session abc_rows ["late"])) ++ [r]
              /\ ~ In (movie_storage_sql.title_of r)
                      (titles_of (table (core (session abc_rows ["late"]))))
              /\ out = [Stored (movie_storage_sql.title_of r)]).
Proof.
  split; [reflexivity|]. split; [discriminate|].
  destruct (add_movie_never_duplicates sample_int sample_float "late" []
              (session abc_rows ["late"]) eq_refl) as (out & Hscreen & _ & Hkept & _).
  - discriminate.
  - exists out. split; [exact Hscreen|exact Hkept].
Defined.

(** A record whose year does not fit 64 bits, and one whose rating is
    not-a-number, are turned down by the storage: its error message is
    written and no row is stored. *)
Example add_movie_storage_errors :
  screen (snd (add_movie sample_int sample_float (session abc_rows ["late"])))
  = [Asked NewMovieName; StorageError]
  /\ table (core (snd (add_movie sample_int sample_float (session abc_rows ["late"]))))
     = abc_rows
  /\ screen (snd (add_movie sample_int sample_float (session abc_rows ["blank"])))
     = [Asked NewMovieName; StorageError]
  /\ table (core (snd (add_movie sample_int sample_float (session abc_rows ["blank"]))))
     = abc_rows.
Proof.
  repeat split; vm_compute; reflexivity.
Qed.

Lemma update_movie_stores_first_valid_rating_witness :
  stdin (core (session abc_rows ["B"; "x"; "11"; "nan"; "9.5"; "more"]))
  = "B" :: ["x"; "11"; "nan"] ++ "9.5" :: ["more"]
  /\ forallb (rejected sample_float) ["x"; "11"; "nan"] = true
  /\ sample_float "9.5" = Some (Py.float_literal 95 10)
  /\ screen (snd (update_movie sample_float
                    (session abc_rows ["B"; "x"; "11"; "nan"; "9.5"; "more"])))
     = [Asked MovieName; Asked NewRating; NeedNumber; Asked NewRating; NeedNumber;
        Asked NewRating; NeedNumber; Asked NewRating; Updated "B"]
  /\ snapshot (core (snd (update_movie sample_float
                            (session abc_rows ["B"; "x"; "11"; "nan"; "9.5"; "more"]))))
     = map (update_entry "B" (Py.float_literal 95 10))
           (snapshot (core (session abc_rows ["B"; "x"; "11"; "nan"; "9.5"; "more"])))
  /\ movies (core (snd (update_movie sample_float
                          (session abc_rows ["B"; "x"; "11"; "nan"; "9.5"; "more"]))))
     = snapshot (core (snd (update_movie sample_float
                              (session abc_rows ["B"; "x"; "11"; "nan"; "9.5"; "more"])))).
Proof.
  split; [reflexivity|]. split; [reflexivity|]. split; [reflexivity|].
  destruct (update_movie_stores_first_valid_rating sample_float
              "B" ["x"; "11"; "nan"] "9.5" ["more"] (Py.float_literal 95 10)
              (session abc_rows ["B"; "x"; "11"; "nan"; "9.5"; "more"]) eq_refl)
    as (_ & Hscreen & _ & Hsnap & _ & Hsame & _); try reflexivity; [discriminate|].
  split; [rewrite Hscreen; reflexivity|]. split; [exact Hsnap|].
  apply Hsame. discriminate.
Defined.

(** The typed rating [-0.0] is accepted: the dictionary [movies] then
    holds the negative zero and the table the positive zero. *)
Example update_movie_negative_zero :
  dict_get (movies (core (snd (update_movie sample_float (session abc_rows ["B"; "-0.0"])))))
           "B"
  = Some (mkMovie 2002 (S754_zero true) "b.jpg")
  /\ dict_get (snapshot (core (snd (update_movie sample_float
                                      (session abc_rows ["B"; "-0.0"])))))
              "B"
     = Some (mkMovie 2002 (S754_zero false) "b.jpg").
Proof.
  split; vm_compute; reflexivity.
Qed.

Lemma update_movie_changes_nothing_otherwise_witness :
  stdin (core (session abc_rows ["Z"; "9.5"])) = ["Z"; "9.5"]
  /\ "Z" <> EmptyString
  /\ dict_has (snapshot (core (session abc_rows ["Z"; "9.5"]))) "Z" = false
  /\ screen (snd (update_movie sample_float (session abc_rows ["Z"; "9.5"])))
     = [Asked MovieName; NoSuchMovie "Z"]
  /\ table (core (snd (update_movie sample_float (session abc_rows ["Z"; "9.5"]))))
     = abc_rows.
Proof.
  split; [reflexivity|]. split; [discriminate|]. split; [reflexivity|].
  destruct (update_movie_changes_nothing_otherwise sample_float "Z" ["9.5"]
              (session abc_rows ["Z"; "9.5"]) eq_refl) as [Hunlisted _];
    [discriminate|].
  destruct (Hunlisted eq_refl) as (_ & Hscreen & _ & Htable).
  split; [rewrite Hscreen; reflexivity|exact Htable].
Defined.
